(** * algobot: the worker thread of the trading bot (threads/botThread.py)

    A shallow embedding of [BotThread]: the set-up of a live or simulated
    trader, the polling loop, the trailing-price ratchets, the lower-interval
    trend check, the periodic statistics scheduler and the statistics
    dictionary, followed by the properties proved about them.

    Python objects shared with the GUI thread are kept in one store ([Gui]);
    the collaborators that are not part of this file (traders, data feeds,
    the telegram bot, the GUI's own methods, the clock) are a record of
    functions over that store, so every result below holds for whatever
    these collaborators do. *)

From Stdlib Require Import ZArith List String Ascii Bool Lia DecimalString.
Import ListNotations.

Local Open Scope string_scope.
Local Open Scope Z_scope.

(** ** Numbers

    Balances, prices and percentages are Python floats.  The worker only
    compares them ([<], [>]), rounds them ([round(x, n)]), takes [abs] and
    renders them in f-strings, so the embedding is stated over any type with
    these four operations.  The two laws hold of IEEE doubles, NaN included
    (every comparison with NaN is false). *)

Class Number (F : Type) := {
  flt : F -> F -> bool;
  fround : F -> Z -> F;
  fabs : F -> F;
  fstr : F -> string;
  flt_irrefl : forall a, flt a a = false;
  flt_asym : forall a b, flt a b = true -> flt b a = false
}.

(** Python's [a > b] on floats is [b < a]. *)
Definition fgt {F} `{Number F} (a b : F) : bool := flt b a.

(** [str(n)] of a Python int. *)
Definition str_int (n : Z) : string := NilZero.string_of_int (Z.to_int n).

(** ** Exact decimals, an instance of [Number]

    A decimal [mant / 10^scale].  Away from ties and from the exponent
    notation of very large or very small floats, [round], [abs], the
    comparisons and [str] of Python floats agree with it on short decimal
    literals. *)

Module Decimal.

Record t := mk { mant : Z; scale : nat }.

Definition pow10 (n : nat) : Z := 10 ^ Z.of_nat n.

Definition lt (a b : t) : bool :=
  mant a * pow10 (scale b) <? mant b * pow10 (scale a).

(** Round half to even on the quotient by [p]. *)
Definition div_half_even (m p : Z) : Z :=
  let q := m / p in
  let r := m mod p in
  if 2 * r >? p then q + 1
  else if 2 * r =? p then (if Z.even q then q else q + 1)
  else q.

Definition round (a : t) (ndigits : Z) : t :=
  if ndigits <? 0 then
    let k := Z.to_nat (- ndigits) in
    mk (div_half_even (mant a) (pow10 (scale a + k)) * pow10 k) 0
  else
    let n := Z.to_nat ndigits in
    if (scale a <=? n)%nat then a
    else mk (div_half_even (mant a) (pow10 (scale a - n))) n.

Definition abs (a : t) : t := mk (Z.abs (mant a)) (scale a).

(** Drop trailing zeros of the fraction, keeping one digit after the point
    as [repr] of a float does ([10.0], [0.5]). *)
Fixpoint normalize (m : Z) (s : nat) : Z * nat :=
  match s with
  | O => (m * 10, 1%nat)
  | S O => (m, 1%nat)
  | S s' => if m mod 10 =? 0 then normalize (m / 10) s' else (m, s)
  end.

Definition digit (d : Z) : ascii := ascii_of_nat (48 + Z.to_nat d).

(** The [n] low decimal digits of [z], zero padded. *)
Fixpoint digits (n : nat) (z : Z) : string :=
  match n with
  | O => EmptyString
  | S n' => digits n' (z / 10) ++ String (digit (z mod 10)) EmptyString
  end.

Definition str (a : t) : string :=
  let '(m, s) := normalize (mant a) (scale a) in
  (if m <? 0 then "-" else "") ++
  str_int (Z.abs m / pow10 s) ++ "." ++ digits s (Z.abs m mod pow10 s).

Lemma lt_irrefl a : lt a a = false.
Proof. unfold lt. apply Z.ltb_irrefl. Qed.

Lemma lt_asym a b : lt a b = true -> lt b a = false.
Proof.
  unfold lt. intros Hab. apply Z.ltb_lt in Hab. apply Z.ltb_ge. lia.
Qed.

(** [q] is a whole number of units of [10^-n]: a decimal of [n] places. *)
Definition places (n : nat) (q : t) : bool :=
  (mant q * pow10 n) mod pow10 (scale q) =? 0.

(** [q] is within half a unit of [10^-n] of [a]: no decimal of [n] places
    is closer to [a] than [q] is. *)
Definition closest (n : nat) (a q : t) : bool :=
  2 * Z.abs (mant a * pow10 (scale q) - mant q * pow10 (scale a)) * pow10 n
  <=? pow10 (scale a) * pow10 (scale q).

(** [r] is [q] up to the relative error of a double, [2^-53]. *)
Definition near (r q : t) : bool :=
  2 ^ 53 * Z.abs (mant r * pow10 (scale q) - mant q * pow10 (scale r))
  <=? Z.abs (mant q) * pow10 (scale r).

Lemma pow10_pos n : 0 < pow10 n.
Proof. unfold pow10. apply Z.pow_pos_nonneg; lia. Qed.

Lemma pow10_add a b : pow10 (a + b) = pow10 a * pow10 b.
Proof. unfold pow10. rewrite Nat2Z.inj_add. apply Z.pow_add_r; lia. Qed.

Lemma div_half_even_close m p :
  0 < p -> 2 * Z.abs (m - div_half_even m p * p) <= p.
Proof.
  intros Hp. unfold div_half_even.
  pose proof (Z.div_mod m p ltac:(lia)) as Hm.
  pose proof (Z.mod_pos_bound m p Hp) as Hr.
  destruct (Z.gtb_spec (2 * (m mod p)) p).
  - replace (m - (m / p + 1) * p) with (m mod p - p) by lia. lia.
  - destruct (Z.eqb_spec (2 * (m mod p)) p).
    + destruct (Z.even (m / p)).
      * replace (m - m / p * p) with (m mod p) by lia. lia.
      * replace (m - (m / p + 1) * p) with (m mod p - p) by lia. lia.
    + replace (m - m / p * p) with (m mod p) by lia. lia.
Qed.

(** [round a n] is a decimal of [n] places, and none is closer to [a]. *)
Lemma round_places a n : places n (round a (Z.of_nat n)) = true.
Proof.
  unfold places, round.
  destruct (Z.ltb_spec (Z.of_nat n) 0); [ lia | ].
  rewrite Nat2Z.id.
  destruct (Nat.leb_spec (scale a) n) as [Hle|Hlt]; cbn [mant scale].
  - apply Z.eqb_eq.
    replace n with ((n - scale a) + scale a)%nat at 1 by lia.
    rewrite pow10_add, Z.mul_assoc. apply Z.mod_mul.
    pose proof (pow10_pos (scale a)). lia.
  - apply Z.eqb_eq. apply Z.mod_mul. pose proof (pow10_pos n). lia.
Qed.

Lemma round_closest a n : closest n a (round a (Z.of_nat n)) = true.
Proof.
  unfold closest, round.
  destruct (Z.ltb_spec (Z.of_nat n) 0); [ lia | ].
  rewrite Nat2Z.id.
  destruct (Nat.leb_spec (scale a) n) as [Hle|Hlt]; cbn [mant scale]; apply Z.leb_le.
  - rewrite Z.sub_diag. cbn [Z.abs]. rewrite Z.mul_0_r, Z.mul_0_l.
    pose proof (pow10_pos (scale a)). nia.
  - pose proof (div_half_even_close (mant a) (pow10 (scale a - n)) (pow10_pos _)) as H1.
    set (q := div_half_even (mant a) (pow10 (scale a - n))) in *.
    assert (Hs : pow10 (scale a) = pow10 (scale a - n) * pow10 n).
    { rewrite <- pow10_add. f_equal. lia. }
    rewrite Hs. set (p := pow10 (scale a - n)) in *. set (u := pow10 n).
    assert (Hu : 0 < u) by apply pow10_pos.
    replace (mant a * u - q * (p * u)) with ((mant a - q * p) * u) by ring.
    rewrite Z.abs_mul, (Z.abs_eq u) by lia.
    nia.
Qed.

Lemma near_refl q : near q q = true.
Proof.
  unfold near. apply Z.leb_le. rewrite Z.sub_diag. cbn [Z.abs]. rewrite Z.mul_0_r.
  pose proof (pow10_pos (scale q)). pose proof (Z.abs_nonneg (mant q)). nia.
Qed.

End Decimal.

#[export] Instance Decimal_Number : Number Decimal.t := {|
  flt := Decimal.lt;
  fround := Decimal.round;
  fabs := Decimal.abs;
  fstr := Decimal.str;
  flt_irrefl := Decimal.lt_irrefl;
  flt_asym := Decimal.lt_asym
|}.

(** ** What [round] and [abs] compute

    Every finite double is a whole number of units of [2^-1074], so it is a
    decimal exactly: [fvalue x] is that decimal, and there is none for NaN
    and the infinities.  Python's [round(x, n)] is correctly rounded: for
    [n] from 0 to 22 it returns the double nearest to the decimal of [n]
    places nearest to the exact value of [x], a tie going to the even
    digit, and that double is within the relative error [2^-53] of the
    decimal.  [abs] is exact. *)

Class Rounding (F : Type) `{Number F} := {
  fvalue : F -> option Decimal.t;
  fround_value : forall x n a,
    (n <= 22)%nat -> fvalue x = Some a ->
    exists r, fvalue (fround x (Z.of_nat n)) = Some r /\
              Decimal.near r (Decimal.round a (Z.of_nat n)) = true;
  fabs_value : forall x, fvalue (fabs x) = option_map Decimal.abs (fvalue x)
}.

Lemma decimal_fround_value (x : Decimal.t) (n : nat) (a : Decimal.t) :
  (n <= 22)%nat -> Some x = Some a ->
  exists r, Some (Decimal.round x (Z.of_nat n)) = Some r /\
            Decimal.near r (Decimal.round a (Z.of_nat n)) = true.
Proof.
  intros _ E. injection E as <-.
  exists (Decimal.round x (Z.of_nat n)). split; [ reflexivity | apply Decimal.near_refl ].
Qed.

#[export] Instance Decimal_Rounding : Rounding Decimal.t := {|
  fvalue := Some;
  fround_value := decimal_fround_value;
  fabs_value := fun x => eq_refl
|}.

Example decimal_str_1 : Decimal.str (Decimal.mk 1234 3) = "1.234".
Proof. reflexivity. Qed.
Example decimal_str_2 : Decimal.str (Decimal.round (Decimal.mk 1234 3) 2) = "1.23".
Proof. reflexivity. Qed.
Example decimal_str_3 : Decimal.str (Decimal.round (Decimal.mk 1000 2) 2) = "10.0".
Proof. reflexivity. Qed.
Example decimal_str_4 : Decimal.str (Decimal.round (Decimal.mk (-1231) 3) 2) = "-1.23".
Proof. reflexivity. Qed.
Example decimal_str_5 : Decimal.str (Decimal.round (Decimal.mk 5 2) 6) = "0.05".
Proof. reflexivity. Qed.
Example decimal_str_6 : Decimal.str (Decimal.round (Decimal.mk 12345 1) (-2)) = "1200.0".
Proof. reflexivity. Qed.

(** ** Constants of the enums module

    Modelled from the spec: [enums.py] ([LIVE], [SIMULATION], [BEARISH],
    [BULLISH]) is not among the sources.  The spec gives the mode as the
    enumeration LIVE / SIMULATED and the trend as bullish / bearish / none;
    a caller is an [int] in the source, so any other integer is kept as
    [OtherCaller].  The integers behind [LIVE] and [SIMULATION] are taken
    with the collaborators below. *)

Inductive Caller := LIVE | SIMULATION | OtherCaller (n : Z).

Inductive Trend := BEARISH | BULLISH.

(** A trend as the trader reports it: [BEARISH], [BULLISH] or [None]. *)
Definition trend_eqb (a b : option Trend) : bool :=
  match a, b with
  | None, None => true
  | Some BEARISH, Some BEARISH => true
  | Some BULLISH, Some BULLISH => true
  | _, _ => false
  end.

Lemma trend_eqb_eq a b : trend_eqb a b = true <-> a = b.
Proof.
  destruct a as [[|]|], b as [[|]|]; simpl; split; intros E;
    try reflexivity; try discriminate E.
Qed.

(** ** Exceptions and results *)

Record Exn := mkExn { exn_class : string; exn_str : string }.

Definition ValueError (msg : string) : Exn := mkExn "ValueError" msg.
Definition TypeError (msg : string) : Exn := mkExn "TypeError" msg.
Definition RuntimeError (msg : string) : Exn := mkExn "RuntimeError" msg.
Definition KeyError (key : string) : Exn := mkExn "KeyError" key.
Definition AttributeError (attr : string) : Exn :=
  mkExn "AttributeError" ("'NoneType' object has no attribute '" ++ attr ++ "'").
Definition OverflowError (msg : string) : Exn := mkExn "OverflowError" msg.

(** The built-in classes that derive from [BaseException] and not from
    [Exception]. *)
Definition outside_Exception : list string :=
  ["BaseException"; "SystemExit"; "KeyboardInterrupt"; "GeneratorExit"].

(** [isinstance(e, Exception)]: what [except Exception] catches. *)
Definition is_Exception (e : Exn) : bool :=
  negb (existsb (String.eqb (exn_class e)) outside_Exception).

(** What a call that returns gives back: a value or a raised exception. *)
Inductive result (A : Type) :=
| Return (a : A)
| Throw (e : Exn).
Arguments Return {A} a.
Arguments Throw {A} e.

(** What a computation of the worker gives back.  [OutOfFuel] is the loop
    running out of the iterations the model was given; it is not a Python
    exception and [except Exception] does not catch it. *)
Inductive outcome (A : Type) :=
| Ok (a : A)
| Raise (e : Exn)
| OutOfFuel.
Arguments Ok {A} a.
Arguments Raise {A} e.
Arguments OutOfFuel {A}.

(** ** Tuples *)

(** [t.index(x)]: the first position of [x], [ValueError] when absent. *)
Fixpoint tuple_index (t : list string) (x : string) : result Z :=
  match t with
  | [] => Throw (ValueError "tuple.index(x): x not in tuple")
  | y :: t' =>
      if String.eqb y x then Return 0
      else match tuple_index t' x with
           | Return i => Return (i + 1)
           | Throw e => Throw e
           end
  end.

(** [t[i]]: a negative index counts from the end, [IndexError] outside. *)
Definition tuple_getitem (t : list string) (i : Z) : result string :=
  let n := Z.of_nat (List.length t) in
  let j := if i <? 0 then i + n else i in
  if (j <? 0) || (n <=? j) then Throw (mkExn "IndexError" "tuple index out of range")
  else match nth_error t (Z.to_nat j) with
       | Some x => Return x
       | None => Throw (mkExn "IndexError" "tuple index out of range")
       end.

(** [check_api_credentials] (a static method): the secret is looked at
    first, then the key. *)
Definition check_api_credentials (apiKey apiSecret : string) : result unit :=
  if (String.length apiSecret =? 0)%nat then
    Throw (ValueError "Please specify an API secret key. No API secret key found.")
  else if (String.length apiKey =? 0)%nat then
    Throw (ValueError "Please specify an API key. No API key found.")
  else Return tt.

(** The tuple of [initialize_lower_interval_trading], in the order of the
    source. *)
Definition sortedIntervals : list string :=
  ["1m"; "3m"; "5m"; "15m"; "30m"; "1h"; "2h"; "12h"; "4h"; "6h"; "8h"; "1d"; "3d"].

(** The ladder in ascending order of duration, as the spec lists it. *)
Definition intervalLadder : list string :=
  ["1m"; "3m"; "5m"; "15m"; "30m"; "1h"; "2h"; "4h"; "6h"; "8h"; "12h"; "1d"; "3d"].

(** [sortedIntervals[sortedIntervals.index(interval) - 1]]. *)
Definition lower_interval_of (ladder : list string) (interval : string) : result string :=
  match tuple_index ladder interval with
  | Return i => tuple_getitem ladder (i - 1)
  | Throw e => Throw e
  end.

(** [datetime] values are counted in microseconds since 0001-01-01 00:00,
    [timedelta] values in microseconds; [timedelta_seconds n] is the length
    of [n] seconds for an integer [n]. *)
Definition timedelta_seconds (n : Z) : Z := n * 1000000.

(** [timedelta(seconds=n)]: a [timedelta] holds at most 999999999 days
    either way, and the constructor raises [OverflowError] beyond (with one
    message while the days fit a C int, with another above). *)
Definition timedelta_fits (seconds : Z) : bool :=
  (- 999999999 <=? seconds / 86400) && (seconds / 86400 <=? 999999999).

Definition timedelta (seconds : Z) : result Z :=
  let days := seconds / 86400 in
  if timedelta_fits seconds then Return (timedelta_seconds seconds)
  else if (- 2147483648 <=? days) && (days <=? 2147483647) then
    Throw (OverflowError ("days=" ++ str_int days ++ "; must have magnitude <= 999999999"))
  else Throw (OverflowError "Python int too large to convert to C int").

(** [datetime.max] is the last microsecond of the year 9999, 3652059 days
    after [datetime.min]; [d + delta] raises [OverflowError] outside. *)
Definition datetime_end : Z := 3652059 * 86400 * 1000000.

Definition datetime_fits (d : Z) : bool := (0 <=? d) && (d <? datetime_end).

Definition datetime_add (d delta : Z) : result Z :=
  if datetime_fits (d + delta) then Return (d + delta)
  else Throw (OverflowError "date value out of range").

(** ** The objects the worker works on *)

Section Worker.

Variable F : Type.
Context `{NumF : Number F}.

(** The state of the outside world (market, network, clock, the other
    thread) and the objects of the collaborating classes, none of which
    this file looks into. *)
Variables W Data TelegramBot Trade TradingOption OptionInfo : Type.

(** The attributes of a trader that [BotThread] reads or writes. *)
Record Trader := mkTrader {
  dataView : Data;
  currentPrice : option F;
  longTrailingPrice : option F;
  shortTrailingPrice : option F;
  trend : option Trend;
  startingBalance : F;
  balance : F;
  coin : F;
  coinOwed : F;
  coinName : string;
  symbol : string;
  trades : list Trade;
  tradingOptions : list TradingOption;
  customStopLoss : option F;
  inHumanControl : bool
}.

Definition set_currentPrice (t : Trader) (v : option F) : Trader :=
  mkTrader (dataView t) v (longTrailingPrice t) (shortTrailingPrice t) (trend t)
    (startingBalance t) (balance t) (coin t) (coinOwed t) (coinName t) (symbol t)
    (trades t) (tradingOptions t) (customStopLoss t) (inHumanControl t).

Definition set_longTrailingPrice (t : Trader) (v : option F) : Trader :=
  mkTrader (dataView t) (currentPrice t) v (shortTrailingPrice t) (trend t)
    (startingBalance t) (balance t) (coin t) (coinOwed t) (coinName t) (symbol t)
    (trades t) (tradingOptions t) (customStopLoss t) (inHumanControl t).

Definition set_shortTrailingPrice (t : Trader) (v : option F) : Trader :=
  mkTrader (dataView t) (currentPrice t) (longTrailingPrice t) v (trend t)
    (startingBalance t) (balance t) (coin t) (coinOwed t) (coinName t) (symbol t)
    (trades t) (tradingOptions t) (customStopLoss t) (inHumanControl t).

(** [gui.configuration]: the widgets the worker reads, by their names. *)
Record Configuration := mkConfiguration {
  telegramChatID_text : string;
  binanceApiSecret : string;
  binanceApiKey : string;
  otherRegionRadio : bool;
  isolatedMarginAccountRadio : bool;
  simulationStartingBalanceSpinBox : F;
  enableTelegramTrading : bool;
  enableTelegramNotification : bool;
  telegramApiKey : string;
  schedulingStatisticsCheckBox : bool;
  schedulingTimeUnit : Z;
  schedulingIntervalComboBox : string
}.

(** [gui.interfaceDictionary[caller]['configuration']]. *)
Record ConfigDict := mkConfigDict {
  ticker : string;
  interval : string;
  lowerIntervalCheck : bool
}.

(** The configuration, which the worker only reads. *)
Record Settings := mkSettings {
  configuration : Configuration;
  interfaceDictionary : Caller -> option ConfigDict
}.

(** The attributes of the gui object that the worker and its collaborators
    write: both traders, both lower-interval feeds, the telegram bot, the
    running flags. *)
Record Gui := mkGui {
  trader : option Trader;
  simulationTrader : option Trader;
  lowerIntervalData : option Data;
  simulationLowerIntervalData : option Data;
  telegramBot : option TelegramBot;
  runningLive : bool;
  simulationRunningLive : bool;
  advancedLogging : bool;
  world : W
}.

Definition set_trader (g : Gui) (v : option Trader) : Gui :=
  mkGui v (simulationTrader g) (lowerIntervalData g) (simulationLowerIntervalData g)
    (telegramBot g) (runningLive g) (simulationRunningLive g) (advancedLogging g) (world g).

Definition set_simulationTrader (g : Gui) (v : option Trader) : Gui :=
  mkGui (trader g) v (lowerIntervalData g) (simulationLowerIntervalData g)
    (telegramBot g) (runningLive g) (simulationRunningLive g) (advancedLogging g) (world g).

Definition set_lowerIntervalData (g : Gui) (v : option Data) : Gui :=
  mkGui (trader g) (simulationTrader g) v (simulationLowerIntervalData g)
    (telegramBot g) (runningLive g) (simulationRunningLive g) (advancedLogging g) (world g).

Definition set_simulationLowerIntervalData (g : Gui) (v : option Data) : Gui :=
  mkGui (trader g) (simulationTrader g) (lowerIntervalData g) v
    (telegramBot g) (runningLive g) (simulationRunningLive g) (advancedLogging g) (world g).

Definition set_telegramBot (g : Gui) (v : option TelegramBot) : Gui :=
  mkGui (trader g) (simulationTrader g) (lowerIntervalData g) (simulationLowerIntervalData g)
    v (runningLive g) (simulationRunningLive g) (advancedLogging g) (world g).

Definition set_runningLive (g : Gui) (v : bool) : Gui :=
  mkGui (trader g) (simulationTrader g) (lowerIntervalData g) (simulationLowerIntervalData g)
    (telegramBot g) v (simulationRunningLive g) (advancedLogging g) (world g).

Definition set_simulationRunningLive (g : Gui) (v : bool) : Gui :=
  mkGui (trader g) (simulationTrader g) (lowerIntervalData g) (simulationLowerIntervalData g)
    (telegramBot g) (runningLive g) v (advancedLogging g) (world g).

Definition set_world (g : Gui) (v : W) : Gui :=
  mkGui (trader g) (simulationTrader g) (lowerIntervalData g) (simulationLowerIntervalData g)
    (telegramBot g) (runningLive g) (simulationRunningLive g) (advancedLogging g) v.

(** A reference to a trader object: the attribute of the gui that holds it.
    [self.trader] and the value of [gui.get_trader(caller)] are such
    references, so a write through one is seen through the other. *)
Inductive TraderRef := LiveTrader | SimulatedTrader.

Definition trader_at (r : TraderRef) (g : Gui) : option Trader :=
  match r with
  | LiveTrader => trader g
  | SimulatedTrader => simulationTrader g
  end.

Definition set_trader_at (r : TraderRef) (g : Gui) (t : Trader) : Gui :=
  match r with
  | LiveTrader => set_trader g (Some t)
  | SimulatedTrader => set_simulationTrader g (Some t)
  end.

(** The attributes of a [BotThread] ([__init__]). *)
Record BotThread := mkBotThread {
  nextScheduledEvent : option Z;
  scheduleSeconds : option Z;
  telegramChatID : string;
  caller : Caller;
  self_trader : option TraderRef
}.

Definition BotThread_init (caller : Caller) (cfg : Settings) : BotThread :=
  mkBotThread None None (telegramChatID_text (configuration cfg)) caller None.

Definition set_nextScheduledEvent (b : BotThread) (v : option Z) : BotThread :=
  mkBotThread v (scheduleSeconds b) (telegramChatID b) (caller b) (self_trader b).

Definition set_scheduleSeconds (b : BotThread) (v : option Z) : BotThread :=
  mkBotThread (nextScheduledEvent b) v (telegramChatID b) (caller b) (self_trader b).

Definition set_self_trader (b : BotThread) (v : option TraderRef) : BotThread :=
  mkBotThread (nextScheduledEvent b) (scheduleSeconds b) (telegramChatID b) (caller b) v.

(** The dictionary [get_statistics] builds, one field per key. *)
Record UpdateDict := mkUpdateDict {
  net : F;
  startingBalanceValue : string;
  currentBalanceValue : string;
  netValue : string;
  profitLossLabel : string;
  profitLossValue : string;
  percentageValue : string;
  tradesMadeValue : string;
  coinOwnedLabel : string;
  coinOwnedValue : string;
  coinOwedLabel : string;
  coinOwedValue : string;
  lossPointLabel : string;
  lossPointValue : string;
  customStopPointValue : string;
  currentPositionValue : string;
  autonomousValue : string;
  tickerLabel : string;
  tickerValue : string;
  optionDetails : list OptionInfo
}.

(** ** What the worker does to the outside: signals and calls *)

(** [BotSignals]. *)
Inductive Signal :=
| started (caller : Caller)
| activity (caller : Caller) (text : string)
| updated (caller : Caller) (statDict : UpdateDict)
| finished
| error (caller : Caller) (message : string).

(** The calls into collaborators that may change them, with the arguments
    of the call. *)
Inductive Call :=
| New_SimulationTrader (startingBalance : F) (symbol interval : string)
| New_RealTrader (apiSecret apiKey interval symbol tld : string) (isIsolated : bool)
| New_Data (interval : string)
| New_TelegramBot (token : string)
| Telegram_start
| Telegram_send_message (chatID message : string)
| Telegram_send_statistics (chatID : string) (scheduleSeconds : option Z)
| Set_parameters (caller : Caller)
| Update_data
| Main_logic
| Output_basic_information
| Get_trend.

Inductive Event :=
| Emit (s : Signal)
| Invoke (c : Call).

(** The state a run goes through. [trace] lists, oldest first, every signal
    emitted and every call made. *)
Record State := mkState {
  self : BotThread;
  settings : Settings;
  gui : Gui;
  trace : list Event
}.

Definition set_self (s : State) (b : BotThread) : State :=
  mkState b (settings s) (gui s) (trace s).

Definition set_gui (s : State) (g : Gui) : State :=
  mkState (self s) (settings s) g (trace s).

Definition set_trace (s : State) (t : list Event) : State :=
  mkState (self s) (settings s) (gui s) t.

(** ** The collaborators

    Every function and method the worker calls and this file does not
    define.  A call that may change its object takes the gui state and
    returns the new one (what the other thread wrote meanwhile included);
    an accessor only reads.  Each may raise. *)
Record Collaborators := mkCollaborators {
  (* helpers.convert_interval *)
  convert_interval : string -> result string;
  (* constructors *)
  new_SimulationTrader : F -> string -> string -> Gui -> result Trader * Gui;
  new_RealTrader : string -> string -> string -> string -> string -> bool ->
                   Gui -> result Trader * Gui;
  new_Data : string -> Gui -> result Data * Gui;
  new_TelegramBot : string -> Gui -> result TelegramBot * Gui;
  (* TelegramBot methods *)
  telegram_start : TelegramBot -> Gui -> result unit * Gui;
  send_message : TelegramBot -> string -> string -> Gui -> result unit * Gui;
  send_statistics_telegram : TelegramBot -> string -> option Z -> Gui -> result unit * Gui;
  (* gui methods *)
  set_parameters : Caller -> Gui -> result unit * Gui;
  get_trader : Caller -> Gui -> result (option TraderRef);
  get_lower_interval_data : Caller -> Gui -> result (option Data);
  get_option_info : TradingOption -> Trader -> W -> result OptionInfo;
  (* Data methods *)
  data_is_updated : Data -> W -> result bool;
  update_data_of : TraderRef -> Gui -> result unit * Gui;
  get_current_price : Data -> W -> result F;
  (* Trader methods *)
  main_logic : TraderRef -> Gui -> result unit * Gui;
  output_basic_information : TraderRef -> Gui -> result unit * Gui;
  get_trend : TraderRef -> option Data -> Gui -> result (option Trend) * Gui;
  get_net : Trader -> W -> result F;
  get_profit : Trader -> W -> result F;
  get_stop_loss : Trader -> W -> result (option F);
  get_profit_or_loss_string : Trader -> F -> W -> result string;
  get_profit_percentage : Trader -> F -> F -> W -> result F;
  get_stop_loss_strategy_string : Trader -> W -> result string;
  get_safe_rounded_string : Trader -> option F -> W -> result string;
  get_position_string : Trader -> W -> result string;
  (* datetime.now(): the time read, in microseconds since 0001-01-01 00:00,
     and the world after *)
  datetime_now : W -> Z * W;
  (* enums.LIVE and enums.SIMULATION: the integers behind the two names *)
  enum_LIVE : Z;
  enum_SIMULATION : Z
}.

Variable C : Collaborators.

(** [repr] of a caller, an [int]: what [str(KeyError(caller))] shows. *)
Definition repr_caller (c : Caller) : string :=
  match c with
  | LIVE => str_int (enum_LIVE C)
  | SIMULATION => str_int (enum_SIMULATION C)
  | OtherCaller n => str_int n
  end.

(** ** The monad of the worker: state and exceptions

    A computation takes the state and returns an outcome with the state it
    left; what was written before an exception was raised stays written. *)

Definition M (A : Type) : Type := State -> outcome A * State.

Definition ret {A} (a : A) : M A := fun s => (Ok a, s).

Definition bind {A B} (m : M A) (k : A -> M B) : M B :=
  fun s =>
    match m s with
    | (Ok a, s') => k a s'
    | (Raise e, s') => (Raise e, s')
    | (OutOfFuel, s') => (OutOfFuel, s')
    end.

Notation "x <- m ;; k" := (bind m (fun x => k))
  (at level 61, m at next level, right associativity).
Notation "m ;; k" := (bind m (fun _ => k))
  (at level 61, right associativity).

Definition raise {A} (e : Exn) : M A := fun s => (Raise e, s).

Definition out_of_fuel {A} : M A := fun s => (OutOfFuel, s).

Definition lift {A} (r : result A) : M A :=
  match r with
  | Return a => ret a
  | Throw e => raise e
  end.

Definition gets {A} (f : State -> A) : M A := fun s => (Ok (f s), s).

Definition modify (f : State -> State) : M unit := fun s => (Ok tt, f s).

Definition modify_gui (f : Gui -> Gui) : M unit :=
  modify (fun s => set_gui s (f (gui s))).

Definition modify_self (f : BotThread -> BotThread) : M unit :=
  modify (fun s => set_self s (f (self s))).

Definition log (e : Event) : M unit :=
  modify (fun s => set_trace s (trace s ++ [e])).

(** [self.signals.<signal>.emit(...)]. *)
Definition emit (sg : Signal) : M unit := log (Emit sg).

(** A call that may change the gui state: recorded, then made. *)
Definition invoke {A} (c : Call) (f : Gui -> result A * Gui) : M A :=
  log (Invoke c) ;;
  r <- (fun s => let (r, g) := f (gui s) in (Ok r, set_gui s g)) ;;
  lift r.

(** An accessor of the gui, and one of the outside world. *)
Definition ask_gui {A} (f : Gui -> result A) : M A :=
  g <- gets gui ;; lift (f g).

Definition ask {A} (f : W -> result A) : M A :=
  g <- gets gui ;; lift (f (world g)).

(** [try: m except Exception as e: handler e].  An exception of a class
    outside [Exception] ([SystemExit], [KeyboardInterrupt], [GeneratorExit])
    is not caught: it leaves the statement as it came. *)
Definition try_except (m : M unit) (handler : Exn -> M unit) : M unit :=
  fun s =>
    match m s with
    | (Raise e, s') => if is_Exception e then handler e s' else (Raise e, s')
    | r => r
    end.

(** [for x in l: acc.append(f x)]. *)
Fixpoint for_each {A B} (f : A -> M B) (l : list A) : M (list B) :=
  match l with
  | [] => ret []
  | x :: l' => y <- f x ;; ys <- for_each f l' ;; ret (y :: ys)
  end.

(** [obj.attr] where [obj] may be [None]. *)
Definition not_none {A} (o : option A) (attr : string) : M A :=
  match o with
  | Some a => ret a
  | None => raise (AttributeError attr)
  end.

(** The trader object behind a reference, for reading attribute [attr].
    The collaborators change a trader in place, so the attribute that held
    it still does. *)
Definition deref (h : option TraderRef) (attr : string) : M Trader :=
  r <- not_none h attr ;;
  g <- gets gui ;;
  not_none (trader_at r g) attr.

(** [obj.attr = v] through a reference. *)
Definition assign (h : option TraderRef) (attr : string) (f : Trader -> Trader) : M unit :=
  r <- not_none h attr ;;
  t <- deref h attr ;;
  modify_gui (fun g => set_trader_at r g (f t)).

(** ** BotThread, method by method *)

Definition initialize_lower_interval_trading (caller : Caller) (interval : string) : M unit :=
  if negb (String.eqb interval "1m") then
    lowerInterval <- lift (lower_interval_of sortedIntervals interval) ;;
    emit (activity caller ("Retrieving data for lower interval " ++ lowerInterval ++ "...")) ;;
    match caller with
    | LIVE =>
        d <- invoke (New_Data lowerInterval) (new_Data C lowerInterval) ;;
        modify_gui (fun g => set_lowerIntervalData g (Some d))
    | SIMULATION =>
        d <- invoke (New_Data lowerInterval) (new_Data C lowerInterval) ;;
        modify_gui (fun g => set_simulationLowerIntervalData g (Some d))
    | OtherCaller _ => raise (TypeError "Invalid type of caller specified.")
    end ;;
    emit (activity caller "Retrieved lower interval data successfully.")
  else ret tt.

Definition create_trader (caller : Caller) : M unit :=
  cfg <- gets settings ;;
  configDict <- match interfaceDictionary cfg caller with
                | Some d => ret d
                | None => raise (KeyError (repr_caller caller))
                end ;;
  let symbol := ticker configDict in
  interval <- lift (convert_interval C (interval configDict)) ;;
  match caller with
  | SIMULATION =>
      let startingBalance := simulationStartingBalanceSpinBox (configuration cfg) in
      emit (activity caller ("Retrieving data for interval " ++ interval ++ "...")) ;;
      t <- invoke (New_SimulationTrader startingBalance symbol interval)
                  (new_SimulationTrader C startingBalance symbol interval) ;;
      modify_gui (fun g => set_simulationTrader g (Some t))
  | LIVE =>
      let apiSecret := binanceApiSecret (configuration cfg) in
      let apiKey := binanceApiKey (configuration cfg) in
      let tld := if otherRegionRadio (configuration cfg) then "com" else "us" in
      let isIsolated := isolatedMarginAccountRadio (configuration cfg) in
      lift (check_api_credentials apiKey apiSecret) ;;
      emit (activity caller ("Retrieving data for interval " ++ interval ++ "...")) ;;
      t <- invoke (New_RealTrader apiSecret apiKey interval symbol tld isIsolated)
                  (new_RealTrader C apiSecret apiKey interval symbol tld isIsolated) ;;
      modify_gui (fun g => set_trader g (Some t))
  | OtherCaller _ => raise (ValueError "Invalid caller.")
  end ;;
  emit (activity caller "Retrieved data successfully.") ;;
  if lowerIntervalCheck configDict then initialize_lower_interval_trading caller interval
  else ret tt.

(** [datetime.now()]. *)
Definition now : M Z :=
  fun s => let (t, w) := datetime_now C (world (gui s)) in
           (Ok t, set_gui s (set_world (gui s) w)).

Definition initialize_scheduler : M unit :=
  cfg <- gets settings ;;
  let measurement := schedulingTimeUnit (configuration cfg) in
  let unit := schedulingIntervalComboBox (configuration cfg) in
  seconds <- (if String.eqb unit "Seconds" then ret measurement
              else if String.eqb unit "Minutes" then ret (measurement * 60)
              else if String.eqb unit "Hours" then ret (measurement * 3600)
              else if String.eqb unit "Days" then ret (measurement * 3600 * 24)
              else raise (ValueError "Invalid type of unit.")) ;;
  modify_self (fun b => set_scheduleSeconds b (Some seconds)) ;;
  t <- now ;;
  delta <- lift (timedelta seconds) ;;
  deadline <- lift (datetime_add t delta) ;;
  modify_self (fun b => set_nextScheduledEvent b (Some deadline)).

Definition handle_scheduler : M unit :=
  b <- gets self ;;
  match nextScheduledEvent b with
  | None => ret tt
  | Some deadline =>
      t <- now ;;
      if t >=? deadline then
        g <- gets gui ;;
        bot <- not_none (telegramBot g) "send_statistics_telegram" ;;
        invoke (Telegram_send_statistics (telegramChatID b) (scheduleSeconds b))
               (send_statistics_telegram C bot (telegramChatID b) (scheduleSeconds b)) ;;
        t' <- now ;;
        b' <- gets self ;;
        match scheduleSeconds b' with
        | Some seconds =>
            modify_self (fun b => set_nextScheduledEvent b (Some (t' + timedelta_seconds seconds)))
        | None =>
            raise (TypeError "unsupported type for timedelta seconds component: NoneType")
        end
      else ret tt
  end.

Definition handle_telegram_bot : M unit :=
  g <- gets gui ;;
  match telegramBot g with
  | None =>
      cfg <- gets settings ;;
      let apiKey := telegramApiKey (configuration cfg) in
      bot <- invoke (New_TelegramBot apiKey) (new_TelegramBot C apiKey) ;;
      modify_gui (fun g => set_telegramBot g (Some bot))
  | Some _ => ret tt
  end ;;
  g <- gets gui ;;
  bot <- not_none (telegramBot g) "start" ;;
  invoke Telegram_start (telegram_start C bot).

Definition setup_bot (caller : Caller) : M unit :=
  create_trader caller ;;
  invoke (Set_parameters caller) (set_parameters C caller) ;;
  h <- ask_gui (get_trader C caller) ;;
  modify_self (fun b => set_self_trader b h) ;;
  match caller with
  | LIVE =>
      cfg <- gets settings ;;
      (if enableTelegramTrading (configuration cfg) then handle_telegram_bot else ret tt) ;;
      (if schedulingStatisticsCheckBox (configuration cfg) then initialize_scheduler else ret tt) ;;
      modify_gui (fun g => set_runningLive g true)
  | SIMULATION =>
      modify_gui (fun g => set_simulationRunningLive g true)
  | OtherCaller _ => raise (RuntimeError "Invalid type of caller specified.")
  end.

Definition update_data (caller : Caller) : M unit :=
  trader <- ask_gui (get_trader C caller) ;;
  t <- deref trader "dataView" ;;
  updated_ <- ask (data_is_updated C (dataView t)) ;;
  if negb updated_ then
    r <- not_none trader "dataView" ;;
    invoke Update_data (update_data_of C r)
  else ret tt.

Definition handle_trading (caller : Caller) : M unit :=
  trader <- ask_gui (get_trader C caller) ;;
  r <- not_none trader "main_logic" ;;
  invoke Main_logic (main_logic C r).

Definition handle_trailing_prices (caller : Caller) : M unit :=
  trader <- ask_gui (get_trader C caller) ;;
  t <- deref trader "dataView" ;;
  price <- ask (get_current_price C (dataView t)) ;;
  assign trader "currentPrice" (fun t => set_currentPrice t (Some price)) ;;
  t <- deref trader "longTrailingPrice" ;;
  match longTrailingPrice t with
  | Some long =>
      if fgt price long then
        assign trader "longTrailingPrice" (fun t => set_longTrailingPrice t (Some price))
      else ret tt
  | None => ret tt
  end ;;
  t <- deref trader "shortTrailingPrice" ;;
  match shortTrailingPrice t with
  | Some short =>
      if flt price short then
        assign trader "shortTrailingPrice" (fun t => set_shortTrailingPrice t (Some price))
      else ret tt
  | None => ret tt
  end.

Definition handle_logging (caller : Caller) : M unit :=
  g <- gets gui ;;
  if advancedLogging g then
    trader <- ask_gui (get_trader C caller) ;;
    r <- not_none trader "output_basic_information" ;;
    invoke Output_basic_information (output_basic_information C r)
  else ret tt.

(** The dictionary [trends] of [handle_lower_interval_cross]. *)
Definition trends (t : option Trend) : string :=
  match t with
  | Some BEARISH => "Bearish"
  | Some BULLISH => "Bullish"
  | None => "No"
  end.

Definition handle_lower_interval_cross (caller : Caller) (previousLowerTrend : option Trend)
  : M (option Trend) :=
  trader <- ask_gui (get_trader C caller) ;;
  lowerData <- ask_gui (get_lower_interval_data C caller) ;;
  r <- not_none trader "get_trend" ;;
  lowerTrend <- invoke Get_trend (get_trend C r lowerData) ;;
  t <- deref trader "trend" ;;
  let trend := trend t in
  if trend_eqb previousLowerTrend lowerTrend || trend_eqb lowerTrend trend then
    ret lowerTrend
  else
    let message := trends lowerTrend ++ " trend detected on lower interval data." in
    emit (activity caller message) ;;
    cfg <- gets settings ;;
    (if enableTelegramNotification (configuration cfg) then
       g <- gets gui ;;
       b <- gets self ;;
       bot <- not_none (telegramBot g) "send_message" ;;
       invoke (Telegram_send_message (telegramChatID b) message)
              (send_message C bot (telegramChatID b) message)
     else ret tt) ;;
    ret lowerTrend.

(** [str(b)] of a Python bool. *)
Definition str_bool (b : bool) : string := if b then "True" else "False".

Definition get_statistics : M UpdateDict :=
  b <- gets self ;;
  let trader := self_trader b in
  t <- deref trader "get_net" ;;
  net <- ask (get_net C t) ;;
  profit <- ask (get_profit C t) ;;
  stopLoss <- ask (get_stop_loss C t) ;;
  profitLabel <- ask (get_profit_or_loss_string C t profit) ;;
  percentage <- ask (get_profit_percentage C t (startingBalance t) net) ;;
  price <- ask (get_current_price C (dataView t)) ;;
  let currentPriceString := "$" ++ fstr price in
  let percentageString := fstr (fround percentage 2) ++ "%" in
  let profitString := "$" ++ fstr (fabs (fround profit 2)) in
  let netString := "$" ++ fstr (fround net 2) in
  optionDetails <- for_each (fun option => ask (get_option_info C option t)) (tradingOptions t) ;;
  lossPointLabel <- ask (get_stop_loss_strategy_string C t) ;;
  lossPointValue <- ask (get_safe_rounded_string C t stopLoss) ;;
  customStopPointValue <- ask (get_safe_rounded_string C t (customStopLoss t)) ;;
  currentPositionValue <- ask (get_position_string C t) ;;
  ret (mkUpdateDict
         net
         ("$" ++ fstr (fround (startingBalance t) 2))
         ("$" ++ fstr (fround (balance t) 2))
         netString
         profitLabel
         profitString
         percentageString
         (str_int (Z.of_nat (List.length (trades t))))
         (coinName t ++ " Owned")
         (fstr (fround (coin t) 6))
         (coinName t ++ " Owed")
         (fstr (fround (coinOwed t) 6))
         lossPointLabel
         lossPointValue
         customStopPointValue
         currentPositionValue
         (str_bool (negb (inHumanControl t)))
         (symbol t)
         currentPriceString
         optionDetails).

(** [self.gui.runningLive if caller == LIVE else self.gui.simulationRunningLive]. *)
Definition running (caller : Caller) : M bool :=
  g <- gets gui ;;
  ret (match caller with
       | LIVE => runningLive g
       | _ => simulationRunningLive g
       end).

(** The body of the [while] of [trading_loop]: one iteration, up to the
    emission of the statistics. *)
Definition loop_body (caller : Caller) (lowerTrend : option Trend) : M (option Trend) :=
  update_data caller ;;
  handle_logging caller ;;
  handle_trailing_prices caller ;;
  handle_trading caller ;;
  handle_scheduler ;;
  lowerTrend <- handle_lower_interval_cross caller lowerTrend ;;
  statDict <- get_statistics ;;
  emit (updated caller statDict) ;;
  ret lowerTrend.

(** [while runningLoop: ...], for at most [fuel] iterations; the flag is
    read again after each one. *)
Fixpoint while_runningLoop (fuel : nat) (caller : Caller) (runningLoop : bool)
  (lowerTrend : option Trend) : M unit :=
  if runningLoop then
    match fuel with
    | O => out_of_fuel
    | S fuel' =>
        lowerTrend <- loop_body caller lowerTrend ;;
        runningLoop <- running caller ;;
        while_runningLoop fuel' caller runningLoop lowerTrend
    end
  else ret tt.

Definition trading_loop (fuel : nat) (caller : Caller) : M unit :=
  let lowerTrend := @None Trend in
  runningLoop <- running caller ;;
  b <- gets self ;;
  match nextScheduledEvent b with
  | Some _ =>
      g <- gets gui ;;
      bot <- not_none (telegramBot g) "send_message" ;;
      invoke (Telegram_send_message (telegramChatID b) "Initiated periodic statistics notification.")
             (send_message C bot (telegramChatID b) "Initiated periodic statistics notification.")
  | None => ret tt
  end ;;
  while_runningLoop fuel caller runningLoop lowerTrend.

(** [run]: what it prints on an exception is not part of the model. *)
Definition run (fuel : nat) : M unit :=
  try_except
    (b <- gets self ;;
     let caller := caller b in
     setup_bot caller ;;
     emit (started caller) ;;
     trading_loop fuel caller)
    (fun e =>
       b <- gets self ;;
       emit (error (caller b) (exn_str e))).

(** The state a fresh [BotThread(caller, gui)] starts from. *)
Definition initial_state (caller : Caller) (cfg : Settings) (g : Gui) : State :=
  mkState (BotThread_init caller cfg) cfg g [].


(** * Properties *)

(** ** What a computation leaves behind

    [effects tg upd sch s s'] bounds what happened between [s] and [s']:
    the configuration, the caller and the chat id are as they were; the
    trace only grew, by [activity] signals, by calls (calls to the telegram
    bot only if [tg]) and by [updated] signals only if [upd]; and the
    scheduler's two attributes are as they were unless [sch]. *)

Definition post {A} (m : M A) (s : State) : State := snd (m s).

Definition is_telegram (c : Call) : bool :=
  match c with
  | New_TelegramBot _ | Telegram_start
  | Telegram_send_message _ _ | Telegram_send_statistics _ _ => true
  | _ => false
  end.

Definition allowed (tg upd : bool) (e : Event) : bool :=
  match e with
  | Emit (activity _ _) => true
  | Emit (updated _ _) => upd
  | Emit _ => false
  | Invoke c => tg || negb (is_telegram c)
  end.

Record effects (tg upd sch : bool) (s s' : State) : Prop := mk_effects {
  eff_settings : settings s' = settings s;
  eff_caller : caller (self s') = caller (self s);
  eff_chat : telegramChatID (self s') = telegramChatID (self s);
  eff_sched : sch = false ->
              nextScheduledEvent (self s') = nextScheduledEvent (self s) /\
              scheduleSeconds (self s') = scheduleSeconds (self s);
  eff_trace : exists evs, trace s' = (trace s ++ evs)%list /\
                          Forall (fun e => allowed tg upd e = true) evs
}.

Lemma effects_refl tg upd sch s : effects tg upd sch s s.
Proof.
  constructor; auto. exists []. split; [ now rewrite app_nil_r | constructor ].
Qed.

Lemma effects_trans tg upd sch s1 s2 s3 :
  effects tg upd sch s1 s2 -> effects tg upd sch s2 s3 -> effects tg upd sch s1 s3.
Proof.
  intros [E1 C1 T1 S1 (evs1 & Tr1 & F1)] [E2 C2 T2 S2 (evs2 & Tr2 & F2)].
  constructor; try congruence.
  - intros Hs. destruct (S1 Hs), (S2 Hs). split; congruence.
  - exists (evs1 ++ evs2)%list. split.
    + rewrite Tr2, Tr1. now rewrite app_assoc.
    + apply Forall_app. now split.
Qed.

Lemma allowed_weaken tg upd tg' upd' e :
  implb tg tg' = true -> implb upd upd' = true ->
  allowed tg upd e = true -> allowed tg' upd' e = true.
Proof.
  destruct e as [[]|c]; simpl; auto.
  - destruct upd, upd'; simpl; auto; discriminate.
  - destruct tg, tg'; simpl; auto; discriminate.
Qed.

Lemma effects_weaken tg upd sch tg' upd' sch' s s' :
  implb tg tg' = true -> implb upd upd' = true -> implb sch sch' = true ->
  effects tg upd sch s s' -> effects tg' upd' sch' s s'.
Proof.
  intros Ht Hu Hs [E Cl Ch S (evs & Tr & Fa)]. constructor; auto.
  - intros ->. destruct sch; [ discriminate Hs | auto ].
  - exists evs. split; auto.
    eapply Forall_impl; [ | exact Fa ]. intros e. now apply allowed_weaken.
Qed.

(** Walking through a computation: [s0] is where it started, [s] the state
    reached so far. *)
Lemma walk_bind tg upd sch {A B} (m : M A) (k : A -> M B) s0 s :
  effects tg upd sch s0 (post m s) ->
  (forall a s1, m s = (Ok a, s1) -> effects tg upd sch s0 s1 ->
                effects tg upd sch s0 (post (k a) s1)) ->
  effects tg upd sch s0 (post (bind m k) s).
Proof.
  unfold post, bind. intros Hm Hk.
  destruct (m s) as [[a|e|] s1] eqn:E; simpl in *; auto.
Qed.

Lemma walk_leaf tg0 upd0 sch0 tg upd sch {A} (m : M A) s0 s :
  effects tg0 upd0 sch0 s (post m s) ->
  effects tg upd sch s0 s ->
  implb tg0 tg = true -> implb upd0 upd = true -> implb sch0 sch = true ->
  effects tg upd sch s0 (post m s).
Proof.
  intros Hm H0 Ht Hu Hs. eapply effects_trans; [ exact H0 | ].
  eapply effects_weaken; eauto.
Qed.

Create HintDb effects.

Lemma eff_ret {A} (a : A) s : effects false false false s (post (ret a) s).
Proof. apply effects_refl. Qed.

Lemma eff_raise {A} e s : effects false false false s (post (@raise A e) s).
Proof. apply effects_refl. Qed.

Lemma eff_out_of_fuel {A} s : effects false false false s (post (@out_of_fuel A) s).
Proof. apply effects_refl. Qed.

Lemma eff_lift {A} (r : result A) s : effects false false false s (post (lift r) s).
Proof. destruct r; apply effects_refl. Qed.

Lemma eff_gets {A} (f : State -> A) s : effects false false false s (post (gets f) s).
Proof. apply effects_refl. Qed.

Lemma eff_not_none {A} (o : option A) attr s :
  effects false false false s (post (not_none o attr) s).
Proof. destruct o; apply effects_refl. Qed.

Lemma eff_set_gui tg upd sch s g : effects tg upd sch s (set_gui s g).
Proof.
  constructor; auto. exists []. split; [ simpl; now rewrite app_nil_r | constructor ].
Qed.

Lemma eff_modify_gui f s : effects false false false s (post (modify_gui f) s).
Proof. apply eff_set_gui. Qed.

Lemma eff_log tg upd e s :
  allowed tg upd e = true -> effects tg upd false s (post (log e) s).
Proof.
  intros He. constructor; auto. exists [e]. split; [ reflexivity | ].
  constructor; [ exact He | constructor ].
Qed.

Lemma eff_now s : effects false false false s (post now s).
Proof.
  unfold post, now. destruct (datetime_now C (world (gui s))). apply eff_set_gui.
Qed.

Lemma eff_set_self_trader h s :
  effects false false false s (post (modify_self (fun b => set_self_trader b h)) s).
Proof.
  constructor; auto. exists []. split; [ simpl; now rewrite app_nil_r | constructor ].
Qed.

Lemma eff_set_scheduleSeconds v s :
  effects false false true s (post (modify_self (fun b => set_scheduleSeconds b v)) s).
Proof.
  constructor; auto; try discriminate.
  exists []. split; [ simpl; now rewrite app_nil_r | constructor ].
Qed.

Lemma eff_set_nextScheduledEvent v s :
  effects false false true s (post (modify_self (fun b => set_nextScheduledEvent b v)) s).
Proof.
  constructor; auto; try discriminate.
  exists []. split; [ simpl; now rewrite app_nil_r | constructor ].
Qed.

#[local] Hint Resolve eff_ret eff_raise eff_out_of_fuel eff_lift eff_gets eff_not_none
  eff_modify_gui eff_now eff_set_self_trader eff_set_scheduleSeconds
  eff_set_nextScheduledEvent : effects.

(** One step of the walk: split a bind, take a branch, or close a leaf with
    a lemma of the [effects] database. *)
Ltac walk :=
  cbv zeta;
  lazymatch goal with
  | |- effects _ _ _ _ (post (bind _ _) _) =>
      apply walk_bind; [ walk | intros ? ? ? ?; walk ]
  | |- effects _ _ _ _ (post (if ?b then _ else _) _) => destruct b; walk
  | |- effects _ _ _ _ (post (match ?x with _ => _ end) _) => destruct x; walk
  | |- effects _ _ _ _ (post _ _) =>
      eapply walk_leaf;
      [ solve [ eauto with effects ] | eassumption
      | reflexivity | reflexivity | reflexivity ]
  end.

Ltac walk_from s :=
  let H := fresh "Hstart" in
  match goal with
  | |- effects ?tg ?upd ?sch _ _ => pose proof (effects_refl tg upd sch s) as H
  end;
  walk.

Lemma eff_emit_activity c text s :
  effects false false false s (post (emit (activity c text)) s).
Proof. now apply eff_log. Qed.

Lemma eff_emit_updated c d s :
  effects false true false s (post (emit (updated c d)) s).
Proof. now apply eff_log. Qed.

Lemma eff_invoke {A} (c : Call) (f : Gui -> result A * Gui) s :
  effects (is_telegram c) false false s (post (invoke c f) s).
Proof.
  unfold post, invoke, bind, log, modify. simpl.
  destruct (f (gui s)) as [r g]. simpl.
  assert (H : effects (is_telegram c) false false s
                (set_gui (set_trace s (trace s ++ [Invoke c])) g)).
  { constructor; auto. exists [Invoke c]. split; [ reflexivity | ].
    constructor; [ | constructor ]. simpl. destruct (is_telegram c); reflexivity. }
  destruct r; exact H.
Qed.

Lemma eff_ask_gui {A} (f : Gui -> result A) s : effects false false false s (post (ask_gui f) s).
Proof. unfold ask_gui. walk_from s. Qed.

Lemma eff_ask {A} (f : W -> result A) s : effects false false false s (post (ask f) s).
Proof. unfold ask. walk_from s. Qed.

#[local] Hint Resolve eff_emit_activity eff_emit_updated eff_invoke eff_ask_gui eff_ask : effects.

Lemma eff_deref h attr s : effects false false false s (post (deref h attr) s).
Proof. unfold deref. walk_from s. Qed.

#[local] Hint Resolve eff_deref : effects.

Lemma eff_assign h attr f s : effects false false false s (post (assign h attr f) s).
Proof. unfold assign. walk_from s. Qed.

#[local] Hint Resolve eff_assign : effects.

Lemma eff_for_each {A B} (f : A -> M B) l :
  (forall x s, effects false false false s (post (f x) s)) ->
  forall s, effects false false false s (post (for_each f l) s).
Proof.
  intros Hf. induction l as [|x l IH]; intros s; simpl.
  - apply effects_refl.
  - pose proof (Hf x). walk_from s.
Qed.

Lemma eff_initialize_lower_interval_trading c i s :
  effects false false false s (post (initialize_lower_interval_trading c i) s).
Proof. unfold initialize_lower_interval_trading. walk_from s. Qed.

#[local] Hint Resolve eff_initialize_lower_interval_trading : effects.

Lemma eff_create_trader c s : effects false false false s (post (create_trader c) s).
Proof. unfold create_trader. walk_from s. Qed.

Lemma eff_initialize_scheduler s : effects false false true s (post initialize_scheduler s).
Proof. unfold initialize_scheduler. walk_from s. Qed.

Lemma eff_handle_scheduler s : effects true false true s (post handle_scheduler s).
Proof. unfold handle_scheduler. walk_from s. Qed.

Lemma eff_handle_telegram_bot s : effects true false false s (post handle_telegram_bot s).
Proof. unfold handle_telegram_bot. walk_from s. Qed.

Lemma eff_update_data c s : effects false false false s (post (update_data c) s).
Proof. unfold update_data. walk_from s. Qed.

Lemma eff_handle_trading c s : effects false false false s (post (handle_trading c) s).
Proof. unfold handle_trading. walk_from s. Qed.

Lemma eff_handle_trailing_prices c s :
  effects false false false s (post (handle_trailing_prices c) s).
Proof. unfold handle_trailing_prices. walk_from s. Qed.

Lemma eff_handle_logging c s : effects false false false s (post (handle_logging c) s).
Proof. unfold handle_logging. walk_from s. Qed.

Lemma eff_handle_lower_interval_cross c p s :
  effects true false false s (post (handle_lower_interval_cross c p) s).
Proof. unfold handle_lower_interval_cross. walk_from s. Qed.

Lemma eff_get_statistics s : effects false false false s (post get_statistics s).
Proof.
  unfold get_statistics.
  assert (Hf : forall t l s, effects false false false s
             (post (for_each (fun option => ask (get_option_info C option t)) l) s)).
  { intros t l. apply eff_for_each. intros x s'. apply eff_ask. }
  walk_from s.
Qed.

Lemma eff_running c s : effects false false false s (post (running c) s).
Proof. unfold running. walk_from s. Qed.

#[local] Hint Resolve eff_create_trader eff_initialize_scheduler eff_handle_scheduler
  eff_handle_telegram_bot eff_update_data eff_handle_trading eff_handle_trailing_prices
  eff_handle_logging eff_handle_lower_interval_cross eff_get_statistics eff_running : effects.

Lemma eff_loop_body c p s : effects true true true s (post (loop_body c p) s).
Proof. unfold loop_body. walk_from s. Qed.

#[local] Hint Resolve eff_loop_body : effects.

Lemma eff_while_runningLoop fuel c : forall b p s,
  effects true true true s (post (while_runningLoop fuel c b p) s).
Proof.
  induction fuel as [|fuel IH]; intros b p s; simpl.
  - destruct b; apply effects_refl.
  - destruct b; [ | apply effects_refl ]. walk_from s.
Qed.

#[local] Hint Resolve eff_while_runningLoop : effects.

Lemma eff_trading_loop fuel c s : effects true true true s (post (trading_loop fuel c) s).
Proof. unfold trading_loop. walk_from s. Qed.

(** What [setup_bot] may do depends on the caller and on two check boxes. *)
Definition telegram_enabled (c : Caller) (cfg : Settings) : bool :=
  match c with
  | LIVE => enableTelegramTrading (configuration cfg)
  | _ => false
  end.

Definition scheduler_enabled (c : Caller) (cfg : Settings) : bool :=
  match c with
  | LIVE => schedulingStatisticsCheckBox (configuration cfg)
  | _ => false
  end.

Lemma post_bind_gets {A B} (f : State -> A) (k : A -> M B) s :
  post (bind (gets f) k) s = post (k (f s)) s.
Proof. reflexivity. Qed.

Lemma eff_setup_bot c s :
  effects (telegram_enabled c (settings s)) false (scheduler_enabled c (settings s))
    s (post (setup_bot c) s).
Proof.
  unfold setup_bot.
  pose proof (effects_refl (telegram_enabled c (settings s)) false
                (scheduler_enabled c (settings s)) s) as Hstart.
  apply walk_bind; [ walk | intros ? s1 _ H1 ].
  apply walk_bind; [ walk | intros ? s2 _ H2 ].
  apply walk_bind; [ walk | intros h s3 _ H3 ].
  apply walk_bind; [ walk | intros ? s4 _ H4 ].
  destruct c as [| |n]; simpl in *.
  - rewrite post_bind_gets, (eff_settings _ _ _ _ _ H4).
    destruct (enableTelegramTrading (configuration (settings s)));
      destruct (schedulingStatisticsCheckBox (configuration (settings s))); walk.
  - walk.
  - walk.
Qed.

(** ** Set-up *)

Definition no_telegram_call (e : Event) : bool :=
  match e with
  | Invoke c => negb (is_telegram c)
  | Emit _ => true
  end.

Definition secret_missing : string :=
  "Please specify an API secret key. No API secret key found.".

(** The state [s] with one more signal emitted. *)
Definition emitted (sg : Signal) (s : State) : State :=
  set_trace s (trace s ++ [Emit sg]).

Lemma post_eq {A} (m : M A) s o s' : m s = (o, s') -> post m s = s'.
Proof. unfold post. now intros ->. Qed.

(** C10: a set-up for SIMULATION leaves [nextScheduledEvent] and
    [scheduleSeconds] as they were (unset, from [__init__]), makes no call to
    the telegram bot (it neither creates nor starts it) and, when it returns,
    has set [simulationRunningLive].  For any caller, a set-up that changes
    the scheduler's attributes is one for LIVE with the scheduling check box
    ticked, and one that calls the telegram bot is one for LIVE with telegram
    trading enabled. *)
Theorem setup_bot_simulation_frame (c : Caller) (s : State) :
  (nextScheduledEvent (self (post (setup_bot SIMULATION) s)) = nextScheduledEvent (self s) /\
   scheduleSeconds (self (post (setup_bot SIMULATION) s)) = scheduleSeconds (self s) /\
   (exists evs, trace (post (setup_bot SIMULATION) s) = (trace s ++ evs)%list /\
                Forall (fun e => no_telegram_call e = true) evs) /\
   (fst (setup_bot SIMULATION s) = Ok tt ->
    simulationRunningLive (gui (post (setup_bot SIMULATION) s)) = true)) /\
  ((nextScheduledEvent (self (post (setup_bot c) s)) <> nextScheduledEvent (self s) \/
    scheduleSeconds (self (post (setup_bot c) s)) <> scheduleSeconds (self s)) ->
   c = LIVE /\ schedulingStatisticsCheckBox (configuration (settings s)) = true) /\
  (forall evs call,
     trace (post (setup_bot c) s) = (trace s ++ evs)%list ->
     In (Invoke call) evs -> is_telegram call = true ->
     c = LIVE /\ enableTelegramTrading (configuration (settings s)) = true).
Proof.
  split; [ | split ].
  - destruct (eff_setup_bot SIMULATION s) as [_ _ _ Hs (evs & Htr & Hall)].
    simpl in Hs. destruct (Hs eq_refl) as [Hn Hsec].
    repeat split; auto.
    + exists evs. split; [ exact Htr | ].
      eapply Forall_impl; [ | exact Hall ].
      intros [sg|call]; simpl; auto.
    + unfold post, setup_bot, bind.
      destruct (create_trader SIMULATION s) as [[[]|e|] s1]; simpl; try discriminate.
      destruct (invoke (Set_parameters SIMULATION) (set_parameters C SIMULATION) s1)
        as [[[]|e|] s2]; simpl; try discriminate.
      destruct (ask_gui (get_trader C SIMULATION) s2) as [[h|e|] s3]; simpl;
        try discriminate.
      reflexivity.
  - intros Hchanged.
    destruct (eff_setup_bot c s) as [_ _ _ Hs _].
    destruct (scheduler_enabled c (settings s)) eqn:En.
    + destruct c; simpl in En; try discriminate. now split.
    + destruct (Hs eq_refl) as [Hn Hsec]. destruct Hchanged as [Hc|Hc]; now elim Hc.
  - intros evs call Htr Hin Htg.
    destruct (eff_setup_bot c s) as [_ _ _ _ (evs0 & Htr0 & Hall)].
    rewrite Htr0 in Htr. apply app_inv_head in Htr. subst evs0.
    rewrite Forall_forall in Hall. specialize (Hall _ Hin). simpl in Hall.
    rewrite Htg in Hall. simpl in Hall. rewrite orb_false_r in Hall.
    destruct c; simpl in Hall; try discriminate. now split.
Qed.

(** C4: in LIVE mode with an empty API secret, [setup_bot] raises the
    [ValueError] that asks for the secret before anything else happened (no
    trader constructed, no signal emitted: the state is the one it started
    from), and [run] ends having emitted that message as its only signal, an
    [error]; no [started] was emitted. *)
Theorem run_live_without_secret (fuel : nat) (s : State) (d : ConfigDict) (i : string) :
  caller (self s) = LIVE ->
  interfaceDictionary (settings s) LIVE = Some d ->
  convert_interval C (interval d) = Return i ->
  binanceApiSecret (configuration (settings s)) = "" ->
  setup_bot LIVE s = (Raise (ValueError secret_missing), s) /\
  run fuel s = (Ok tt, emitted (error LIVE secret_missing) s).
Proof.
  intros Hc Hd Hi Hsecret.
  assert (Hsetup : setup_bot LIVE s = (Raise (ValueError secret_missing), s)).
  { unfold setup_bot, create_trader, bind, gets. simpl.
    rewrite Hd. simpl. rewrite Hi. simpl.
    unfold check_api_credentials. rewrite Hsecret. reflexivity. }
  split; [ exact Hsetup | ].
  unfold run, try_except, bind, gets. simpl. rewrite Hc.
  fold (bind (A:=unit) (B:=unit)).
  unfold bind in Hsetup. unfold bind. rewrite Hsetup.
  change (is_Exception (ValueError secret_missing)) with true. simpl.
  unfold emit, log, modify, emitted. rewrite Hc. reflexivity.
Qed.

(** ** The run and its errors *)

Lemma run_setup_raises fuel s e s1 :
  setup_bot (caller (self s)) s = (Raise e, s1) ->
  is_Exception e = true ->
  run fuel s = (Ok tt, emitted (error (caller (self s)) (exn_str e)) s1).
Proof.
  intros Hsetup He.
  pose proof (eff_caller _ _ _ _ _ (eff_setup_bot (caller (self s)) s)) as Hc.
  rewrite (post_eq _ _ _ _ Hsetup) in Hc.
  unfold run, try_except, bind, gets. simpl.
  unfold bind in Hsetup. rewrite Hsetup. simpl. rewrite He.
  unfold emit, log, modify, emitted. now rewrite Hc.
Qed.

Lemma run_setup_escapes fuel s e s1 :
  setup_bot (caller (self s)) s = (Raise e, s1) ->
  is_Exception e = false ->
  run fuel s = (Raise e, s1).
Proof.
  intros Hsetup He.
  unfold run, try_except, bind, gets. simpl.
  unfold bind in Hsetup. rewrite Hsetup. simpl. now rewrite He.
Qed.

Lemma run_loop_raises fuel s s1 e s2 :
  setup_bot (caller (self s)) s = (Ok tt, s1) ->
  trading_loop fuel (caller (self s)) (emitted (started (caller (self s))) s1) = (Raise e, s2) ->
  is_Exception e = true ->
  run fuel s = (Ok tt, emitted (error (caller (self s)) (exn_str e)) s2).
Proof.
  intros Hsetup Hloop He.
  pose proof (eff_caller _ _ _ _ _ (eff_setup_bot (caller (self s)) s)) as Hc1.
  rewrite (post_eq _ _ _ _ Hsetup) in Hc1.
  pose proof (eff_caller _ _ _ _ _
                (eff_trading_loop fuel (caller (self s))
                   (emitted (started (caller (self s))) s1))) as Hc2.
  rewrite (post_eq _ _ _ _ Hloop) in Hc2. simpl in Hc2.
  unfold run, try_except, bind, gets. simpl.
  unfold bind in Hsetup. rewrite Hsetup. simpl.
  unfold emit, log, modify. simpl.
  unfold emitted in Hloop. unfold bind in Hloop. rewrite Hloop. simpl. rewrite He.
  unfold emitted. now rewrite Hc2, Hc1.
Qed.

Lemma run_loop_escapes fuel s s1 e s2 :
  setup_bot (caller (self s)) s = (Ok tt, s1) ->
  trading_loop fuel (caller (self s)) (emitted (started (caller (self s))) s1) = (Raise e, s2) ->
  is_Exception e = false ->
  run fuel s = (Raise e, s2).
Proof.
  intros Hsetup Hloop He.
  unfold run, try_except, bind, gets. simpl.
  unfold bind in Hsetup. rewrite Hsetup. simpl.
  unfold emit, log, modify. simpl.
  unfold emitted in Hloop. unfold bind in Hloop. rewrite Hloop. simpl. now rewrite He.
Qed.

(** The statements of [trading_loop] before its [while]: the flag is read
    and, with a deadline armed, the periodic statistics are announced. *)
Definition before_loop (caller : Caller) : M bool :=
  runningLoop <- running caller ;;
  b <- gets self ;;
  match nextScheduledEvent b with
  | Some _ =>
      g <- gets gui ;;
      bot <- not_none (telegramBot g) "send_message" ;;
      invoke (Telegram_send_message (telegramChatID b) "Initiated periodic statistics notification.")
             (send_message C bot (telegramChatID b) "Initiated periodic statistics notification.")
  | None => ret tt
  end ;;
  ret runningLoop.

Lemma trading_loop_before_loop fuel c s :
  trading_loop fuel c s
  = bind (before_loop c) (fun runningLoop => while_runningLoop fuel c runningLoop None) s.
Proof.
  unfold trading_loop, before_loop, running, bind, gets, ret. simpl.
  destruct (nextScheduledEvent (self s)); [ | reflexivity ].
  destruct (telegramBot (gui s)); simpl; [ | reflexivity ].
  match goal with |- context [invoke ?c ?f ?s0] => destruct (invoke c f s0) as [[[]|e|] s1] end;
    reflexivity.
Qed.

(** [completed n c p s]: from [s], with [p] the trend of the iteration
    before, [n] iterations run to their end and each leaves the flag set;
    the value is the trend the last one returned and the state it left. *)
Fixpoint completed (n : nat) (c : Caller) (p : option Trend) (s : State)
  : option (option Trend * State) :=
  match n with
  | O => Some (p, s)
  | S n' =>
      match loop_body c p s with
      | (Ok p', s1) =>
          match running c s1 with
          | (Ok true, s2) => completed n' c p' s2
          | _ => None
          end
      | _ => None
      end
  end.

Lemma while_runningLoop_completed n : forall fuel c p s p' s',
  completed n c p s = Some (p', s') ->
  while_runningLoop (n + fuel) c true p s = while_runningLoop fuel c true p' s'.
Proof.
  induction n as [|n IH]; intros fuel c p s p' s' H; cbn [completed] in H.
  - now injection H as -> ->.
  - destruct (loop_body c p s) as [[q|e|] s1] eqn:Hb; try discriminate H.
    destruct (running c s1) as [[[|]|e|] s2] eqn:Hr; try discriminate H.
    change (while_runningLoop (S n + fuel) c true p s)
      with (bind (loop_body c p)
              (fun q => bind (running c)
                          (fun r => while_runningLoop (n + fuel) c r q)) s).
    unfold bind at 1. rewrite Hb. unfold bind at 1. rewrite Hr. now apply IH.
Qed.

(** [m] raises [e] and leaves [s'], or returns and [k] holds of what it
    returned and left. *)
Definition raises_in {A} (m : M A) (k : A -> State -> Exn -> State -> Prop)
  (s : State) (e : Exn) (s' : State) : Prop :=
  m s = (Raise e, s') \/ exists a s1, m s = (Ok a, s1) /\ k a s1 e s'.

(** One of the seven calls of an iteration raises [e] and leaves [s'], the
    calls before it having returned. *)
Definition step_raises (c : Caller) (lowerTrend : option Trend)
  : State -> Exn -> State -> Prop :=
  raises_in (update_data c) (fun _ =>
  raises_in (handle_logging c) (fun _ =>
  raises_in (handle_trailing_prices c) (fun _ =>
  raises_in (handle_trading c) (fun _ =>
  raises_in handle_scheduler (fun _ =>
  raises_in (handle_lower_interval_cross c lowerTrend) (fun _ =>
  raises_in get_statistics (fun _ _ _ _ => False))))))).

Lemma bind_raises_in {A B} (m : M A) (cont : A -> M B) k s e s' :
  (forall a s1, cont a s1 = (Raise e, s') <-> k a s1 e s') ->
  bind m cont s = (Raise e, s') <-> raises_in m k s e s'.
Proof.
  intros Hk. unfold bind, raises_in.
  destruct (m s) as [[a|e0|] s1]; split.
  - intros H. right. exists a, s1. split; [ reflexivity | now apply Hk ].
  - intros [H|(a' & s1' & H & Hr)]; [ discriminate H | ].
    injection H as Ha Hs. subst a' s1'. now apply Hk.
  - intros H. injection H as He Hs. subst e0 s1. now left.
  - intros [H|(a' & s1' & H & _)]; [ | discriminate H ].
    injection H as He Hs. now subst e0 s1.
  - intros H. discriminate H.
  - intros [H|(a' & s1' & H & _)]; discriminate H.
Qed.

Lemma loop_body_raises c p s e s' :
  loop_body c p s = (Raise e, s') <-> step_raises c p s e s'.
Proof.
  unfold loop_body, step_raises.
  repeat (apply bind_raises_in; intros ? ?).
  split; [ | contradiction ].
  unfold bind, emit, log, modify, ret. simpl. intros H. discriminate H.
Qed.

(** C5, as the spec words it.  For set-up: whatever [setup_bot] raises, the
    run emits an [error] that carries its message.  For the loop: whatever
    it raises after set-up succeeded, the run emits an [error] that carries
    its message. *)
Definition setup_error_reported (fuel : nat) (s : State) : Prop :=
  forall e s1,
    setup_bot (caller (self s)) s = (Raise e, s1) ->
    In (Emit (error (caller (self s)) (exn_str e))) (trace (post (run fuel) s)).

Definition loop_error_reported (fuel : nat) (s : State) : Prop :=
  forall s1 e s2,
    setup_bot (caller (self s)) s = (Ok tt, s1) ->
    trading_loop fuel (caller (self s)) (emitted (started (caller (self s))) s1)
      = (Raise e, s2) ->
    In (Emit (error (caller (self s)) (exn_str e))) (trace (post (run fuel) s)).


(** ** The periodic scheduler *)

(** [n] successive calls of [handle_scheduler]. *)
Fixpoint checks (n : nat) : M unit :=
  match n with
  | O => ret tt
  | S n' => handle_scheduler ;; checks n'
  end.

(** The next [n] readings of the clock are all before [deadline]. *)
Fixpoint reads_before (n : nat) (deadline : Z) (w : W) : Prop :=
  match n with
  | O => True
  | S n' => fst (datetime_now C w) < deadline /\
            reads_before n' deadline (snd (datetime_now C w))
  end.

(** The statistics message [handle_scheduler] sends from state [s]. *)
Definition fire (s : State) : Event :=
  Invoke (Telegram_send_statistics (telegramChatID (self s)) (scheduleSeconds (self s))).

Lemma handle_scheduler_unarmed s :
  nextScheduledEvent (self s) = None -> handle_scheduler s = (Ok tt, s).
Proof.
  intros Hn. unfold handle_scheduler, bind, gets. simpl. now rewrite Hn.
Qed.

Lemma handle_scheduler_early s deadline :
  nextScheduledEvent (self s) = Some deadline ->
  fst (datetime_now C (world (gui s))) < deadline ->
  handle_scheduler s = (Ok tt, set_gui s (set_world (gui s) (snd (datetime_now C (world (gui s)))))).
Proof.
  intros Hn Hlt. unfold handle_scheduler, bind, gets, now. simpl. rewrite Hn.
  destruct (datetime_now C (world (gui s))) as [t w]. simpl in *.
  destruct (Z.geb_spec t deadline); [ lia | reflexivity ].
Qed.

Lemma checks_early n : forall s deadline,
  nextScheduledEvent (self s) = Some deadline ->
  reads_before n deadline (world (gui s)) ->
  fst (checks n s) = Ok tt /\
  self (post (checks n) s) = self s /\
  trace (post (checks n) s) = trace s.
Proof.
  induction n as [|n IH]; intros s deadline Hn Hr; simpl.
  - auto.
  - destruct Hr as [Hlt Hr].
    unfold post, bind. rewrite (handle_scheduler_early s deadline Hn Hlt).
    destruct (IH (set_gui s (set_world (gui s) (snd (datetime_now C (world (gui s))))))
                deadline Hn Hr) as (Hok & Hself & Htrace).
    repeat split; assumption.
Qed.

Lemma handle_scheduler_trace s :
  trace (post handle_scheduler s) = trace s \/
  (trace (post handle_scheduler s) = (trace s ++ [fire s])%list /\
   exists deadline, nextScheduledEvent (self s) = Some deadline /\
                    deadline <= fst (datetime_now C (world (gui s)))).
Proof.
  unfold post, handle_scheduler, bind, gets, now, fire. simpl.
  destruct (nextScheduledEvent (self s)) as [deadline|]; [ | now left ].
  destruct (datetime_now C (world (gui s))) as [t w]. simpl.
  destruct (Z.geb_spec t deadline); [ | now left ].
  cbn. destruct (telegramBot (gui s)) as [bot|]; cbn; [ | now left ].
  right. split; [ | exists deadline; split; [ reflexivity | lia ] ].
  unfold invoke, bind, log, modify. cbn.
  destruct (send_statistics_telegram C bot (telegramChatID (self s))
              (scheduleSeconds (self s)) (set_world (gui s) w)) as [[[]|e] g1]; simpl;
    [ | reflexivity ].
  destruct (datetime_now C (world g1)) as [t' w']. simpl.
  destruct (scheduleSeconds (self s)); reflexivity.
Qed.

(** C6: a check with [nextScheduledEvent] unset does nothing at all.  A
    check whose reading of the clock is before the deadline returns without
    a call to the telegram bot and leaves the worker's attributes alone (only
    the clock was read); so do any number of successive checks whose
    readings are before the deadline.  One check adds to the trace either
    nothing or the one call that sends the statistics, and it sends them
    only if armed and only if the clock read at least the deadline. *)
Theorem handle_scheduler_fires_when_due (s : State) :
  (nextScheduledEvent (self s) = None -> handle_scheduler s = (Ok tt, s)) /\
  (forall deadline,
     nextScheduledEvent (self s) = Some deadline ->
     fst (datetime_now C (world (gui s))) < deadline ->
     fst (handle_scheduler s) = Ok tt /\
     self (post handle_scheduler s) = self s /\
     trace (post handle_scheduler s) = trace s) /\
  (forall n deadline,
     nextScheduledEvent (self s) = Some deadline ->
     reads_before n deadline (world (gui s)) ->
     fst (checks n s) = Ok tt /\
     self (post (checks n) s) = self s /\
     trace (post (checks n) s) = trace s) /\
  (trace (post handle_scheduler s) = trace s \/
   (trace (post handle_scheduler s) = (trace s ++ [fire s])%list /\
    exists deadline, nextScheduledEvent (self s) = Some deadline /\
                     deadline <= fst (datetime_now C (world (gui s))))).
Proof.
  split; [ | split; [ | split ] ].
  - apply handle_scheduler_unarmed.
  - intros deadline Hn Hlt. unfold post.
    rewrite (handle_scheduler_early s deadline Hn Hlt). auto.
  - intros n deadline. apply checks_early.
  - apply handle_scheduler_trace.
Qed.

(** The claim that a due check reschedules from the old deadline. *)
Definition reschedules_from_old_deadline (s : State) : Prop :=
  forall deadline seconds,
    nextScheduledEvent (self s) = Some deadline ->
    scheduleSeconds (self s) = Some seconds ->
    deadline <= fst (datetime_now C (world (gui s))) ->
    nextScheduledEvent (self (post handle_scheduler s)) =
      Some (deadline + timedelta_seconds seconds).


(** ** Running a computation step by step *)

Lemma bind_ok {A B} (m : M A) (k : A -> M B) s a s' :
  m s = (Ok a, s') -> bind m k s = k a s'.
Proof. unfold bind. now intros ->. Qed.

Lemma bind_raise {A B} (m : M A) (k : A -> M B) s e s' :
  m s = (Raise e, s') -> bind m k s = (Raise e, s').
Proof. unfold bind. now intros ->. Qed.

Lemma ask_gui_ok {A} (f : Gui -> result A) s a :
  f (gui s) = Return a -> ask_gui f s = (Ok a, s).
Proof. unfold ask_gui, bind, gets. simpl. now intros ->. Qed.

Lemma ask_ok {A} (f : W -> result A) s a :
  f (world (gui s)) = Return a -> ask f s = (Ok a, s).
Proof. unfold ask, bind, gets. simpl. now intros ->. Qed.

Lemma deref_ok r attr s t :
  trader_at r (gui s) = Some t -> deref (Some r) attr s = (Ok t, s).
Proof. unfold deref, bind, gets. simpl. now intros ->. Qed.

Lemma assign_ok r attr f s t :
  trader_at r (gui s) = Some t ->
  assign (Some r) attr f s = (Ok tt, set_gui s (set_trader_at r (gui s) (f t))).
Proof.
  intros Ht. unfold assign. simpl. unfold bind at 1. simpl.
  now rewrite (bind_ok _ _ _ _ _ (deref_ok r attr s t Ht)).
Qed.

Lemma invoke_eq {A} (c : Call) (f : Gui -> result A * Gui) s :
  invoke c f s =
  (match fst (f (gui s)) with Return a => Ok a | Throw e => Raise e end,
   set_gui (set_trace s (trace s ++ [Invoke c])) (snd (f (gui s)))).
Proof.
  unfold invoke, bind, log, modify. simpl.
  destruct (f (gui s)) as [[a|e] g]; reflexivity.
Qed.

(** ** The trailing prices *)

Lemma trader_at_set r g t : trader_at r (set_trader_at r g t) = Some t.
Proof. destruct r; reflexivity. Qed.

Lemma set_trader_at_twice r g t1 t2 :
  set_trader_at r (set_trader_at r g t1) t2 = set_trader_at r g t2.
Proof. destruct r; reflexivity. Qed.

(** C9: when the trader and the price are there, [handle_trailing_prices]
    returns having written the price as [currentPrice]; a long trailing
    price that is set becomes the price if the price is greater and stays
    otherwise, a short one becomes the price if the price is less and stays
    otherwise, and one that is unset stays unset.  So the new long trailing
    price is never less than the old one, and the new short trailing price
    never greater. *)
Theorem handle_trailing_prices_ratchet
  (c : Caller) (s : State) (r : TraderRef) (t : Trader) (price : F) :
  get_trader C c (gui s) = Return (Some r) ->
  trader_at r (gui s) = Some t ->
  get_current_price C (dataView t) (world (gui s)) = Return price ->
  exists t',
    handle_trailing_prices c s = (Ok tt, set_gui s (set_trader_at r (gui s) t')) /\
    currentPrice t' = Some price /\
    longTrailingPrice t' =
      match longTrailingPrice t with
      | Some long => Some (if fgt price long then price else long)
      | None => None
      end /\
    shortTrailingPrice t' =
      match shortTrailingPrice t with
      | Some short => Some (if flt price short then price else short)
      | None => None
      end /\
    (forall long long',
       longTrailingPrice t = Some long -> longTrailingPrice t' = Some long' ->
       flt long' long = false) /\
    (forall short short',
       shortTrailingPrice t = Some short -> shortTrailingPrice t' = Some short' ->
       fgt short' short = false).
Proof.
  intros Hget Ht Hprice.
  set (t1 := set_currentPrice t (Some price)).
  set (t2 := match longTrailingPrice t with
             | Some long => if fgt price long then set_longTrailingPrice t1 (Some price) else t1
             | None => t1
             end).
  set (t3 := match shortTrailingPrice t with
             | Some short => if flt price short then set_shortTrailingPrice t2 (Some price) else t2
             | None => t2
             end).
  exists t3.
  assert (Hlong : longTrailingPrice t3 =
                  match longTrailingPrice t with
                  | Some long => Some (if fgt price long then price else long)
                  | None => None
                  end).
  { unfold t3, t2, t1.
    destruct (longTrailingPrice t) as [long|] eqn:El;
      destruct (shortTrailingPrice t) as [short|] eqn:Es;
      try destruct (fgt price long); try destruct (flt price short); simpl; auto. }
  assert (Hshort : shortTrailingPrice t3 =
                   match shortTrailingPrice t with
                   | Some short => Some (if flt price short then price else short)
                   | None => None
                   end).
  { unfold t3, t2, t1.
    destruct (longTrailingPrice t) as [long|] eqn:El;
      destruct (shortTrailingPrice t) as [short|] eqn:Es;
      try destruct (fgt price long); try destruct (flt price short); simpl; auto. }
  split; [ | split; [ | split; [ exact Hlong | split; [ exact Hshort | split ] ] ] ].
  - unfold handle_trailing_prices.
    erewrite bind_ok by (apply ask_gui_ok; eassumption).
    erewrite bind_ok by (apply deref_ok; eassumption).
    erewrite bind_ok by (apply ask_ok; eassumption).
    erewrite bind_ok by (apply assign_ok; eassumption).
    fold t1.
    erewrite bind_ok by (apply deref_ok; apply trader_at_set).
    assert (Hstep2 : (match longTrailingPrice t1 with
                      | Some long =>
                          if fgt price long
                          then assign (Some r) "longTrailingPrice"
                                 (fun t => set_longTrailingPrice t (Some price))
                          else ret tt
                      | None => ret tt
                      end) (set_gui s (set_trader_at r (gui s) t1))
                     = (Ok tt, set_gui s (set_trader_at r (gui s) t2))).
    { unfold t2. change (longTrailingPrice t1) with (longTrailingPrice t).
      destruct (longTrailingPrice t) as [long|]; [ | reflexivity ].
      destruct (fgt price long); [ | reflexivity ].
      erewrite assign_ok by apply trader_at_set.
      cbn [gui set_gui]. now rewrite set_trader_at_twice. }
    erewrite bind_ok by exact Hstep2.
    erewrite bind_ok by (apply deref_ok; apply trader_at_set).
    unfold t3.
    assert (Hs2 : shortTrailingPrice t2 = shortTrailingPrice t).
    { unfold t2, t1. destruct (longTrailingPrice t) as [long|]; [ | reflexivity ].
      destruct (fgt price long); reflexivity. }
    rewrite Hs2.
    destruct (shortTrailingPrice t) as [short|]; [ | reflexivity ].
    destruct (flt price short); [ | reflexivity ].
    erewrite assign_ok by apply trader_at_set.
    cbn [gui set_gui]. now rewrite set_trader_at_twice.
  - unfold t3, t2, t1.
    destruct (longTrailingPrice t) as [long|];
      destruct (shortTrailingPrice t) as [short|];
      try destruct (fgt price long); try destruct (flt price short); reflexivity.
  - intros long long' El El'. rewrite Hlong, El in El'. injection El' as <-.
    unfold fgt. destruct (flt long price) eqn:E.
    + now apply flt_asym.
    + apply flt_irrefl.
  - intros short short' Es Es'. rewrite Hshort, Es in Es'. injection Es' as <-.
    unfold fgt. destruct (flt price short) eqn:E.
    + now apply flt_asym.
    + apply flt_irrefl.
Qed.

(** ** The lower-interval cross *)

Lemma invoke_ok {A} (c : Call) (f : Gui -> result A * Gui) s a g :
  f (gui s) = (Return a, g) ->
  invoke c f s = (Ok a, set_gui (set_trace s (trace s ++ [Invoke c])) g).
Proof. intros E. rewrite invoke_eq, E. reflexivity. Qed.

Lemma invoke_throw {A} (c : Call) (f : Gui -> result A * Gui) s e g :
  f (gui s) = (Throw e, g) ->
  invoke c f s = (Raise e, set_gui (set_trace s (trace s ++ [Invoke c])) g).
Proof. intros E. rewrite invoke_eq, E. reflexivity. Qed.

(** The message of [handle_lower_interval_cross]. *)
Definition cross_message (lowerTrend : option Trend) : string :=
  trends lowerTrend ++ " trend detected on lower interval data.".

(** The state after the trend of the lower interval was asked for. *)
Definition asked_trend (s : State) (g1 : Gui) : State :=
  set_gui (set_trace s (trace s ++ [Invoke Get_trend])) g1.

Lemma cross_quiet c previousLowerTrend s r lowerData lowerTrend g1 t :
  get_trader C c (gui s) = Return (Some r) ->
  get_lower_interval_data C c (gui s) = Return lowerData ->
  get_trend C r lowerData (gui s) = (Return lowerTrend, g1) ->
  trader_at r g1 = Some t ->
  trend_eqb previousLowerTrend lowerTrend || trend_eqb lowerTrend (trend t) = true ->
  handle_lower_interval_cross c previousLowerTrend s = (Ok lowerTrend, asked_trend s g1).
Proof.
  intros Hget Hdata Htrend Ht Hsame. unfold handle_lower_interval_cross.
  erewrite bind_ok by (apply ask_gui_ok; eassumption).
  erewrite bind_ok by (apply ask_gui_ok; eassumption).
  erewrite bind_ok by reflexivity.
  erewrite bind_ok by (apply invoke_ok; eassumption).
  erewrite bind_ok by (apply deref_ok; exact Ht).
  cbv zeta. rewrite Hsame. reflexivity.
Qed.

Lemma cross_loud c previousLowerTrend s r lowerData lowerTrend g1 t :
  get_trader C c (gui s) = Return (Some r) ->
  get_lower_interval_data C c (gui s) = Return lowerData ->
  get_trend C r lowerData (gui s) = (Return lowerTrend, g1) ->
  trader_at r g1 = Some t ->
  trend_eqb previousLowerTrend lowerTrend || trend_eqb lowerTrend (trend t) = false ->
  let s2 := emitted (activity c (cross_message lowerTrend)) (asked_trend s g1) in
  let send := Telegram_send_message (telegramChatID (self s)) (cross_message lowerTrend) in
  handle_lower_interval_cross c previousLowerTrend s =
    if enableTelegramNotification (configuration (settings s)) then
      match telegramBot g1 with
      | None => (Raise (AttributeError "send_message"), s2)
      | Some bot =>
          (match fst (send_message C bot (telegramChatID (self s))
                        (cross_message lowerTrend) g1) with
           | Return _ => Ok lowerTrend
           | Throw e => Raise e
           end,
           set_gui (set_trace s2 (trace s2 ++ [Invoke send]))
             (snd (send_message C bot (telegramChatID (self s))
                     (cross_message lowerTrend) g1)))
      end
    else (Ok lowerTrend, s2).
Proof.
  intros Hget Hdata Htrend Ht Hdiff. cbv zeta. unfold handle_lower_interval_cross.
  erewrite bind_ok by (apply ask_gui_ok; eassumption).
  erewrite bind_ok by (apply ask_gui_ok; eassumption).
  erewrite bind_ok by reflexivity.
  erewrite bind_ok by (apply invoke_ok; eassumption).
  erewrite bind_ok by (apply deref_ok; exact Ht).
  cbv zeta. rewrite Hdiff. fold (cross_message lowerTrend).
  erewrite bind_ok by reflexivity.
  erewrite bind_ok by reflexivity.
  cbn [settings set_trace set_gui asked_trend].
  destruct (enableTelegramNotification (configuration (settings s))); [ | reflexivity ].
  unfold bind at 1.
  rewrite (bind_ok _ _ _ _ _ (eq_refl : gets gui _ = (Ok _, _))).
  rewrite (bind_ok _ _ _ _ _ (eq_refl : gets self _ = (Ok _, _))).
  cbn [gui self set_trace set_gui asked_trend].
  destruct (telegramBot g1) as [bot|]; [ | reflexivity ].
  erewrite bind_ok by reflexivity.
  rewrite invoke_eq. cbn [gui self set_trace set_gui asked_trend trace].
  destruct (send_message C bot (telegramChatID (self s)) (cross_message lowerTrend) g1)
    as [[[]|e] g2]; reflexivity.
Qed.

Lemma trend_differs previousLowerTrend lowerTrend primary :
  trend_eqb previousLowerTrend lowerTrend || trend_eqb lowerTrend primary = false <->
  lowerTrend <> previousLowerTrend /\ lowerTrend <> primary.
Proof.
  rewrite orb_false_iff. split.
  - intros [E1 E2]. split; intros ->.
    + rewrite (proj2 (trend_eqb_eq _ _) eq_refl) in E1. discriminate.
    + rewrite (proj2 (trend_eqb_eq _ _) eq_refl) in E2. discriminate.
  - intros [N1 N2]. split.
    + destruct (trend_eqb previousLowerTrend lowerTrend) eqn:E; [ | reflexivity ].
      apply trend_eqb_eq in E. now elim N1.
    + destruct (trend_eqb lowerTrend primary) eqn:E; [ | reflexivity ].
      apply trend_eqb_eq in E. now elim N2.
Qed.

(** C1: with the trader, the lower-interval feed, the lower trend and the
    trader's own trend at hand, the check emits its [activity] message if
    and only if the lower trend differs from the previous one and from the
    trader's trend; it emits no other signal; it sends the same message
    through the telegram bot exactly when it notifies, telegram
    notifications are enabled and there is a bot to send it; whenever it
    returns, it returns the lower trend, and it returns unless the sending
    raised. *)
Theorem handle_lower_interval_cross_notifies
  (c : Caller) (previousLowerTrend : option Trend) (s : State) (r : TraderRef)
  (lowerData : option Data) (lowerTrend : option Trend) (g1 : Gui) (t : Trader) :
  get_trader C c (gui s) = Return (Some r) ->
  get_lower_interval_data C c (gui s) = Return lowerData ->
  get_trend C r lowerData (gui s) = (Return lowerTrend, g1) ->
  trader_at r g1 = Some t ->
  let notice := Emit (activity c (cross_message lowerTrend)) in
  let sending :=
    Invoke (Telegram_send_message (telegramChatID (self s)) (cross_message lowerTrend)) in
  let out := fst (handle_lower_interval_cross c previousLowerTrend s) in
  exists evs,
    trace (post (handle_lower_interval_cross c previousLowerTrend) s)
      = (trace s ++ Invoke Get_trend :: evs)%list /\
    (In notice evs <-> lowerTrend <> previousLowerTrend /\ lowerTrend <> trend t) /\
    (forall sg, In (Emit sg) evs -> Emit sg = notice) /\
    (In sending evs <->
     In notice evs /\
     enableTelegramNotification (configuration (settings s)) = true /\
     telegramBot g1 <> None) /\
    (forall call, In (Invoke call) evs -> Invoke call = sending) /\
    (forall v, out = Ok v -> v = lowerTrend) /\
    (out = Ok lowerTrend \/
     (In notice evs /\ enableTelegramNotification (configuration (settings s)) = true /\
      exists e, out = Raise e)).
Proof.
  intros Hget Hdata Htrend Ht. cbv zeta. unfold post.
  destruct (trend_eqb previousLowerTrend lowerTrend || trend_eqb lowerTrend (trend t))
    eqn:Esame.
  - rewrite (cross_quiet _ _ _ _ _ _ _ _ Hget Hdata Htrend Ht Esame).
    assert (Hno : ~ (lowerTrend <> previousLowerTrend /\ lowerTrend <> trend t)).
    { intros Hd. apply trend_differs in Hd. congruence. }
    exists []. cbn [fst snd trace asked_trend set_gui set_trace In].
    repeat split; try tauto; try (intros; contradiction).
    intros v E. now injection E.
  - pose proof (proj1 (trend_differs _ _ _) Esame) as Hyes.
    rewrite (cross_loud _ _ _ _ _ _ _ _ Hget Hdata Htrend Ht Esame).
    destruct (enableTelegramNotification (configuration (settings s))) eqn:Een.
    + destruct (telegramBot g1) as [bot|] eqn:Ebot.
      * exists [Emit (activity c (cross_message lowerTrend));
                Invoke (Telegram_send_message (telegramChatID (self s))
                          (cross_message lowerTrend))].
        cbn [fst snd trace asked_trend emitted set_gui set_trace In].
        split; [ now rewrite <- !app_assoc | ].
        split; [ tauto | ].
        split; [ intros sg [E|[E|[]]]; [ exact (eq_sym E) | discriminate E ] | ].
        split; [ split; [ intros _; repeat split; auto; discriminate | auto ] | ].
        split; [ intros call [E|[E|[]]]; [ discriminate E | exact (eq_sym E) ] | ].
        destruct (fst (send_message C bot (telegramChatID (self s))
                         (cross_message lowerTrend) g1)) as [[]|e].
        -- split; [ intros v E; now injection E | now left ].
        -- split; [ intros v E; discriminate E | ].
           right. repeat split; auto. now exists e.
      * exists [Emit (activity c (cross_message lowerTrend))].
        cbn [fst snd trace asked_trend emitted set_gui set_trace In].
        split; [ now rewrite <- !app_assoc | ].
        split; [ tauto | ].
        split; [ intros sg [E|[]]; exact (eq_sym E) | ].
        split; [ split; [ intros [E|[]]; discriminate E | intros (_ & _ & N); now elim N ] | ].
        split; [ intros call [E|[]]; discriminate E | ].
        split; [ intros v E; discriminate E | ].
        right. repeat split; auto. eexists. reflexivity.
    + exists [Emit (activity c (cross_message lowerTrend))].
      cbn [fst snd trace asked_trend emitted set_gui set_trace In].
      split; [ now rewrite <- !app_assoc | ].
      split; [ tauto | ].
      split; [ intros sg [E|[]]; exact (eq_sym E) | ].
      split; [ split; [ intros [E|[]]; discriminate E | intros (_ & N & _); discriminate N ] | ].
      split; [ intros call [E|[]]; discriminate E | ].
      split; [ intros v E; now injection E | now left ].
Qed.

(** ** The loop and the running flag *)

Lemma running_emitted c sg s :
  running c (emitted sg s) = (fst (running c s), emitted sg s).
Proof. reflexivity. Qed.

Lemma while_runningLoop_stopped fuel c previous s :
  while_runningLoop fuel c false previous s = (Ok tt, s).
Proof. destruct fuel; reflexivity. Qed.

Lemma loop_body_ok c previous s s1 s2 s3 s4 s5 lowerTrend s6 statDict s7 :
  update_data c s = (Ok tt, s1) ->
  handle_logging c s1 = (Ok tt, s2) ->
  handle_trailing_prices c s2 = (Ok tt, s3) ->
  handle_trading c s3 = (Ok tt, s4) ->
  handle_scheduler s4 = (Ok tt, s5) ->
  handle_lower_interval_cross c previous s5 = (Ok lowerTrend, s6) ->
  get_statistics s6 = (Ok statDict, s7) ->
  loop_body c previous s = (Ok lowerTrend, emitted (updated c statDict) s7).
Proof.
  intros H1 H2 H3 H4 H5 H6 H7. unfold loop_body.
  rewrite (bind_ok _ _ _ _ _ H1), (bind_ok _ _ _ _ _ H2), (bind_ok _ _ _ _ _ H3),
    (bind_ok _ _ _ _ _ H4), (bind_ok _ _ _ _ _ H5), (bind_ok _ _ _ _ _ H6),
    (bind_ok _ _ _ _ _ H7).
  reflexivity.
Qed.

(** C7: an iteration whose steps all return runs to its end and emits the
    statistics, whatever the running flag is in the states in between (it
    may have become false before [handle_scheduler], in [s4]): the flag is
    read only after the emission.  If it is false then, the loop returns in
    the state the iteration left, whose last event is that [updated] and
    whose other new events are no [updated]; if it is true, the loop goes on
    from that state. *)
Theorem iteration_completes_before_stop
  (fuel : nat) (c : Caller) (previous : option Trend)
  (s s1 s2 s3 s4 s5 s6 s7 : State) (lowerTrend : option Trend) (statDict : UpdateDict) :
  update_data c s = (Ok tt, s1) ->
  handle_logging c s1 = (Ok tt, s2) ->
  handle_trailing_prices c s2 = (Ok tt, s3) ->
  handle_trading c s3 = (Ok tt, s4) ->
  handle_scheduler s4 = (Ok tt, s5) ->
  handle_lower_interval_cross c previous s5 = (Ok lowerTrend, s6) ->
  get_statistics s6 = (Ok statDict, s7) ->
  (fst (running c s7) = Ok false ->
   while_runningLoop (S fuel) c true previous s
     = (Ok tt, emitted (updated c statDict) s7)) /\
  (fst (running c s7) = Ok true ->
   while_runningLoop (S fuel) c true previous s
     = while_runningLoop fuel c true lowerTrend (emitted (updated c statDict) s7)) /\
  (exists evs,
     trace (emitted (updated c statDict) s7)
       = (trace s ++ evs ++ [Emit (updated c statDict)])%list /\
     Forall (fun ev => allowed true false ev = true) evs).
Proof.
  intros H1 H2 H3 H4 H5 H6 H7.
  pose proof (loop_body_ok _ _ _ _ _ _ _ _ _ _ _ _ H1 H2 H3 H4 H5 H6 H7) as Hbody.
  split; [ | split ].
  - intros Hflag. simpl. rewrite (bind_ok _ _ _ _ _ Hbody).
    unfold bind. rewrite running_emitted, Hflag. apply while_runningLoop_stopped.
  - intros Hflag. simpl. rewrite (bind_ok _ _ _ _ _ Hbody).
    unfold bind. rewrite running_emitted, Hflag. reflexivity.
  - assert (Hsteps : effects true false true s s7).
    { pose proof (effects_refl true false true s) as Hstart.
      assert (E1 : effects true false true s s1).
      { rewrite <- (post_eq _ _ _ _ H1). walk. }
      assert (E2 : effects true false true s s2).
      { rewrite <- (post_eq _ _ _ _ H2). walk. }
      assert (E3 : effects true false true s s3).
      { rewrite <- (post_eq _ _ _ _ H3). walk. }
      assert (E4 : effects true false true s s4).
      { rewrite <- (post_eq _ _ _ _ H4). walk. }
      assert (E5 : effects true false true s s5).
      { rewrite <- (post_eq _ _ _ _ H5). walk. }
      assert (E6 : effects true false true s s6).
      { rewrite <- (post_eq _ _ _ _ H6). walk. }
      rewrite <- (post_eq _ _ _ _ H7). walk. }
    destruct Hsteps as [_ _ _ _ (evs & Htr & Hall)].
    exists evs. split; [ | exact Hall ].
    unfold emitted. cbn [trace set_trace]. rewrite Htr. now rewrite <- app_assoc.
Qed.

(** ** The statistics *)

Lemma bind_inv {A B} (m : M A) (k : A -> M B) s b s' :
  bind m k s = (Ok b, s') -> exists a s1, m s = (Ok a, s1) /\ k a s1 = (Ok b, s').
Proof.
  unfold bind. destruct (m s) as [[a|e|] s1]; intros E; try discriminate E.
  now exists a, s1.
Qed.

Lemma lift_inv {A} (r : result A) s a s' :
  lift r s = (Ok a, s') -> r = Return a /\ s' = s.
Proof.
  destruct r as [a0|e]; simpl; intros E; [ | discriminate E ].
  injection E as <- <-. auto.
Qed.

Lemma ask_inv {A} (f : W -> result A) s a s' :
  ask f s = (Ok a, s') -> f (world (gui s)) = Return a /\ s' = s.
Proof. unfold ask. rewrite (bind_ok (gets gui) _ s (gui s) s eq_refl). apply lift_inv. Qed.

Lemma not_none_inv {A} (o : option A) attr s a s' :
  not_none o attr s = (Ok a, s') -> o = Some a /\ s' = s.
Proof.
  destruct o as [a0|]; simpl; intros E; [ | discriminate E ].
  injection E as <- <-. auto.
Qed.

Lemma deref_inv h attr s t s' :
  deref h attr s = (Ok t, s') ->
  exists r, h = Some r /\ trader_at r (gui s) = Some t /\ s' = s.
Proof.
  unfold deref. intros E.
  apply bind_inv in E. destruct E as (r & s1 & E1 & E).
  apply not_none_inv in E1. destruct E1 as [-> ->].
  rewrite (bind_ok (gets gui) _ s (gui s) s eq_refl) in E.
  apply not_none_inv in E. destruct E as [Ht ->].
  now exists r.
Qed.

Lemma for_each_ask_inv {A B} (f : A -> W -> result B) l : forall s l' s',
  for_each (fun x => ask (f x)) l s = (Ok l', s') -> s' = s.
Proof.
  induction l as [|x l IH]; intros s l' s' E; simpl in E.
  - now injection E.
  - apply bind_inv in E. destruct E as (y & s1 & E1 & E).
    apply ask_inv in E1. destruct E1 as [_ ->].
    apply bind_inv in E. destruct E as (ys & s2 & E2 & E).
    apply IH in E2. subst s2. now injection E.
Qed.

(** The claim that the ticker price of the statistics is rounded to two
    decimals like the other amounts. *)
Definition ticker_rounded (s : State) : Prop :=
  forall statDict s' r t price,
    get_statistics s = (Ok statDict, s') ->
    self_trader (self s) = Some r ->
    trader_at r (gui s) = Some t ->
    get_current_price C (dataView t) (world (gui s)) = Return price ->
    tickerValue statDict = "$" ++ fstr (fround price 2).

Context `{RndF : !Rounding F}.

(** [v] is [x] rounded to [n] decimal places: whatever the exact value of
    [x], the exact value of [v] is, up to the relative error of a double,
    a decimal of [n] places, and no decimal of [n] places is closer to
    [x]. *)
Definition rounded (n : nat) (x v : F) : Prop :=
  forall a,
    fvalue x = Some a ->
    exists r q,
      fvalue v = Some r /\
      Decimal.near r q = true /\
      Decimal.places n q = true /\
      Decimal.closest n a q = true.

(** [v] is the absolute value of [x]. *)
Definition magnitude (x v : F) : Prop :=
  fvalue v = option_map Decimal.abs (fvalue x).

Lemma fround_rounded (n : nat) (x : F) :
  (n <= 22)%nat -> rounded n x (fround x (Z.of_nat n)).
Proof.
  intros Hn a Ha. destruct (fround_value x n a Hn Ha) as (r & Hr & Hnear).
  exists r, (Decimal.round a (Z.of_nat n)).
  split; [ exact Hr | ]. split; [ exact Hnear | ].
  split; [ apply Decimal.round_places | apply Decimal.round_closest ].
Qed.


(** ** The lower interval *)

Lemma bind_assoc {A B D} (m : M A) (k1 : A -> M B) (k2 : B -> M D) s :
  bind (bind m k1) k2 s = bind m (fun a => bind (k1 a) k2) s.
Proof. unfold bind. destruct (m s) as [[a|e|] s1]; reflexivity. Qed.

(** A computation that starts with a call has that call as its first new
    event. *)
Lemma invoke_first {A B} (c : Call) (f : Gui -> result A * Gui) (k : A -> M B) s :
  (forall a s1, effects true true true s1 (post (k a) s1)) ->
  exists rest,
    trace (post (bind (invoke c f) k) s) = (trace s ++ Invoke c :: rest)%list.
Proof.
  intros Hk. unfold post, bind. rewrite invoke_eq.
  destruct (fst (f (gui s))) as [a|e].
  - destruct (Hk a (set_gui (set_trace s (trace s ++ [Invoke c])) (snd (f (gui s)))))
      as [_ _ _ _ (evs & Htr & _)].
    unfold post in Htr. rewrite Htr. cbn [trace set_gui set_trace].
    exists evs. now rewrite <- app_assoc.
  - exists []. reflexivity.
Qed.

(** C3, at '4h': the tuple of the source has '12h' between '2h' and '4h',
    so the interval below '4h' comes out as '12h' and the lower-interval
    feed is requested for '12h'; on the ladder in ascending order of
    duration it would be '2h'. *)
Theorem initialize_lower_interval_trading_4h (s : State) :
  lower_interval_of sortedIntervals "4h" = Return "12h" /\
  lower_interval_of intervalLadder "4h" = Return "2h" /\
  exists rest,
    trace (post (initialize_lower_interval_trading LIVE "4h") s)
      = (trace s ++ Emit (activity LIVE "Retrieving data for lower interval 12h...")
                 :: Invoke (New_Data "12h") :: rest)%list.
Proof.
  split; [ reflexivity | split; [ reflexivity | ] ].
  unfold post, initialize_lower_interval_trading.
  change (negb (String.eqb "4h" "1m")) with true. cbv iota.
  change (lower_interval_of sortedIntervals "4h") with (Return (A:=string) "12h").
  rewrite (bind_ok (lift (Return "12h"%string)) _ s "12h"%string s eq_refl).
  rewrite (bind_ok (emit _) _ s tt (emitted _ s) eq_refl).
  rewrite bind_assoc.
  match goal with
  | |- context [ bind (invoke ?c ?f) ?k ?s1 ] =>
      destruct (invoke_first c f k s1) as [rest Hrest]
  end.
  - intros d s1. walk_from s1.
  - unfold post in Hrest. rewrite Hrest. exists rest.
    unfold emitted. cbn [trace set_trace]. now rewrite <- app_assoc.
Qed.

(** * Further properties of the worker *)

(** ** Set-up for a caller that is neither LIVE nor SIMULATION *)


(** ** Credentials and the trader that is asked for *)

Definition key_missing : string := "Please specify an API key. No API key found.".

Lemma create_trader_configured c s d i :
  interfaceDictionary (settings s) c = Some d ->
  convert_interval C (interval d) = Return i ->
  create_trader c s =
  bind (match c with
        | SIMULATION =>
            emit (activity c ("Retrieving data for interval " ++ i ++ "...")) ;;
            t <- invoke (New_SimulationTrader
                           (simulationStartingBalanceSpinBox (configuration (settings s)))
                           (ticker d) i)
                        (new_SimulationTrader C
                           (simulationStartingBalanceSpinBox (configuration (settings s)))
                           (ticker d) i) ;;
            modify_gui (fun g => set_simulationTrader g (Some t))
        | LIVE =>
            lift (check_api_credentials (binanceApiKey (configuration (settings s)))
                    (binanceApiSecret (configuration (settings s)))) ;;
            emit (activity c ("Retrieving data for interval " ++ i ++ "...")) ;;
            t <- invoke (New_RealTrader
                           (binanceApiSecret (configuration (settings s)))
                           (binanceApiKey (configuration (settings s))) i (ticker d)
                           (if otherRegionRadio (configuration (settings s))
                            then "com" else "us")
                           (isolatedMarginAccountRadio (configuration (settings s))))
                        (new_RealTrader C
                           (binanceApiSecret (configuration (settings s)))
                           (binanceApiKey (configuration (settings s))) i (ticker d)
                           (if otherRegionRadio (configuration (settings s))
                            then "com" else "us")
                           (isolatedMarginAccountRadio (configuration (settings s)))) ;;
            modify_gui (fun g => set_trader g (Some t))
        | OtherCaller _ => raise (ValueError "Invalid caller.")
        end)
       (fun _ =>
          emit (activity c "Retrieved data successfully.") ;;
          if lowerIntervalCheck d then initialize_lower_interval_trading c i else ret tt)
       s.
Proof.
  intros Hd Hi. unfold create_trader.
  rewrite (bind_ok (gets settings) _ s (settings s) s eq_refl).
  rewrite Hd. rewrite (bind_ok (ret d) _ s d s eq_refl). cbv zeta.
  rewrite Hi. rewrite (bind_ok (lift (Return i)) _ s i s eq_refl).
  reflexivity.
Qed.

Lemma string_length_zero (x : string) : (String.length x =? 0)%nat = true <-> x = "".
Proof.
  destruct x as [|a x]; simpl; split; intros E; try reflexivity; discriminate E.
Qed.

(** LIVE with a secret but no API key: [setup_bot] raises the [ValueError]
    that asks for the key, from the state it started in (no trader was
    constructed, nothing was emitted), and [run] ends with that message as
    its only signal. *)
Theorem run_live_without_key (fuel : nat) (s : State) (d : ConfigDict) (i : string) :
  caller (self s) = LIVE ->
  interfaceDictionary (settings s) LIVE = Some d ->
  convert_interval C (interval d) = Return i ->
  binanceApiSecret (configuration (settings s)) <> "" ->
  binanceApiKey (configuration (settings s)) = "" ->
  setup_bot LIVE s = (Raise (ValueError key_missing), s) /\
  run fuel s = (Ok tt, emitted (error LIVE key_missing) s).
Proof.
  intros Hc Hd Hi Hsecret Hkey.
  assert (Hsetup : setup_bot LIVE s = (Raise (ValueError key_missing), s)).
  { unfold setup_bot.
    erewrite bind_raise; [ reflexivity | ].
    rewrite (create_trader_configured LIVE s d i Hd Hi).
    apply bind_raise. apply bind_raise.
    unfold check_api_credentials. rewrite Hkey.
    destruct (String.length (binanceApiSecret (configuration (settings s))) =? 0)%nat eqn:E.
    - apply string_length_zero in E. now elim Hsecret.
    - reflexivity. }
  split; [ exact Hsetup | ].
  rewrite <- Hc in Hsetup. rewrite (run_setup_raises fuel s _ s Hsetup eq_refl).
  now rewrite Hc.
Qed.

(** What [create_trader] asks for.  For SIMULATION its first two events are
    the notice and the construction of a simulation trader with the starting
    balance of the configuration, the ticker and the converted interval,
    whatever the API credentials are; for LIVE with both credentials given
    they are the notice and the construction of a real trader with the
    secret, the key, the interval, the ticker, the region ('com' when the
    other-region button is checked, 'us' otherwise) and the margin mode. *)
Theorem create_trader_requests (c : Caller) (s : State) (d : ConfigDict) (i : string) :
  interfaceDictionary (settings s) c = Some d ->
  convert_interval C (interval d) = Return i ->
  let cfg := configuration (settings s) in
  let notice := Emit (activity c ("Retrieving data for interval " ++ i ++ "...")) in
  (c = SIMULATION ->
   exists rest,
     trace (post (create_trader c) s)
       = (trace s ++ notice
                  :: Invoke (New_SimulationTrader (simulationStartingBalanceSpinBox cfg)
                               (ticker d) i) :: rest)%list) /\
  (c = LIVE -> binanceApiSecret cfg <> "" -> binanceApiKey cfg <> "" ->
   exists rest,
     trace (post (create_trader c) s)
       = (trace s ++ notice
                  :: Invoke (New_RealTrader (binanceApiSecret cfg) (binanceApiKey cfg) i
                               (ticker d)
                               (if otherRegionRadio cfg then "com" else "us")
                               (isolatedMarginAccountRadio cfg)) :: rest)%list).
Proof.
  intros Hd Hi. cbv zeta. split.
  - intros ->. unfold post. rewrite (create_trader_configured SIMULATION s d i Hd Hi).
    rewrite !bind_assoc.
    rewrite (bind_ok (emit _) _ s tt (emitted _ s) eq_refl).
    rewrite !bind_assoc.
    match goal with
    | |- context [ bind (invoke ?c ?f) ?k ?s1 ] =>
        destruct (invoke_first c f k s1) as [rest Hrest]
    end.
    + intros t s1. walk_from s1.
    + unfold post in Hrest. rewrite Hrest. exists rest.
      unfold emitted. cbn [trace set_trace]. now rewrite <- app_assoc.
  - intros -> Hsecret Hkey. unfold post.
    rewrite (create_trader_configured LIVE s d i Hd Hi).
    rewrite !bind_assoc.
    assert (Hcheck : check_api_credentials
                       (binanceApiKey (configuration (settings s)))
                       (binanceApiSecret (configuration (settings s))) = Return tt).
    { unfold check_api_credentials.
      destruct (String.length (binanceApiSecret (configuration (settings s))) =? 0)%nat eqn:E1.
      - apply string_length_zero in E1. now elim Hsecret.
      - destruct (String.length (binanceApiKey (configuration (settings s))) =? 0)%nat eqn:E2.
        + apply string_length_zero in E2. now elim Hkey.
        + reflexivity. }
    rewrite Hcheck. rewrite (bind_ok (lift (Return tt)) _ s tt s eq_refl).
    rewrite !bind_assoc.
    rewrite (bind_ok (emit _) _ s tt (emitted _ s) eq_refl).
    rewrite !bind_assoc.
    match goal with
    | |- context [ bind (invoke ?c ?f) ?k ?s1 ] =>
        destruct (invoke_first c f k s1) as [rest Hrest]
    end.
    + intros t s1. walk_from s1.
    + unfold post in Hrest. rewrite Hrest. exists rest.
      unfold emitted. cbn [trace set_trace]. now rewrite <- app_assoc.
Qed.

(** ** Arming the scheduler *)

(** The seconds one unit of the scheduling combo box stands for. *)
Definition unit_seconds (unit : string) : option Z :=
  if String.eqb unit "Seconds" then Some 1
  else if String.eqb unit "Minutes" then Some 60
  else if String.eqb unit "Hours" then Some 3600
  else if String.eqb unit "Days" then Some 86400
  else None.

(** The interval and the deadline are both within what [timedelta] and
    [datetime] hold. *)
Definition deadline_fits (t seconds : Z) : bool :=
  timedelta_fits seconds && datetime_fits (t + timedelta_seconds seconds).

Lemma initialize_scheduler_eq (s : State) :
  initialize_scheduler s =
  match unit_seconds (schedulingIntervalComboBox (configuration (settings s))) with
  | None => (Raise (ValueError "Invalid type of unit."), s)
  | Some k =>
      let seconds := schedulingTimeUnit (configuration (settings s)) * k in
      let s1 := set_gui (set_self s (set_scheduleSeconds (self s) (Some seconds)))
                  (set_world (gui s) (snd (datetime_now C (world (gui s))))) in
      match timedelta seconds with
      | Throw e => (Raise e, s1)
      | Return delta =>
          match datetime_add (fst (datetime_now C (world (gui s)))) delta with
          | Throw e => (Raise e, s1)
          | Return deadline =>
              (Ok tt, set_self s1 (set_nextScheduledEvent (self s1) (Some deadline)))
          end
      end
  end.
Proof.
  assert (Hseconds :
    (if String.eqb (schedulingIntervalComboBox (configuration (settings s))) "Seconds"
     then ret (schedulingTimeUnit (configuration (settings s)))
     else if String.eqb (schedulingIntervalComboBox (configuration (settings s))) "Minutes"
     then ret (schedulingTimeUnit (configuration (settings s)) * 60)
     else if String.eqb (schedulingIntervalComboBox (configuration (settings s))) "Hours"
     then ret (schedulingTimeUnit (configuration (settings s)) * 3600)
     else if String.eqb (schedulingIntervalComboBox (configuration (settings s))) "Days"
     then ret (schedulingTimeUnit (configuration (settings s)) * 3600 * 24)
     else raise (ValueError "Invalid type of unit."))
    = match unit_seconds (schedulingIntervalComboBox (configuration (settings s))) with
      | Some k => ret (schedulingTimeUnit (configuration (settings s)) * k)
      | None => raise (ValueError "Invalid type of unit.")
      end).
  { unfold unit_seconds.
    destruct (String.eqb (schedulingIntervalComboBox (configuration (settings s))) "Seconds");
      [ now rewrite Z.mul_1_r | ].
    destruct (String.eqb (schedulingIntervalComboBox (configuration (settings s))) "Minutes");
      [ reflexivity | ].
    destruct (String.eqb (schedulingIntervalComboBox (configuration (settings s))) "Hours");
      [ reflexivity | ].
    destruct (String.eqb (schedulingIntervalComboBox (configuration (settings s))) "Days");
      [ | reflexivity ].
    f_equal. lia. }
  unfold initialize_scheduler.
  rewrite (bind_ok (gets settings) _ s (settings s) s eq_refl). cbv zeta.
  rewrite Hseconds.
  destruct (unit_seconds (schedulingIntervalComboBox (configuration (settings s)))) as [k|];
    [ | reflexivity ].
  unfold bind, ret, modify_self, modify, now. cbn -[Z.mul timedelta datetime_add].
  destruct (datetime_now C (world (gui s))) as [t w]. cbn -[Z.mul timedelta datetime_add].
  destruct (timedelta (schedulingTimeUnit (configuration (settings s)) * k)) as [delta|e];
    cbn -[Z.mul datetime_add]; [ | reflexivity ].
  destruct (datetime_add t delta) as [deadline|e]; reflexivity.
Qed.

Lemma timedelta_cases (seconds : Z) :
  if timedelta_fits seconds
  then timedelta seconds = Return (timedelta_seconds seconds)
  else exists e, timedelta seconds = Throw e /\ exn_class e = "OverflowError".
Proof.
  unfold timedelta. destruct (timedelta_fits seconds); [ reflexivity | ].
  destruct ((- 2147483648 <=? seconds / 86400) && (seconds / 86400 <=? 2147483647));
    eexists; split; reflexivity.
Qed.

Lemma datetime_add_cases (d delta : Z) :
  if datetime_fits (d + delta)
  then datetime_add d delta = Return (d + delta)
  else exists e, datetime_add d delta = Throw e /\ exn_class e = "OverflowError".
Proof.
  unfold datetime_add. destruct (datetime_fits (d + delta)); [ reflexivity | ].
  eexists; split; reflexivity.
Qed.

Lemma initialize_scheduler_cases (s : State) :
  let measurement := schedulingTimeUnit (configuration (settings s)) in
  let unit := schedulingIntervalComboBox (configuration (settings s)) in
  let t := fst (datetime_now C (world (gui s))) in
  (forall k,
     unit_seconds unit = Some k ->
     scheduleSeconds (self (post initialize_scheduler s)) = Some (measurement * k) /\
     trace (post initialize_scheduler s) = trace s /\
     gui (post initialize_scheduler s)
       = set_world (gui s) (snd (datetime_now C (world (gui s)))) /\
     (deadline_fits t (measurement * k) = true ->
      fst (initialize_scheduler s) = Ok tt /\
      nextScheduledEvent (self (post initialize_scheduler s))
        = Some (t + timedelta_seconds (measurement * k))) /\
     (deadline_fits t (measurement * k) = false ->
      (exists e, fst (initialize_scheduler s) = Raise e /\ exn_class e = "OverflowError") /\
      nextScheduledEvent (self (post initialize_scheduler s))
        = nextScheduledEvent (self s))) /\
  (unit_seconds unit = None ->
   initialize_scheduler s = (Raise (ValueError "Invalid type of unit."), s)).
Proof.
  cbv zeta. unfold post. rewrite initialize_scheduler_eq.
  split; [ | now intros -> ].
  intros k ->. cbv zeta. unfold deadline_fits.
  pose proof (timedelta_cases (schedulingTimeUnit (configuration (settings s)) * k)) as Htd.
  destruct (timedelta_fits (schedulingTimeUnit (configuration (settings s)) * k)).
  - rewrite Htd.
    pose proof (datetime_add_cases (fst (datetime_now C (world (gui s))))
                  (timedelta_seconds (schedulingTimeUnit (configuration (settings s)) * k)))
      as Hadd.
    destruct (datetime_fits (fst (datetime_now C (world (gui s)))
                + timedelta_seconds (schedulingTimeUnit (configuration (settings s)) * k))).
    + rewrite Hadd. cbn -[Z.mul timedelta_seconds].
      repeat split; try reflexivity; discriminate.
    + destruct Hadd as (e & -> & He). cbn -[Z.mul timedelta_seconds].
      repeat split; try reflexivity; try discriminate.
      now exists e.
  - destruct Htd as (e & -> & He). cbn -[Z.mul timedelta_seconds].
    repeat split; try reflexivity; try discriminate.
    now exists e.
Qed.

(** [initialize_scheduler] with one of the four units sets [scheduleSeconds]
    to the magnitude times the seconds of the unit, reads the time and makes
    no call and no emission.  While that interval is one a [timedelta] holds
    and the time read plus the interval is one a [datetime] holds, it
    returns with [nextScheduledEvent] set to that sum.  Otherwise it raises
    [OverflowError] with [scheduleSeconds] already written and
    [nextScheduledEvent] as it was.  With any other unit it raises
    [ValueError] and leaves the state as it was. *)
Theorem initialize_scheduler_arms (s : State) :
  let measurement := schedulingTimeUnit (configuration (settings s)) in
  let unit := schedulingIntervalComboBox (configuration (settings s)) in
  let t := fst (datetime_now C (world (gui s))) in
  (forall k,
     unit_seconds unit = Some k ->
     scheduleSeconds (self (post initialize_scheduler s)) = Some (measurement * k) /\
     trace (post initialize_scheduler s) = trace s /\
     gui (post initialize_scheduler s)
       = set_world (gui s) (snd (datetime_now C (world (gui s)))) /\
     (deadline_fits t (measurement * k) = true ->
      fst (initialize_scheduler s) = Ok tt /\
      nextScheduledEvent (self (post initialize_scheduler s))
        = Some (t + timedelta_seconds (measurement * k))) /\
     (deadline_fits t (measurement * k) = false ->
      (exists e, fst (initialize_scheduler s) = Raise e /\ exn_class e = "OverflowError") /\
      nextScheduledEvent (self (post initialize_scheduler s))
        = nextScheduledEvent (self s))) /\
  (unit_seconds unit = None ->
   initialize_scheduler s = (Raise (ValueError "Invalid type of unit."), s)).
Proof. exact (initialize_scheduler_cases s). Qed.

(** A scheduler armed by [initialize_scheduler] and checked in any later
    state that has the worker's attributes as arming left them and a
    telegram bot to send through: the check sends the statistics, for the
    chat and the interval of the worker, if the time it reads is at least
    the time read at arming plus the interval, and does nothing to the
    trace or the worker if that time is earlier. *)
Theorem armed_check_fires_when_interval_elapsed
  (s later : State) (seconds : Z) (bot : TelegramBot) :
  fst (initialize_scheduler s) = Ok tt ->
  scheduleSeconds (self (post initialize_scheduler s)) = Some seconds ->
  self later = self (post initialize_scheduler s) ->
  telegramBot (gui later) = Some bot ->
  let armed_at := fst (datetime_now C (world (gui s))) in
  let checked := fst (datetime_now C (world (gui later))) in
  (armed_at + timedelta_seconds seconds <= checked ->
   trace (post handle_scheduler later)
     = (trace later ++ [Invoke (Telegram_send_statistics (telegramChatID (self s))
                                  (Some seconds))])%list) /\
  (checked < armed_at + timedelta_seconds seconds ->
   trace (post handle_scheduler later) = trace later /\
   self (post handle_scheduler later) = self later).
Proof.
  intros Hok Hsec Hself Hbot. cbv zeta.
  destruct (initialize_scheduler_cases s) as [Harm Hbad].
  destruct (unit_seconds (schedulingIntervalComboBox (configuration (settings s))))
    as [k|] eqn:Ek; [ | rewrite (Hbad eq_refl) in Hok; discriminate Hok ].
  destruct (Harm k eq_refl) as (Hsec' & _ & _ & Hfits & Hover).
  destruct (deadline_fits (fst (datetime_now C (world (gui s))))
              (schedulingTimeUnit (configuration (settings s)) * k));
    [ | destruct (Hover eq_refl) as ((e & He & _) & _); rewrite He in Hok; discriminate Hok ].
  destruct (Hfits eq_refl) as (_ & Hnext).
  rewrite Hsec in Hsec'. injection Hsec' as Hseconds.
  rewrite <- Hseconds in Hnext.
  assert (Hchat : telegramChatID (self later) = telegramChatID (self s)).
  { rewrite Hself. exact (eff_chat _ _ _ _ _ (eff_initialize_scheduler s)). }
  rewrite <- Hself in Hnext, Hsec.
  split.
  - intros Hdue.
    destruct (handle_scheduler_trace later) as [Hquiet | (Hfired & _)].
    + exfalso.
      unfold post, handle_scheduler in Hquiet.
      rewrite (bind_ok (gets self) _ later (self later) later eq_refl) in Hquiet.
      rewrite Hnext in Hquiet.
      unfold bind at 1 in Hquiet. unfold now at 1 in Hquiet.
      destruct (datetime_now C (world (gui later))) as [t w] eqn:Enow. cbn [fst] in Hdue.
      destruct (Z.geb_spec t (fst (datetime_now C (world (gui s))) + timedelta_seconds seconds));
        [ | lia ].
      rewrite (bind_ok (gets gui) _ _ _ _ eq_refl) in Hquiet.
      cbn [gui set_gui telegramBot set_world] in Hquiet. rewrite Hbot in Hquiet.
      rewrite (bind_ok (not_none (Some bot) _) _ _ bot _ eq_refl) in Hquiet.
      unfold bind at 1 in Hquiet. rewrite invoke_eq in Hquiet.
      match type of Hquiet with
      | context [ fst (send_statistics_telegram C bot ?a ?b ?g) ] =>
          destruct (send_statistics_telegram C bot a b g) as [[[]|e] g1]
      end; cbn [fst snd] in Hquiet.
      * unfold bind, now in Hquiet. cbn [gui set_gui world] in Hquiet.
        destruct (datetime_now C (world g1)) as [t' w'].
        cbn [self set_gui set_trace gets] in Hquiet. rewrite Hsec in Hquiet.
        cbn in Hquiet.
        apply (f_equal (@List.length _)) in Hquiet.
        rewrite length_app in Hquiet. simpl in Hquiet. lia.
      * cbn in Hquiet.
        apply (f_equal (@List.length _)) in Hquiet.
        rewrite length_app in Hquiet. simpl in Hquiet. lia.
    + rewrite Hfired. unfold fire. now rewrite Hchat, Hsec.
  - intros Hearly. unfold post.
    rewrite (handle_scheduler_early later _ Hnext Hearly).
    split; reflexivity.
Qed.

(** ** The telegram bot *)

Lemma handle_telegram_bot_present s bot :
  telegramBot (gui s) = Some bot ->
  handle_telegram_bot s = invoke Telegram_start (telegram_start C bot) s.
Proof.
  intros Hbot. unfold handle_telegram_bot.
  rewrite (bind_ok (gets gui) _ s (gui s) s eq_refl). rewrite Hbot.
  rewrite (bind_ok (ret tt) _ s tt s eq_refl).
  rewrite (bind_ok (gets gui) _ s (gui s) s eq_refl). rewrite Hbot.
  now rewrite (bind_ok (not_none (Some bot) _) _ s bot s eq_refl).
Qed.

Lemma handle_telegram_bot_absent s :
  telegramBot (gui s) = None ->
  let token := telegramApiKey (configuration (settings s)) in
  let s1 := set_trace s (trace s ++ [Invoke (New_TelegramBot token)]) in
  handle_telegram_bot s =
    match fst (new_TelegramBot C token (gui s)) with
    | Return bot =>
        invoke Telegram_start (telegram_start C bot)
          (set_gui s1 (set_telegramBot (snd (new_TelegramBot C token (gui s))) (Some bot)))
    | Throw e => (Raise e, set_gui s1 (snd (new_TelegramBot C token (gui s))))
    end.
Proof.
  intros Hnone. cbv zeta. unfold handle_telegram_bot.
  rewrite (bind_ok (gets gui) _ s (gui s) s eq_refl). rewrite Hnone.
  rewrite bind_assoc.
  rewrite (bind_ok (gets settings) _ s (settings s) s eq_refl). cbv zeta.
  rewrite !bind_assoc.
  unfold bind at 1. rewrite invoke_eq.
  destruct (new_TelegramBot C (telegramApiKey (configuration (settings s))) (gui s))
    as [[bot|e] g1]; cbn [fst snd]; [ | reflexivity ].
  rewrite (bind_ok (modify_gui _) _ _ tt _ eq_refl).
  rewrite (bind_ok (gets gui) _ _ _ _ eq_refl).
  cbn [gui set_gui telegramBot set_telegramBot].
  now rewrite (bind_ok (not_none (Some bot) _) _ _ bot _ eq_refl).
Qed.

(** When [handle_telegram_bot] returns, the last thing it did was to start
    the bot. *)
Lemma handle_telegram_bot_ok s s' :
  handle_telegram_bot s = (Ok tt, s') ->
  exists pre, trace s' = (trace s ++ pre ++ [Invoke Telegram_start])%list.
Proof.
  intros E. destruct (telegramBot (gui s)) as [bot|] eqn:Hbot.
  - rewrite (handle_telegram_bot_present s bot Hbot), invoke_eq in E.
    injection E as _ <-. exists []. reflexivity.
  - rewrite (handle_telegram_bot_absent s Hbot) in E.
    destruct (fst (new_TelegramBot C (telegramApiKey (configuration (settings s))) (gui s)))
      as [bot|e]; [ | discriminate E ].
    rewrite invoke_eq in E. injection E as _ <-.
    exists [Invoke (New_TelegramBot (telegramApiKey (configuration (settings s))))].
    cbn [trace set_gui set_trace]. now rewrite <- app_assoc.
Qed.

(** [handle_telegram_bot] constructs a bot only when the gui holds none,
    with the telegram API key of the configuration as token; a bot that is
    there is started again and no second one is made. *)
Theorem handle_telegram_bot_reuses (s : State) :
  (forall bot,
     telegramBot (gui s) = Some bot ->
     handle_telegram_bot s = invoke Telegram_start (telegram_start C bot) s /\
     trace (post handle_telegram_bot s) = (trace s ++ [Invoke Telegram_start])%list) /\
  (telegramBot (gui s) = None ->
   let token := telegramApiKey (configuration (settings s)) in
   exists rest,
     trace (post handle_telegram_bot s) = (trace s ++ Invoke (New_TelegramBot token) :: rest)%list /\
     (rest = [] \/ rest = [Invoke Telegram_start]) /\
     (forall bot g1,
        new_TelegramBot C token (gui s) = (Return bot, g1) ->
        handle_telegram_bot s
          = invoke Telegram_start (telegram_start C bot)
              (set_gui (set_trace s (trace s ++ [Invoke (New_TelegramBot token)]))
                 (set_telegramBot g1 (Some bot))))).
Proof.
  split.
  - intros bot Hbot. split; [ now apply handle_telegram_bot_present | ].
    unfold post. rewrite (handle_telegram_bot_present s bot Hbot), invoke_eq. reflexivity.
  - intros Hnone. cbv zeta.
    pose proof (handle_telegram_bot_absent s Hnone) as Hshape. cbv zeta in Hshape.
    destruct (new_TelegramBot C (telegramApiKey (configuration (settings s))) (gui s))
      as [[bot|e] g1] eqn:Enew; cbn [fst snd] in Hshape.
    + exists [Invoke Telegram_start]. split; [ | split; [ now right | ] ].
      * unfold post. rewrite Hshape, invoke_eq.
        cbn [snd trace set_gui set_trace]. now rewrite <- app_assoc.
      * intros bot' g1' E. injection E as <- <-. exact Hshape.
    + exists []. split; [ | split; [ now left | ] ].
      * unfold post. rewrite Hshape. reflexivity.
      * intros bot' g1' E. discriminate E.
Qed.

(** ** A check that cannot send *)

(** When a check is due and the gui holds no telegram bot, the check raises
    an [AttributeError] with nothing sent.  Whenever a check does not
    return, be it for that or because the sending raised, the worker's
    attributes are as they were: the deadline stays where it was, so the
    next check is due again. *)
Theorem handle_scheduler_failure_keeps_deadline (s : State) :
  (fst (handle_scheduler s) <> Ok tt -> self (post handle_scheduler s) = self s) /\
  (forall deadline,
     nextScheduledEvent (self s) = Some deadline ->
     deadline <= fst (datetime_now C (world (gui s))) ->
     telegramBot (gui s) = None ->
     fst (handle_scheduler s) = Raise (AttributeError "send_statistics_telegram") /\
     trace (post handle_scheduler s) = trace s).
Proof.
  split.
  - unfold post. destruct (handle_scheduler s) as [o s'] eqn:E. cbn [fst snd].
    intros Hfail. unfold handle_scheduler in E.
    rewrite (bind_ok (gets self) _ s (self s) s eq_refl) in E.
    destruct (nextScheduledEvent (self s)) as [deadline|];
      [ | injection E as <- <-; now elim Hfail ].
    unfold bind at 1 in E. unfold now at 1 in E.
    destruct (datetime_now C (world (gui s))) as [t w].
    destruct (t >=? deadline); [ | injection E as <- <-; now elim Hfail ].
    rewrite (bind_ok (gets gui) _ _ _ _ eq_refl) in E.
    cbn [gui set_gui telegramBot set_world] in E.
    destruct (telegramBot (gui s)) as [bot|]; [ | injection E as <- <-; reflexivity ].
    rewrite (bind_ok (not_none (Some bot) _) _ _ bot _ eq_refl) in E.
    unfold bind at 1 in E. rewrite invoke_eq in E.
    match type of E with
    | context [ fst (send_statistics_telegram C bot ?a ?b ?g) ] =>
        destruct (send_statistics_telegram C bot a b g) as [[[]|e] g1]
    end; cbn [fst snd] in E; [ | injection E as <- <-; reflexivity ].
    unfold bind at 1 in E. unfold now at 1 in E. cbn [gui set_gui world] in E.
    destruct (datetime_now C (world g1)) as [t' w'].
    rewrite (bind_ok (gets self) _ _ _ _ eq_refl) in E. cbn [self set_gui set_trace] in E.
    destruct (scheduleSeconds (self s)) as [seconds|];
      injection E as <- <-; [ now elim Hfail | reflexivity ].
  - intros deadline Hn Hdue Hbot.
    assert (Hrun : handle_scheduler s =
                   (Raise (AttributeError "send_statistics_telegram"),
                    set_gui s (set_world (gui s) (snd (datetime_now C (world (gui s))))))).
    { unfold handle_scheduler.
      rewrite (bind_ok (gets self) _ s (self s) s eq_refl). rewrite Hn.
      unfold bind at 1. unfold now at 1.
      destruct (datetime_now C (world (gui s))) as [t w]. cbn [fst snd] in *.
      destruct (Z.geb_spec t deadline); [ | lia ].
      rewrite (bind_ok (gets gui) _ _ _ _ eq_refl).
      cbn [gui set_gui telegramBot set_world]. rewrite Hbot. reflexivity. }
    unfold post. rewrite Hrun. split; reflexivity.
Qed.

(** ** An armed scheduler and no telegram bot *)

Definition no_send_message : string := "'NoneType' object has no attribute 'send_message'".

Lemma trading_loop_armed_without_bot fuel c s deadline :
  nextScheduledEvent (self s) = Some deadline ->
  telegramBot (gui s) = None ->
  trading_loop fuel c s = (Raise (AttributeError "send_message"), s).
Proof.
  intros Hn Hbot. unfold trading_loop. cbv zeta.
  unfold running. rewrite bind_assoc.
  rewrite (bind_ok (gets gui) _ s (gui s) s eq_refl).
  rewrite (bind_ok (ret _) _ s _ s eq_refl).
  rewrite (bind_ok (gets self) _ s (self s) s eq_refl). rewrite Hn.
  rewrite !bind_assoc.
  rewrite (bind_ok (gets gui) _ s (gui s) s eq_refl). rewrite Hbot.
  reflexivity.
Qed.

(** When set-up has armed the scheduler and left the gui without a telegram
    bot (periodic statistics ticked, telegram trading not), the run emits
    [started] and then fails before its first iteration: the notice that
    periodic statistics were initiated has no bot to go through, and the run
    ends with that [AttributeError] as its [error]. *)
Theorem run_armed_without_bot (fuel : nat) (s s1 : State) (deadline : Z) :
  setup_bot (caller (self s)) s = (Ok tt, s1) ->
  nextScheduledEvent (self s1) = Some deadline ->
  telegramBot (gui s1) = None ->
  run fuel s
    = (Ok tt, emitted (error (caller (self s)) no_send_message)
                (emitted (started (caller (self s))) s1)).
Proof.
  intros Hsetup Hn Hbot.
  apply (run_loop_raises fuel s s1 (AttributeError "send_message"));
    [ exact Hsetup | | reflexivity ].
  now apply (trading_loop_armed_without_bot fuel _ _ deadline).
Qed.

(** ** Which lower-interval feed is asked for *)

Lemma lower_interval_trace c i s :
  exists evs,
    trace (post (initialize_lower_interval_trading c i) s) = (trace s ++ evs)%list /\
    (i = "1m" -> evs = []) /\
    (forall e, lower_interval_of sortedIntervals i = Throw e -> evs = []) /\
    (forall x,
       i <> "1m" -> lower_interval_of sortedIntervals i = Return x ->
       let notice := Emit (activity c ("Retrieving data for lower interval " ++ x ++ "...")) in
       match c with
       | OtherCaller _ => evs = [notice]
       | _ => evs = [notice; Invoke (New_Data x)] \/
              evs = [notice; Invoke (New_Data x);
                     Emit (activity c "Retrieved lower interval data successfully.")]
       end).
Proof.
  unfold post, initialize_lower_interval_trading.
  destruct (String.eqb i "1m") eqn:E1; cbn [negb].
  - apply String.eqb_eq in E1. exists []. split; [ now rewrite app_nil_r | ].
    split; [ reflexivity | ]. split; [ reflexivity | ]. intros x Hne. now elim Hne.
  - apply String.eqb_neq in E1.
    destruct (lower_interval_of sortedIntervals i) as [x|e] eqn:El.
    + rewrite (bind_ok (lift (Return x)) _ s x s eq_refl).
      rewrite (bind_ok (emit _) _ s tt (emitted _ s) eq_refl).
      destruct c as [| |n].
      * rewrite bind_assoc. unfold bind at 1. rewrite invoke_eq.
        destruct (new_Data C x (gui (emitted _ s))) as [[d|e] g1]; cbn [fst snd].
        -- eexists. split; [ | split; [ intros E; now elim E1 | split; [ discriminate | ] ] ].
           ++ unfold bind, emitted, emit, log, modify_gui, modify.
              cbn [trace set_trace set_gui snd fst gui]. rewrite <- !app_assoc. reflexivity.
           ++ intros x' _ E. injection E as <-. cbv zeta. right. reflexivity.
        -- eexists. split; [ | split; [ intros E; now elim E1 | split; [ discriminate | ] ] ].
           ++ unfold emitted. cbn [trace set_trace set_gui snd fst].
              rewrite <- !app_assoc. reflexivity.
           ++ intros x' _ E. injection E as <-. cbv zeta. left. reflexivity.
      * rewrite bind_assoc. unfold bind at 1. rewrite invoke_eq.
        destruct (new_Data C x (gui (emitted _ s))) as [[d|e] g1]; cbn [fst snd].
        -- eexists. split; [ | split; [ intros E; now elim E1 | split; [ discriminate | ] ] ].
           ++ unfold bind, emitted, emit, log, modify_gui, modify.
              cbn [trace set_trace set_gui snd fst gui]. rewrite <- !app_assoc. reflexivity.
           ++ intros x' _ E. injection E as <-. cbv zeta. right. reflexivity.
        -- eexists. split; [ | split; [ intros E; now elim E1 | split; [ discriminate | ] ] ].
           ++ unfold emitted. cbn [trace set_trace set_gui snd fst].
              rewrite <- !app_assoc. reflexivity.
           ++ intros x' _ E. injection E as <-. cbv zeta. left. reflexivity.
      * eexists. split; [ | split; [ intros E; now elim E1 | split; [ discriminate | ] ] ].
        -- unfold bind, raise, emitted. cbn [trace set_trace snd fst]. reflexivity.
        -- intros x' _ E. injection E as <-. reflexivity.
    + exists []. split; [ now rewrite app_nil_r | ].
      split; [ reflexivity | ]. split; [ reflexivity | ]. intros x _ E. discriminate E.
Qed.

(** The interval the tuple gives below an interval other than '1m' is the
    entry just before it in the tuple. *)
Lemma lower_interval_is_previous_entry i x :
  i <> "1m" -> lower_interval_of sortedIntervals i = Return x ->
  exists j, nth_error sortedIntervals j = Some x /\ nth_error sortedIntervals (S j) = Some i.
Proof.
  intros Hne. unfold lower_interval_of, sortedIntervals. cbn [tuple_index].
  destruct (String.eqb "1m" i) eqn:E0;
    [ apply String.eqb_eq in E0; now elim Hne; symmetry | ].
  repeat match goal with
         | |- context [ String.eqb ?a i ] =>
             let E := fresh "E" in
             destruct (String.eqb a i) eqn:E;
             [ apply String.eqb_eq in E; subst i; vm_compute; intros H; injection H as <-;
               first [ now exists 0%nat | now exists 1%nat | now exists 2%nat
                     | now exists 3%nat | now exists 4%nat | now exists 5%nat
                     | now exists 6%nat | now exists 7%nat | now exists 8%nat
                     | now exists 9%nat | now exists 10%nat | now exists 11%nat ]
             | ]
         end.
  intros H. discriminate H.
Qed.

(** [initialize_lower_interval_trading] does nothing at all for '1m', so
    the position before the first entry is never looked up; for an interval
    that is not in the tuple it raises with nothing emitted.  A data feed is
    only ever constructed for LIVE or SIMULATION, for an interval other than
    '1m', and then for the entry of the tuple just before that interval,
    announced by the notice that precedes the construction. *)
Theorem lower_interval_feed_requests (c : Caller) (i : string) (s : State) :
  (i = "1m" -> initialize_lower_interval_trading c i s = (Ok tt, s)) /\
  (forall e,
     i <> "1m" -> lower_interval_of sortedIntervals i = Throw e ->
     initialize_lower_interval_trading c i s = (Raise e, s)) /\
  (forall evs x,
     trace (post (initialize_lower_interval_trading c i) s) = (trace s ++ evs)%list ->
     In (Invoke (New_Data x)) evs ->
     i <> "1m" /\ (c = LIVE \/ c = SIMULATION) /\
     lower_interval_of sortedIntervals i = Return x /\
     (exists j, nth_error sortedIntervals j = Some x /\
                nth_error sortedIntervals (S j) = Some i) /\
     exists rest,
       evs = Emit (activity c ("Retrieving data for lower interval " ++ x ++ "..."))
             :: Invoke (New_Data x) :: rest).
Proof.
  split; [ | split ].
  - intros ->. reflexivity.
  - intros e Hne Hl. unfold initialize_lower_interval_trading.
    apply String.eqb_neq in Hne. rewrite Hne. cbn [negb]. rewrite Hl. reflexivity.
  - intros evs x Htr Hin.
    destruct (lower_interval_trace c i s) as (evs0 & Htr0 & H1m & Hthrow & Hret).
    rewrite Htr0 in Htr. apply app_inv_head in Htr. subst evs0.
    destruct (String.eqb i "1m") eqn:E1.
    { apply String.eqb_eq in E1. rewrite (H1m E1) in Hin. contradiction. }
    apply String.eqb_neq in E1.
    destruct (lower_interval_of sortedIntervals i) as [x0|e] eqn:El.
    + specialize (Hret x0 E1 eq_refl). cbv zeta in Hret.
      assert (Hx : x = x0 /\ (c = LIVE \/ c = SIMULATION) /\
                   exists rest,
                     evs = Emit (activity c ("Retrieving data for lower interval "
                                             ++ x0 ++ "..."))
                           :: Invoke (New_Data x0) :: rest).
      { destruct c as [| |n].
        - destruct Hret as [-> | ->]; simpl in Hin;
            repeat (destruct Hin as [Hin|Hin]; try discriminate Hin; try contradiction);
            injection Hin as <-; (split; [ reflexivity | split; [ now left | eexists; reflexivity ] ]).
        - destruct Hret as [-> | ->]; simpl in Hin;
            repeat (destruct Hin as [Hin|Hin]; try discriminate Hin; try contradiction);
            injection Hin as <-; (split; [ reflexivity | split; [ now right | eexists; reflexivity ] ]).
        - subst evs. simpl in Hin. destruct Hin as [Hin|[]]. discriminate Hin. }
      destruct Hx as (-> & Hc & Hshape).
      split; [ exact E1 | ]. split; [ exact Hc | ]. split; [ reflexivity | ].
      split; [ now apply lower_interval_is_previous_entry | exact Hshape ].
    + rewrite (Hthrow e eq_refl) in Hin. contradiction.
Qed.

(** ** What a run emits, from start to end *)

(** A computation that never runs out of fuel: it has no loop in it. *)
Definition halts {A} (m : M A) : Prop := forall s, fst (m s) <> OutOfFuel.

Lemma halts_bind {A B} (m : M A) (k : A -> M B) :
  halts m -> (forall a, halts (k a)) -> halts (bind m k).
Proof.
  intros Hm Hk s. unfold bind. specialize (Hm s).
  destruct (m s) as [[a|e|] s1]; cbn [fst] in *.
  - apply Hk.
  - discriminate.
  - now elim Hm.
Qed.

Lemma halts_ret {A} (a : A) : halts (ret a).
Proof. intros s. discriminate. Qed.

Lemma halts_raise {A} e : halts (@raise A e).
Proof. intros s. discriminate. Qed.

Lemma halts_lift {A} (r : result A) : halts (lift r).
Proof. destruct r; intros s; discriminate. Qed.

Lemma halts_gets {A} (f : State -> A) : halts (gets f).
Proof. intros s. discriminate. Qed.

Lemma halts_modify f : halts (modify f).
Proof. intros s. discriminate. Qed.

Lemma halts_now : halts now.
Proof. intros s. unfold now. destruct (datetime_now C (world (gui s))). discriminate. Qed.

Lemma halts_not_none {A} (o : option A) attr : halts (not_none o attr).
Proof. destruct o; intros s; discriminate. Qed.

Lemma halts_invoke {A} c (f : Gui -> result A * Gui) : halts (invoke c f).
Proof. intros s. rewrite invoke_eq. cbn [fst]. destruct (fst (f (gui s))); discriminate. Qed.

Create HintDb halts.

#[local] Hint Resolve halts_ret halts_raise halts_lift halts_gets halts_modify halts_now
  halts_not_none halts_invoke : halts.

Ltac halt :=
  cbv zeta;
  lazymatch goal with
  | |- halts (bind _ _) => apply halts_bind; [ halt | intros ?; halt ]
  | |- halts (if ?b then _ else _) => destruct b; halt
  | |- halts (match ?x with _ => _ end) => destruct x; halt
  | |- halts _ => solve [ auto with halts ]
  end.

Lemma halts_emit sg : halts (emit sg).
Proof. apply halts_modify. Qed.

Lemma halts_modify_gui f : halts (modify_gui f).
Proof. apply halts_modify. Qed.

Lemma halts_modify_self f : halts (modify_self f).
Proof. apply halts_modify. Qed.

Lemma halts_ask_gui {A} (f : Gui -> result A) : halts (ask_gui f).
Proof. unfold ask_gui. halt. Qed.

#[local] Hint Resolve halts_emit halts_modify_gui halts_modify_self halts_ask_gui : halts.

Lemma halts_initialize_lower_interval_trading c i :
  halts (initialize_lower_interval_trading c i).
Proof. unfold initialize_lower_interval_trading. halt. Qed.

#[local] Hint Resolve halts_initialize_lower_interval_trading : halts.

Lemma halts_create_trader c : halts (create_trader c).
Proof. unfold create_trader. halt. Qed.

Lemma halts_initialize_scheduler : halts initialize_scheduler.
Proof. unfold initialize_scheduler. halt. Qed.

Lemma halts_handle_telegram_bot : halts handle_telegram_bot.
Proof. unfold handle_telegram_bot. halt. Qed.

#[local] Hint Resolve halts_create_trader halts_initialize_scheduler
  halts_handle_telegram_bot : halts.

Lemma halts_setup_bot c : halts (setup_bot c).
Proof. unfold setup_bot. halt. Qed.

(** How [run] ends, by how set-up and the loop end. *)
Lemma run_cases fuel s :
  let c := caller (self s) in
  (exists e s1,
     setup_bot c s = (Raise e, s1) /\
     run fuel s = if is_Exception e
                  then (Ok tt, emitted (error c (exn_str e)) s1)
                  else (Raise e, s1)) \/
  (exists s1 s2,
     setup_bot c s = (Ok tt, s1) /\
     ((trading_loop fuel c (emitted (started c) s1) = (Ok tt, s2) /\
       run fuel s = (Ok tt, s2)) \/
      (trading_loop fuel c (emitted (started c) s1) = (OutOfFuel, s2) /\
       run fuel s = (OutOfFuel, s2)) \/
      (exists e,
         trading_loop fuel c (emitted (started c) s1) = (Raise e, s2) /\
         run fuel s = if is_Exception e
                      then (Ok tt, emitted (error c (exn_str e)) s2)
                      else (Raise e, s2)))).
Proof.
  cbv zeta.
  destruct (setup_bot (caller (self s)) s) as [[[]|e|] s1] eqn:Hsetup.
  - right. exists s1.
    destruct (trading_loop fuel (caller (self s)) (emitted (started (caller (self s))) s1))
      as [[[]|e|] s2] eqn:Hloop; exists s2; (split; [ reflexivity | ]).
    + left. split; [ reflexivity | ].
      unfold run, try_except.
      rewrite (bind_ok (gets self) _ s (self s) s eq_refl). cbv zeta.
      rewrite (bind_ok _ _ _ _ _ Hsetup).
      rewrite (bind_ok (emit _) _ s1 tt (emitted _ s1) eq_refl).
      now rewrite Hloop.
    + right. right. exists e. split; [ reflexivity | ].
      destruct (is_Exception e) eqn:Ee.
      * now apply (run_loop_raises fuel s s1).
      * now apply (run_loop_escapes fuel s s1).
    + right. left. split; [ reflexivity | ].
      unfold run, try_except.
      rewrite (bind_ok (gets self) _ s (self s) s eq_refl). cbv zeta.
      rewrite (bind_ok _ _ _ _ _ Hsetup).
      rewrite (bind_ok (emit _) _ s1 tt (emitted _ s1) eq_refl).
      now rewrite Hloop.
  - left. exists e, s1. split; [ reflexivity | ].
    destruct (is_Exception e) eqn:Ee.
    + now apply run_setup_raises.
    + now apply run_setup_escapes.
  - exfalso. apply (halts_setup_bot (caller (self s)) s). now rewrite Hsetup.
Qed.

(** The events of set-up: [activity] signals and calls. *)
Definition setup_event (e : Event) : bool := allowed true false e.

(** The events of the loop: [activity] and [updated] signals and calls. *)
Definition loop_event (e : Event) : bool := allowed true true e.


(** ** A simulated run and the telegram bot *)

(** One of the three messages [handle_lower_interval_cross] can send. *)
Definition is_cross_message (m : string) : bool :=
  String.eqb m (cross_message None) ||
  String.eqb m (cross_message (Some BEARISH)) ||
  String.eqb m (cross_message (Some BULLISH)).

(** What a simulated run may do: any signal but [finished], and any call
    but the construction or the start of a telegram bot, the sending of
    periodic statistics, and the sending of a message other than the notice
    of a lower-interval cross. *)
Definition simulation_event (e : Event) : bool :=
  match e with
  | Emit finished => false
  | Emit _ => true
  | Invoke (New_TelegramBot _) => false
  | Invoke Telegram_start => false
  | Invoke (Telegram_send_statistics _ _) => false
  | Invoke (Telegram_send_message _ m) => is_cross_message m
  | Invoke _ => true
  end.

(** From [s] to [s'] the deadline was not touched and only such events
    were added. *)
Definition unarmed_step (s s' : State) : Prop :=
  nextScheduledEvent (self s') = nextScheduledEvent (self s) /\
  exists evs, trace s' = (trace s ++ evs)%list /\
              Forall (fun e => simulation_event e = true) evs.

Lemma unarmed_step_refl s : unarmed_step s s.
Proof. split; [ reflexivity | ]. exists []. split; [ now rewrite app_nil_r | constructor ]. Qed.

Lemma unarmed_step_trans s1 s2 s3 :
  unarmed_step s1 s2 -> unarmed_step s2 s3 -> unarmed_step s1 s3.
Proof.
  intros [N1 (evs1 & T1 & F1)] [N2 (evs2 & T2 & F2)]. split; [ congruence | ].
  exists (evs1 ++ evs2)%list. split.
  - rewrite T2, T1. now rewrite app_assoc.
  - apply Forall_app. now split.
Qed.

Lemma unarmed_step_emitted sg s :
  simulation_event (Emit sg) = true -> unarmed_step s (emitted sg s).
Proof.
  intros Hsg. split; [ reflexivity | ].
  exists [Emit sg]. split; [ reflexivity | ]. constructor; [ exact Hsg | constructor ].
Qed.

Lemma effects_unarmed_step upd s s' : effects false upd false s s' -> unarmed_step s s'.
Proof.
  intros [_ _ _ Hsch (evs & Htr & Hall)]. split; [ apply (Hsch eq_refl) | ].
  exists evs. split; [ exact Htr | ].
  eapply Forall_impl; [ | exact Hall ].
  intros [sg|call]; simpl.
  - destruct sg; try discriminate; reflexivity.
  - destruct call; simpl; try discriminate; reflexivity.
Qed.

Lemma unarmed_bind {A B} (m : M A) (k : A -> M B) s0 s :
  unarmed_step s0 (post m s) ->
  (forall a s1, m s = (Ok a, s1) -> unarmed_step s0 s1 -> unarmed_step s0 (post (k a) s1)) ->
  unarmed_step s0 (post (bind m k) s).
Proof.
  unfold post, bind. intros Hm Hk.
  destruct (m s) as [[a|e|] s1] eqn:E; simpl in *; auto.
Qed.

Lemma ask_gui_throw {A} (f : Gui -> result A) s e :
  f (gui s) = Throw e -> ask_gui f s = (Raise e, s).
Proof. unfold ask_gui, bind, gets. simpl. now intros ->. Qed.

Lemma is_cross_message_cross lowerTrend : is_cross_message (cross_message lowerTrend) = true.
Proof. destruct lowerTrend as [[|]|]; reflexivity. Qed.

Lemma cross_unarmed_step c previous s :
  unarmed_step s (post (handle_lower_interval_cross c previous) s).
Proof.
  split.
  { exact (proj1 (eff_sched _ _ _ _ _ (eff_handle_lower_interval_cross c previous s) eq_refl)). }
  unfold post.
  destruct (get_trader C c (gui s)) as [h|e] eqn:Hget.
  2:{ unfold handle_lower_interval_cross.
      rewrite (bind_raise _ _ _ _ _ (ask_gui_throw _ _ _ Hget)).
      exists []. split; [ now rewrite app_nil_r | constructor ]. }
  destruct (get_lower_interval_data C c (gui s)) as [lowerData|e] eqn:Hdata.
  2:{ unfold handle_lower_interval_cross.
      rewrite (bind_ok _ _ _ _ _ (ask_gui_ok _ _ _ Hget)).
      rewrite (bind_raise _ _ _ _ _ (ask_gui_throw _ _ _ Hdata)).
      exists []. split; [ now rewrite app_nil_r | constructor ]. }
  destruct h as [r|].
  2:{ unfold handle_lower_interval_cross.
      rewrite (bind_ok _ _ _ _ _ (ask_gui_ok _ _ _ Hget)).
      rewrite (bind_ok _ _ _ _ _ (ask_gui_ok _ _ _ Hdata)).
      exists []. split; [ now rewrite app_nil_r | constructor ]. }
  destruct (get_trend C r lowerData (gui s)) as [[lowerTrend|e] g1] eqn:Htrend.
  2:{ unfold handle_lower_interval_cross.
      rewrite (bind_ok _ _ _ _ _ (ask_gui_ok _ _ _ Hget)).
      rewrite (bind_ok _ _ _ _ _ (ask_gui_ok _ _ _ Hdata)).
      rewrite (bind_ok (not_none (Some r) _) _ s r s eq_refl).
      rewrite (bind_raise _ _ _ _ _ (invoke_throw _ _ _ _ _ Htrend)).
      exists [Invoke Get_trend]. split; [ reflexivity | ]. repeat constructor. }
  destruct (trader_at r g1) as [t|] eqn:Ht.
  2:{ unfold handle_lower_interval_cross.
      rewrite (bind_ok _ _ _ _ _ (ask_gui_ok _ _ _ Hget)).
      rewrite (bind_ok _ _ _ _ _ (ask_gui_ok _ _ _ Hdata)).
      rewrite (bind_ok (not_none (Some r) _) _ s r s eq_refl).
      rewrite (bind_ok _ _ _ _ _ (invoke_ok _ _ _ _ _ Htrend)).
      unfold deref.
      rewrite (bind_assoc (not_none (Some r) "trend")).
      rewrite (bind_ok (not_none (Some r) _) _ _ r _ eq_refl).
      rewrite bind_assoc. rewrite (bind_ok (gets gui) _ _ _ _ eq_refl).
      cbn [gui set_gui]. rewrite Ht.
      exists [Invoke Get_trend]. split; [ reflexivity | ]. repeat constructor. }
  destruct (trend_eqb previous lowerTrend || trend_eqb lowerTrend (trend t)) eqn:Esame.
  - rewrite (cross_quiet _ _ _ _ _ _ _ _ Hget Hdata Htrend Ht Esame).
    exists [Invoke Get_trend]. split; [ reflexivity | ]. repeat constructor.
  - rewrite (cross_loud _ _ _ _ _ _ _ _ Hget Hdata Htrend Ht Esame).
    destruct (enableTelegramNotification (configuration (settings s))).
    + destruct (telegramBot g1) as [bot|].
      * exists [Invoke Get_trend; Emit (activity c (cross_message lowerTrend));
                Invoke (Telegram_send_message (telegramChatID (self s))
                          (cross_message lowerTrend))].
        split.
        -- cbn [snd trace set_gui set_trace emitted asked_trend].
           now rewrite <- !app_assoc.
        -- repeat constructor. simpl. apply is_cross_message_cross.
      * exists [Invoke Get_trend; Emit (activity c (cross_message lowerTrend))].
        split.
        -- cbn [snd trace set_gui set_trace emitted asked_trend].
           now rewrite <- !app_assoc.
        -- repeat constructor.
    + exists [Invoke Get_trend; Emit (activity c (cross_message lowerTrend))].
      split.
      * cbn [snd trace set_gui set_trace emitted asked_trend].
        now rewrite <- !app_assoc.
      * repeat constructor.
Qed.

Lemma unarmed_leaf {A} (m : M A) s0 s :
  unarmed_step s0 s -> unarmed_step s (post m s) -> unarmed_step s0 (post m s).
Proof. apply unarmed_step_trans. Qed.

Lemma loop_body_unarmed c previous s :
  nextScheduledEvent (self s) = None ->
  unarmed_step s (post (loop_body c previous) s).
Proof.
  intros Hnone. pose proof (unarmed_step_refl s) as Hstart. unfold loop_body.
  apply unarmed_bind;
    [ apply (unarmed_leaf _ s s Hstart), (effects_unarmed_step false), eff_update_data
    | intros _ s1 _ H1 ].
  apply unarmed_bind;
    [ apply (unarmed_leaf _ s s1 H1), (effects_unarmed_step false), eff_handle_logging
    | intros _ s2 _ H2 ].
  apply unarmed_bind;
    [ apply (unarmed_leaf _ s s2 H2), (effects_unarmed_step false), eff_handle_trailing_prices
    | intros _ s3 _ H3 ].
  apply unarmed_bind;
    [ apply (unarmed_leaf _ s s3 H3), (effects_unarmed_step false), eff_handle_trading
    | intros _ s4 _ H4 ].
  assert (Hnone4 : nextScheduledEvent (self s4) = None)
    by (rewrite (proj1 H4); exact Hnone).
  apply unarmed_bind;
    [ unfold post; rewrite (handle_scheduler_unarmed s4 Hnone4); exact H4
    | intros _ s5 _ H5 ].
  apply unarmed_bind;
    [ apply (unarmed_leaf _ s s5 H5), cross_unarmed_step | intros lowerTrend s6 _ H6 ].
  apply unarmed_bind;
    [ apply (unarmed_leaf _ s s6 H6), (effects_unarmed_step false), eff_get_statistics
    | intros statDict s7 _ H7 ].
  apply unarmed_bind;
    [ apply (unarmed_leaf _ s s7 H7), (unarmed_step_emitted (updated c statDict)); reflexivity
    | intros _ s8 _ H8 ].
  exact H8.
Qed.

Lemma while_runningLoop_unarmed fuel c : forall b previous s,
  nextScheduledEvent (self s) = None ->
  unarmed_step s (post (while_runningLoop fuel c b previous) s).
Proof.
  induction fuel as [|fuel IH]; intros b previous s Hnone; simpl.
  - destruct b; apply unarmed_step_refl.
  - destruct b; [ | apply unarmed_step_refl ].
    pose proof (unarmed_step_refl s) as Hstart.
    apply unarmed_bind;
      [ apply (unarmed_leaf _ s s Hstart), loop_body_unarmed, Hnone
      | intros lowerTrend s1 _ H1 ].
    apply unarmed_bind;
      [ apply (unarmed_leaf _ s s1 H1), (effects_unarmed_step false), eff_running
      | intros b' s2 _ H2 ].
    apply (unarmed_leaf _ s s2 H2). apply IH. rewrite (proj1 H2). exact Hnone.
Qed.

Lemma trading_loop_unarmed fuel c s :
  nextScheduledEvent (self s) = None ->
  unarmed_step s (post (trading_loop fuel c) s).
Proof.
  intros Hnone. unfold trading_loop. cbv zeta. unfold running.
  unfold post. rewrite bind_assoc.
  rewrite (bind_ok (gets gui) _ s (gui s) s eq_refl).
  rewrite (bind_ok (ret _) _ s _ s eq_refl).
  rewrite (bind_ok (gets self) _ s (self s) s eq_refl). rewrite Hnone.
  rewrite (bind_ok (ret tt) _ s tt s eq_refl).
  now apply while_runningLoop_unarmed.
Qed.

(** A worker created for SIMULATION goes through its whole run, however it
    ends, with the scheduler unarmed: it never sends periodic statistics
    nor the notice that they were initiated, it never constructs or starts
    a telegram bot, and the only message it can send through a bot that is
    there is the notice of a lower-interval cross.  It never emits
    [finished]. *)
Theorem simulation_run_never_periodic (fuel : nat) (cfg : Settings) (g : Gui) :
  nextScheduledEvent (self (post (run fuel) (initial_state SIMULATION cfg g))) = None /\
  Forall (fun e => simulation_event e = true)
    (trace (post (run fuel) (initial_state SIMULATION cfg g))).
Proof.
  set (s0 := initial_state SIMULATION cfg g).
  assert (Hrun : unarmed_step s0 (post (run fuel) s0)).
  { assert (Hsetup : forall o s1, setup_bot SIMULATION s0 = (o, s1) -> unarmed_step s0 s1).
    { intros o s1 E. rewrite <- (post_eq _ _ _ _ E).
      apply (effects_unarmed_step false). exact (eff_setup_bot SIMULATION s0). }
    assert (Hloop : forall s1 o s2,
               unarmed_step s0 s1 ->
               trading_loop fuel SIMULATION (emitted (started SIMULATION) s1) = (o, s2) ->
               unarmed_step s0 s2).
    { intros s1 o s2 H1 E. rewrite <- (post_eq _ _ _ _ E).
      eapply unarmed_step_trans; [ exact H1 | ].
      eapply unarmed_step_trans; [ apply (unarmed_step_emitted (started SIMULATION)); reflexivity | ].
      apply trading_loop_unarmed. cbn [self emitted set_trace]. now rewrite (proj1 H1). }
    unfold post.
    destruct (run_cases fuel s0) as [(e & s1 & Hs & Hr) | (s1 & s2 & Hs & Hl)];
      change (caller (self s0)) with SIMULATION in *.
    - rewrite Hr. destruct (is_Exception e); cbn [snd].
      + eapply unarmed_step_trans; [ exact (Hsetup _ _ Hs) | ].
        now apply unarmed_step_emitted.
      + exact (Hsetup _ _ Hs).
    - destruct Hl as [(Hl & Hr) | [(Hl & Hr) | (e & Hl & Hr)]]; rewrite Hr; cbn [snd].
      + exact (Hloop _ _ _ (Hsetup _ _ Hs) Hl).
      + exact (Hloop _ _ _ (Hsetup _ _ Hs) Hl).
      + destruct (is_Exception e); cbn [snd].
        * eapply unarmed_step_trans; [ exact (Hloop _ _ _ (Hsetup _ _ Hs) Hl) | ].
          now apply unarmed_step_emitted.
        * exact (Hloop _ _ _ (Hsetup _ _ Hs) Hl). }
  destruct Hrun as [Hnone (evs & Htr & Hall)]. split.
  - rewrite Hnone. reflexivity.
  - rewrite Htr. exact Hall.
Qed.

(** ** The trailing prices on every path *)

(** The trader after [handle_trailing_prices] read [price]. *)
Definition ratchet (price : F) (t : Trader) : Trader :=
  let t1 := set_currentPrice t (Some price) in
  let t2 := match longTrailingPrice t1 with
            | Some long => if fgt price long then set_longTrailingPrice t1 (Some price) else t1
            | None => t1
            end in
  match shortTrailingPrice t2 with
  | Some short => if flt price short then set_shortTrailingPrice t2 (Some price) else t2
  | None => t2
  end.

(** Neither trailing price of [t'] went the wrong way from [t], and one
    that was unset is unset. *)
Definition never_reversed (t t' : Trader) : Prop :=
  (forall long, longTrailingPrice t = Some long ->
                exists long', longTrailingPrice t' = Some long' /\ flt long' long = false) /\
  (forall short, shortTrailingPrice t = Some short ->
                 exists short', shortTrailingPrice t' = Some short' /\ fgt short' short = false) /\
  (longTrailingPrice t = None -> longTrailingPrice t' = None) /\
  (shortTrailingPrice t = None -> shortTrailingPrice t' = None).

Lemma never_reversed_refl t : never_reversed t t.
Proof.
  repeat split; auto.
  - intros long E. exists long. split; [ exact E | apply flt_irrefl ].
  - intros short E. exists short. split; [ exact E | apply flt_irrefl ].
Qed.

Lemma never_reversed_ratchet price t : never_reversed t (ratchet price t).
Proof.
  unfold ratchet, never_reversed. cbv zeta.
  change (longTrailingPrice (set_currentPrice t (Some price))) with (longTrailingPrice t).
  destruct (longTrailingPrice t) as [long|] eqn:El.
  - destruct (fgt price long) eqn:Eg.
    + change (shortTrailingPrice (set_longTrailingPrice (set_currentPrice t (Some price))
                                    (Some price)))
        with (shortTrailingPrice t).
      destruct (shortTrailingPrice t) as [short|] eqn:Es.
      * destruct (flt price short) eqn:Ef; cbn; repeat split; try discriminate.
        -- intros ? E. injection E as <-. eexists. split; [ reflexivity | ].
           now apply flt_asym.
        -- intros ? E. injection E as <-. eexists. split; [ reflexivity | ].
           unfold fgt. now apply flt_asym.
        -- intros ? E. injection E as <-. eexists. split; [ reflexivity | ].
           now apply flt_asym.
        -- intros ? E. injection E as <-. eexists. split; [ exact Es | ].
           apply flt_irrefl.
      * cbn. repeat split; try discriminate; auto.
        intros ? E. injection E as <-. eexists. split; [ reflexivity | ].
        now apply flt_asym.
    + change (shortTrailingPrice (set_currentPrice t (Some price)))
        with (shortTrailingPrice t).
      destruct (shortTrailingPrice t) as [short|] eqn:Es.
      * destruct (flt price short) eqn:Ef; cbn; repeat split; try discriminate.
        -- intros ? E. injection E as <-. eexists. split; [ exact El | apply flt_irrefl ].
        -- intros ? E. injection E as <-. eexists. split; [ reflexivity | ].
           unfold fgt. now apply flt_asym.
        -- intros ? E. injection E as <-. eexists. split; [ exact El | apply flt_irrefl ].
        -- intros ? E. injection E as <-. eexists. split; [ exact Es | apply flt_irrefl ].
      * cbn. repeat split; try discriminate; auto.
        intros ? E. injection E as <-. eexists. split; [ exact El | apply flt_irrefl ].
  - change (shortTrailingPrice (set_currentPrice t (Some price)))
      with (shortTrailingPrice t).
    destruct (shortTrailingPrice t) as [short|] eqn:Es.
    + destruct (flt price short) eqn:Ef; cbn; repeat split; try discriminate; auto.
      * intros ? E. injection E as <-. eexists. split; [ reflexivity | ].
        unfold fgt. now apply flt_asym.
      * intros ? E. injection E as <-. eexists. split; [ exact Es | apply flt_irrefl ].
    + cbn. repeat split; try discriminate; auto.
Qed.

Lemma handle_trailing_prices_run c s r t price :
  get_trader C c (gui s) = Return (Some r) ->
  trader_at r (gui s) = Some t ->
  get_current_price C (dataView t) (world (gui s)) = Return price ->
  handle_trailing_prices c s = (Ok tt, set_gui s (set_trader_at r (gui s) (ratchet price t))).
Proof.
  intros Hget Ht Hprice. unfold handle_trailing_prices.
  erewrite bind_ok by (apply ask_gui_ok; eassumption).
  erewrite bind_ok by (apply deref_ok; eassumption).
  erewrite bind_ok by (apply ask_ok; eassumption).
  erewrite bind_ok by (apply assign_ok; eassumption).
  set (t1 := set_currentPrice t (Some price)).
  erewrite bind_ok by (apply deref_ok; apply trader_at_set).
  set (t2 := match longTrailingPrice t1 with
             | Some long => if fgt price long then set_longTrailingPrice t1 (Some price) else t1
             | None => t1
             end).
  assert (Hstep2 : (match longTrailingPrice t1 with
                    | Some long =>
                        if fgt price long
                        then assign (Some r) "longTrailingPrice"
                               (fun t => set_longTrailingPrice t (Some price))
                        else ret tt
                    | None => ret tt
                    end) (set_gui s (set_trader_at r (gui s) t1))
                   = (Ok tt, set_gui s (set_trader_at r (gui s) t2))).
  { unfold t2. destruct (longTrailingPrice t1) as [long|]; [ | reflexivity ].
    destruct (fgt price long); [ | reflexivity ].
    erewrite assign_ok by apply trader_at_set.
    cbn [gui set_gui]. now rewrite set_trader_at_twice. }
  erewrite bind_ok by exact Hstep2.
  erewrite bind_ok by (apply deref_ok; apply trader_at_set).
  unfold ratchet. cbv zeta. fold t1. fold t2.
  destruct (shortTrailingPrice t2) as [short|]; [ | reflexivity ].
  destruct (flt price short); [ | reflexivity ].
  erewrite assign_ok by apply trader_at_set.
  cbn [gui set_gui]. now rewrite set_trader_at_twice.
Qed.

Lemma trader_at_other r r0 g t : r <> r0 -> trader_at r (set_trader_at r0 g t) = trader_at r g.
Proof. destruct r, r0; intros H; try reflexivity; now elim H. Qed.

(** Whatever the collaborators do (no trader, no price, an exception), and
    for either trader of the gui: a trader that is there before and after
    [handle_trailing_prices] has a long trailing price that is not less than
    before and a short one that is not greater, and a trailing price that
    was unset is still unset. *)
Theorem trailing_prices_never_reverse (c : Caller) (s : State) (r : TraderRef) (t t' : Trader) :
  trader_at r (gui s) = Some t ->
  trader_at r (gui (post (handle_trailing_prices c) s)) = Some t' ->
  never_reversed t t'.
Proof.
  intros Ht Ht'.
  assert (Hsame : post (handle_trailing_prices c) s = s -> never_reversed t t').
  { intros E. rewrite E in Ht'. rewrite Ht in Ht'. injection Ht' as <-.
    apply never_reversed_refl. }
  destruct (get_trader C c (gui s)) as [h|e] eqn:Hget.
  2:{ apply Hsame. unfold post, handle_trailing_prices.
      now rewrite (bind_raise _ _ _ _ _ (ask_gui_throw _ _ _ Hget)). }
  destruct h as [r0|].
  2:{ apply Hsame. unfold post, handle_trailing_prices.
      now rewrite (bind_ok _ _ _ _ _ (ask_gui_ok _ _ _ Hget)). }
  destruct (trader_at r0 (gui s)) as [t0|] eqn:Ht0.
  2:{ apply Hsame. unfold post, handle_trailing_prices.
      rewrite (bind_ok _ _ _ _ _ (ask_gui_ok _ _ _ Hget)).
      unfold deref at 1. rewrite (bind_assoc (not_none (Some r0) "dataView")).
      rewrite (bind_ok (not_none (Some r0) _) _ s r0 s eq_refl).
      rewrite bind_assoc. rewrite (bind_ok (gets gui) _ s (gui s) s eq_refl).
      now rewrite Ht0. }
  destruct (get_current_price C (dataView t0) (world (gui s))) as [price|e] eqn:Hprice.
  2:{ apply Hsame. unfold post, handle_trailing_prices.
      rewrite (bind_ok _ _ _ _ _ (ask_gui_ok _ _ _ Hget)).
      rewrite (bind_ok _ _ _ _ _ (deref_ok _ _ _ _ Ht0)).
      unfold ask at 1. rewrite (bind_assoc (gets gui)).
      rewrite (bind_ok (gets gui) _ s (gui s) s eq_refl).
      now rewrite Hprice. }
  unfold post in Ht'. rewrite (handle_trailing_prices_run c s r0 t0 price Hget Ht0 Hprice) in Ht'.
  cbn [snd gui set_gui] in Ht'.
  destruct r, r0; cbn in Ht', Ht, Ht0.
  - rewrite Ht in Ht0. injection Ht0 as <-. injection Ht' as <-. apply never_reversed_ratchet.
  - rewrite Ht in Ht'. injection Ht' as <-. apply never_reversed_refl.
  - rewrite Ht in Ht'. injection Ht' as <-. apply never_reversed_refl.
  - rewrite Ht in Ht0. injection Ht0 as <-. injection Ht' as <-. apply never_reversed_ratchet.
Qed.

(** ** A LIVE set-up that returns *)

(** When [setup_bot] returns for LIVE, it has set [runningLive].  With the
    scheduling check box ticked, set-up ended by a call of
    [initialize_scheduler] and the setting of the flag; the unit was one of
    the four known ones, the interval and the deadline were within what
    [timedelta] and [datetime] hold, and the scheduler is armed for the
    magnitude times the seconds of the unit, counted from the time that
    call read: the last reading of the clock in set-up, the world being as
    that reading left it.  With telegram trading ticked the telegram bot
    was started. *)
Theorem setup_bot_live_returns (s s' : State) :
  setup_bot LIVE s = (Ok tt, s') ->
  let cfg := configuration (settings s) in
  runningLive (gui s') = true /\
  (schedulingStatisticsCheckBox cfg = true ->
   exists k at_arming,
     unit_seconds (schedulingIntervalComboBox cfg) = Some k /\
     effects true false false s at_arming /\
     s' = post (modify_gui (fun g => set_runningLive g true))
            (post initialize_scheduler at_arming) /\
     let t := fst (datetime_now C (world (gui at_arming))) in
     deadline_fits t (schedulingTimeUnit cfg * k) = true /\
     scheduleSeconds (self s') = Some (schedulingTimeUnit cfg * k) /\
     nextScheduledEvent (self s')
       = Some (t + timedelta_seconds (schedulingTimeUnit cfg * k)) /\
     world (gui s') = snd (datetime_now C (world (gui at_arming)))) /\
  (enableTelegramTrading cfg = true ->
   exists evs, trace s' = (trace s ++ evs)%list /\ In (Invoke Telegram_start) evs).
Proof.
  intros E. cbv zeta. unfold setup_bot in E.
  apply bind_inv in E. destruct E as ([] & s1 & E1 & E).
  apply bind_inv in E. destruct E as ([] & s2 & E2 & E).
  apply bind_inv in E. destruct E as (h & s3 & E3 & E).
  apply bind_inv in E. destruct E as ([] & s4 & E4 & E).
  rewrite (bind_ok (gets settings) _ s4 (settings s4) s4 eq_refl) in E.
  apply bind_inv in E. destruct E as ([] & s5 & E5 & E).
  apply bind_inv in E. destruct E as ([] & s6 & E6 & E).
  injection E as <-.
  assert (H04 : effects false false false s s4).
  { pose proof (eff_create_trader LIVE s) as H1. rewrite (post_eq _ _ _ _ E1) in H1.
    pose proof (eff_invoke (Set_parameters LIVE) (set_parameters C LIVE) s1) as H2.
    rewrite (post_eq _ _ _ _ E2) in H2.
    pose proof (eff_ask_gui (get_trader C LIVE) s2) as H3.
    rewrite (post_eq _ _ _ _ E3) in H3.
    pose proof (eff_set_self_trader h s3) as H4. rewrite (post_eq _ _ _ _ E4) in H4.
    eapply effects_trans; [ exact H1 | ].
    eapply effects_trans; [ exact H2 | ].
    eapply effects_trans; [ exact H3 | exact H4 ]. }
  pose proof (eff_settings _ _ _ _ _ H04) as Hset4.
  assert (H45 : effects true false false s4 s5).
  { rewrite <- (post_eq _ _ _ _ E5).
    destruct (enableTelegramTrading (configuration (settings s4)));
      [ apply eff_handle_telegram_bot | ].
    apply (effects_weaken false false false); try reflexivity. apply effects_refl. }
  pose proof (eff_settings _ _ _ _ _ H45) as Hset5.
  assert (H56 : effects false false true s5 s6).
  { rewrite <- (post_eq _ _ _ _ E6).
    destruct (schedulingStatisticsCheckBox (configuration (settings s4)));
      [ apply eff_initialize_scheduler | ].
    apply (effects_weaken false false false); try reflexivity. apply effects_refl. }
  split; [ reflexivity | split ].
  - intros Hbox. rewrite Hset4, Hbox in E6.
    destruct (initialize_scheduler_cases s5) as [Harm Hbad].
    rewrite Hset5, Hset4 in Harm, Hbad.
    destruct (unit_seconds (schedulingIntervalComboBox (configuration (settings s))))
      as [k|] eqn:Ek.
    + destruct (Harm k eq_refl) as (Hsec & _ & Hgui & Hfits & Hover).
      exists k, s5. cbv zeta.
      destruct (deadline_fits (fst (datetime_now C (world (gui s5))))
                  (schedulingTimeUnit (configuration (settings s)) * k));
        [ | destruct (Hover eq_refl) as ((e & He & _) & _);
            rewrite E6 in He; discriminate He ].
      destruct (Hfits eq_refl) as (_ & Hnext).
      rewrite (post_eq _ _ _ _ E6) in Hsec, Hnext, Hgui.
      split; [ reflexivity | ].
      split; [ eapply effects_trans; [ | exact H45 ];
               apply (effects_weaken false false false); try reflexivity; exact H04 | ].
      split; [ unfold post; now rewrite E6 | ].
      split; [ reflexivity | ].
      split; [ exact Hsec | ]. split; [ exact Hnext | ].
      cbn [gui set_gui]. now rewrite Hgui.
    + rewrite (Hbad eq_refl) in E6. discriminate E6.
  - intros Htg. rewrite Hset4, Htg in E5.
    destruct (handle_telegram_bot_ok s4 s5 E5) as (pre & Htr5).
    destruct H04 as [_ _ _ _ (evs0 & Htr4 & _)].
    destruct H56 as [_ _ _ _ (evs6 & Htr6 & _)].
    exists (evs0 ++ pre ++ [Invoke Telegram_start] ++ evs6)%list. split.
    + cbn [trace set_gui]. rewrite Htr6, Htr5, Htr4. now rewrite <- !app_assoc.
    + apply in_or_app. right. apply in_or_app. right. now left.
Qed.


End Worker.

(** * Implicit arguments

    The types of the worker's objects are read off the collaborators. *)

Arguments set_currentPrice {F Data Trade TradingOption}.
Arguments set_simulationTrader {F W Data TelegramBot Trade TradingOption}.
Arguments set_runningLive {F W Data TelegramBot Trade TradingOption}.
Arguments set_simulationRunningLive {F W Data TelegramBot Trade TradingOption}.
Arguments set_world {F W Data TelegramBot Trade TradingOption}.
Arguments trader_at {F W Data TelegramBot Trade TradingOption}.
Arguments set_gui {F W Data TelegramBot Trade TradingOption OptionInfo}.
Arguments handle_scheduler {F W Data TelegramBot Trade TradingOption OptionInfo}.
Arguments setup_bot {F W Data TelegramBot Trade TradingOption OptionInfo}.
Arguments update_data {F W Data TelegramBot Trade TradingOption OptionInfo}.
Arguments handle_trading {F W Data TelegramBot Trade TradingOption OptionInfo}.
Arguments handle_trailing_prices {F NumF W Data TelegramBot Trade TradingOption OptionInfo}.
Arguments handle_logging {F W Data TelegramBot Trade TradingOption OptionInfo}.
Arguments handle_lower_interval_cross {F W Data TelegramBot Trade TradingOption OptionInfo}.
Arguments get_statistics {F NumF W Data TelegramBot Trade TradingOption OptionInfo}.
Arguments running {F W Data TelegramBot Trade TradingOption OptionInfo}.
Arguments while_runningLoop {F NumF W Data TelegramBot Trade TradingOption OptionInfo}.
Arguments run {F NumF W Data TelegramBot Trade TradingOption OptionInfo}.
Arguments loop_body {F NumF W Data TelegramBot Trade TradingOption OptionInfo}.
Arguments started {F OptionInfo}.
Arguments New_SimulationTrader {F}.
Arguments Telegram_start {F}.
Arguments Main_logic {F}.
Arguments New_Data {F}.
Arguments Set_parameters {F}.
Arguments trading_loop {F NumF W Data TelegramBot Trade TradingOption OptionInfo}.
Arguments before_loop {F W Data TelegramBot Trade TradingOption OptionInfo}.
Arguments setup_error_reported {F NumF W Data TelegramBot Trade TradingOption OptionInfo}.
Arguments loop_error_reported {F NumF W Data TelegramBot Trade TradingOption OptionInfo}.
Arguments initial_state {F W Data TelegramBot Trade TradingOption OptionInfo}.
Arguments post {F W Data TelegramBot Trade TradingOption OptionInfo A}.
Arguments emitted {F W Data TelegramBot Trade TradingOption OptionInfo}.
Arguments reschedules_from_old_deadline {F W Data TelegramBot Trade TradingOption OptionInfo}.
Arguments ticker_rounded {F NumF W Data TelegramBot Trade TradingOption OptionInfo}.
Arguments mkTrader {F Data Trade TradingOption}.
Arguments dataView {F Data Trade TradingOption}.
Arguments longTrailingPrice {F Data Trade TradingOption}.
Arguments shortTrailingPrice {F Data Trade TradingOption}.
Arguments trend {F Data Trade TradingOption}.
Arguments startingBalance {F Data Trade TradingOption}.
Arguments balance {F Data Trade TradingOption}.
Arguments symbol {F Data Trade TradingOption}.
Arguments mkConfiguration {F}.
Arguments binanceApiSecret {F}.
Arguments binanceApiKey {F}.
Arguments mkSettings {F}.
Arguments configuration {F}.
Arguments mkGui {F W Data TelegramBot Trade TradingOption}.
Arguments trader {F W Data TelegramBot Trade TradingOption}.
Arguments simulationTrader {F W Data TelegramBot Trade TradingOption}.
Arguments lowerIntervalData {F W Data TelegramBot Trade TradingOption}.
Arguments simulationLowerIntervalData {F W Data TelegramBot Trade TradingOption}.
Arguments simulationRunningLive {F W Data TelegramBot Trade TradingOption}.
Arguments world {F W Data TelegramBot Trade TradingOption}.
Arguments mkUpdateDict {F OptionInfo}.
Arguments net {F OptionInfo}.
Arguments netValue {F OptionInfo}.
Arguments profitLossValue {F OptionInfo}.
Arguments percentageValue {F OptionInfo}.
Arguments tickerValue {F OptionInfo}.
Arguments self {F W Data TelegramBot Trade TradingOption OptionInfo}.
Arguments settings {F W Data TelegramBot Trade TradingOption OptionInfo}.
Arguments gui {F W Data TelegramBot Trade TradingOption OptionInfo}.
Arguments trace {F W Data TelegramBot Trade TradingOption OptionInfo}.
Arguments mkCollaborators {F W Data TelegramBot Trade TradingOption OptionInfo}.
Arguments get_trader {F W Data TelegramBot Trade TradingOption OptionInfo}.
Arguments get_lower_interval_data {F W Data TelegramBot Trade TradingOption OptionInfo}.
Arguments get_current_price {F W Data TelegramBot Trade TradingOption OptionInfo}.
Arguments get_trend {F W Data TelegramBot Trade TradingOption OptionInfo}.
Arguments datetime_now {F W Data TelegramBot Trade TradingOption OptionInfo}.
Arguments activity {F OptionInfo}.
Arguments updated {F OptionInfo}.
Arguments error {F OptionInfo}.
Arguments Get_trend {F}.
Arguments Emit {F OptionInfo}.
Arguments Invoke {F OptionInfo}.

(** ** The tuple of the source against the ladder *)

(** Below each interval but '1m', the tuple of the source and the ladder in
    ascending order give the same interval except at '4h', '12h' and '1d',
    the neighbours of the misplaced '12h'. *)
Lemma lower_interval_disagreements (i : string) :
  In i intervalLadder -> i <> "1m" ->
  (lower_interval_of sortedIntervals i = lower_interval_of intervalLadder i <->
   ~ In i ["4h"; "12h"; "1d"]).
Proof.
  intros Hin Hne. simpl in Hin.
  repeat (destruct Hin as [<-|Hin]; [ try (now elim Hne) | ]); try contradiction;
    vm_compute; split; intros H; try reflexivity; try discriminate H;
    try (intros [E|[E|[E|[]]]]; discriminate E);
    try (elim H; tauto).
Qed.

Example lower_interval_12h : lower_interval_of sortedIntervals "12h" = Return "2h".
Proof. reflexivity. Qed.

Example lower_interval_1d : lower_interval_of sortedIntervals "1d" = Return "8h".
Proof. reflexivity. Qed.

Example lower_interval_unknown :
  lower_interval_of sortedIntervals "2d" = Throw (ValueError "tuple.index(x): x not in tuple").
Proof. reflexivity. Qed.

(** * A run of the worker against scripted collaborators

    The collaborators below are a small market: the world holds the clock,
    the ticker price, the trend of the lower interval and whether the user
    asks the bot to stop; a data feed is its interval and a telegram bot its
    token.  They serve to run the embedding on concrete inputs. *)

Record World := mkWorld {
  clock : Z;
  price : Decimal.t;
  lower_trend : option Trend;
  stop_request : bool
}.

Definition DemoGui : Type := Gui Decimal.t World string string unit string.
Definition DemoTrader : Type := Trader Decimal.t string unit string.
Definition DemoState : Type := State Decimal.t World string string unit string string.

Definition zero : Decimal.t := Decimal.mk 0 0.

Definition demo_trader (startingBalance : Decimal.t) (symbol interval : string) : DemoTrader :=
  mkTrader interval None None None (Some BULLISH) startingBalance startingBalance
    zero zero "BTC" symbol [] [] None false.

Definition demo_convert_interval (text : string) : result string :=
  if String.eqb text "1 Minute" then Return "1m"
  else if String.eqb text "1 Hour" then Return "1h"
  else if String.eqb text "4 Hours" then Return "4h"
  else Throw (KeyError text).

Definition demo_get_trader (c : Caller) (g : DemoGui) : result (option TraderRef) :=
  match c with
  | LIVE => Return (match trader g with Some _ => Some LiveTrader | None => None end)
  | SIMULATION =>
      Return (match simulationTrader g with Some _ => Some SimulatedTrader | None => None end)
  | OtherCaller _ => Throw (TypeError "Invalid type of caller specified.")
  end.

Definition demo_get_lower_interval_data (c : Caller) (g : DemoGui) : result (option string) :=
  match c with
  | LIVE => Return (lowerIntervalData g)
  | SIMULATION => Return (simulationLowerIntervalData g)
  | OtherCaller _ => Throw (TypeError "Invalid type of caller specified.")
  end.

(** The trader's decision step; a pending stop request is served while it
    runs, which clears both running flags. *)
Definition demo_main_logic (r : TraderRef) (g : DemoGui) : result unit * DemoGui :=
  (Return tt,
   if stop_request (world g)
   then set_simulationRunningLive (set_runningLive g false) false
   else g).

Definition demo_safe_rounded (x : option Decimal.t) : string :=
  match x with
  | None => "None"
  | Some v => "$" ++ fstr (fround v 2)
  end.

(** The collaborators, but for [gui.set_parameters] and the trader's
    [main_logic]. *)
Definition scripted
  (set_parameters : Caller -> DemoGui -> result unit * DemoGui)
  (main_logic : TraderRef -> DemoGui -> result unit * DemoGui)
  : Collaborators Decimal.t World string string unit string string :=
  mkCollaborators
    demo_convert_interval
    (fun startingBalance symbol interval g =>
       (Return (demo_trader startingBalance symbol interval), g))
    (fun apiSecret apiKey interval symbol tld isIsolated g =>
       (Return (demo_trader (Decimal.mk 1000 0) symbol interval), g))
    (fun interval g => (Return interval, g))
    (fun token g => (Return token, g))
    (fun bot g => (Return tt, g))
    (fun bot chatID message g => (Return tt, g))
    (fun bot chatID seconds g => (Return tt, g))
    set_parameters
    demo_get_trader
    demo_get_lower_interval_data
    (fun option t w => Return option)
    (fun d w => Return true)
    (fun r g => (Return tt, g))
    (fun d w => Return (price w))
    main_logic
    (fun r g => (Return tt, g))
    (fun r d g => (Return (lower_trend (world g)), g))
    (fun t w => Return (balance t))
    (fun t w => Return (Decimal.mk (-12346) 3))
    (fun t w => Return None)
    (fun t profit w => Return (if flt profit zero then "Loss" else "Profit"))
    (fun t startingBalance net w => Return (Decimal.mk (-1234567) 6))
    (fun t w => Return "None")
    (fun t x w => Return (demo_safe_rounded x))
    (fun t w => Return "None")
    (fun w => (clock w, w))
    1
    2.

(** The collaborators of the runs below: [gui.set_parameters] returns, and
    [main_logic] serves a request to stop. *)
Definition demo : Collaborators Decimal.t World string string unit string string :=
  scripted (fun c g => (Return tt, g)) demo_main_logic.

(** The same with a [gui.set_parameters] that calls [sys.exit(1)]. *)
Definition exiting : Collaborators Decimal.t World string string unit string string :=
  scripted (fun c g => (Throw (mkExn "SystemExit" "1"), g)) demo_main_logic.

(** The same with a [main_logic] that is interrupted. *)
Definition interrupted : Collaborators Decimal.t World string string unit string string :=
  scripted (fun c g => (Return tt, g))
    (fun r g => (Throw (mkExn "KeyboardInterrupt" ""), g)).

Definition demo_configuration (secret : string) (notify : bool) : Configuration Decimal.t :=
  mkConfiguration "chat-1" secret "abc" false false (Decimal.mk 1000 0)
    true notify "token" true 5 "Minutes".

Definition demo_settings (secret : string) (notify : bool) : Settings Decimal.t :=
  mkSettings (demo_configuration secret notify)
    (fun c => match c with
              | LIVE | SIMULATION => Some (mkConfigDict "BTCUSDT" "4 Hours" true)
              | OtherCaller _ => None
              end).

Definition demo_world : World := mkWorld 0 (Decimal.mk 1234 3) (Some BEARISH) false.

Definition demo_gui (w : World) : DemoGui :=
  mkGui None None None None None false false false w.

(** A fresh worker for [c]. *)
Definition fresh (c : Caller) (secret : string) (notify : bool) (w : World) : DemoState :=
  initial_state c (demo_settings secret notify) (demo_gui w).

(** The same state with the clock at [t]. *)
Definition at_time (t : Z) (s : DemoState) : DemoState :=
  set_gui s (set_world (gui s)
               (mkWorld t (price (world (gui s))) (lower_trend (world (gui s)))
                  (stop_request (world (gui s))))).


(** ** Set-up without a secret (C4) *)

Lemma run_live_without_secret_witness :
  binanceApiSecret (configuration (settings (fresh LIVE "" true demo_world))) = "" /\
  binanceApiKey (configuration (settings (fresh LIVE "" true demo_world))) = "abc" /\
  run demo 3 (fresh LIVE "" true demo_world)
    = (Ok tt, emitted (error LIVE secret_missing) (fresh LIVE "" true demo_world)).
Proof.
  split; [ reflexivity | split; [ reflexivity | ] ].
  apply (run_live_without_secret _ _ _ _ _ _ _ demo 3 (fresh LIVE "" true demo_world)
           (mkConfigDict "BTCUSDT" "4 Hours" true) "4h");
    reflexivity.
Defined.

(** ** A first iteration that raises, and a set-up left by [SystemExit]
    (C5) *)

(** A SIMULATION worker that is to notify of a cross through telegram, in a
    gui that has no telegram bot: set up, with [started] emitted, and after
    the iteration that found the cross. *)
Definition notifying : DemoState := fresh SIMULATION "s" true demo_world.

Definition notifying_set_up : DemoState :=
  Eval vm_compute in post (setup_bot demo SIMULATION) notifying.

Definition notifying_started : DemoState :=
  Eval vm_compute in emitted (started SIMULATION) notifying_set_up.

Definition notifying_failed : DemoState :=
  Eval vm_compute in post (loop_body demo SIMULATION None) notifying_started.


(** The same worker with a [gui.set_parameters] that exits: the state
    set-up is left in, which is also the one the run is left in. *)
Definition exited : DemoState :=
  Eval vm_compute in post (setup_bot exiting SIMULATION) notifying.

Example run_exiting :
  setup_bot exiting SIMULATION notifying = (Raise (mkExn "SystemExit" "1"), exited) /\
  run exiting 3 notifying = (Raise (mkExn "SystemExit" "1"), exited) /\
  trace exited
    = [Emit (activity SIMULATION "Retrieving data for interval 4h...");
       Invoke (New_SimulationTrader (Decimal.mk 1000 0) "BTCUSDT" "4h");
       Emit (activity SIMULATION "Retrieved data successfully.");
       Emit (activity SIMULATION "Retrieving data for lower interval 12h...");
       Invoke (New_Data "12h");
       Emit (activity SIMULATION "Retrieved lower interval data successfully.");
       Invoke (Set_parameters SIMULATION)].
Proof. split; [ | split ]; vm_compute; reflexivity. Qed.

(** A SIMULATION worker whose [main_logic] is interrupted in the first
    iteration: the state that leaves, which the run is left in. *)
Definition quiet : DemoState := fresh SIMULATION "s" false demo_world.

Definition quiet_set_up : DemoState :=
  Eval vm_compute in post (setup_bot interrupted SIMULATION) quiet.

Definition quiet_interrupted : DemoState :=
  Eval vm_compute in
  post (trading_loop interrupted 3 SIMULATION) (emitted (started SIMULATION) quiet_set_up).

Example run_interrupted :
  setup_bot interrupted SIMULATION quiet = (Ok tt, quiet_set_up) /\
  trading_loop interrupted 3 SIMULATION (emitted (started SIMULATION) quiet_set_up)
    = (Raise (mkExn "KeyboardInterrupt" ""), quiet_interrupted) /\
  run interrupted 3 quiet = (Raise (mkExn "KeyboardInterrupt" ""), quiet_interrupted) /\
  trace quiet_interrupted
    = (trace quiet_set_up ++ [Emit (started SIMULATION); Invoke Main_logic])%list.
Proof. split; [ | split; [ | split ] ]; vm_compute; reflexivity. Qed.


(** ** The scheduler, armed for five minutes and checked a second late
    (C2, C6) *)

(** A LIVE worker set up at time 0, then looked at 301 seconds later. *)
Definition armed : DemoState :=
  Eval vm_compute in post (setup_bot demo LIVE) (fresh LIVE "s" true demo_world).

Definition late : DemoState := Eval vm_compute in at_time 301000000 armed.

Example armed_deadline :
  nextScheduledEvent (self armed) = Some 300000000 /\
  scheduleSeconds (self armed) = Some 300.
Proof. split; reflexivity. Qed.

Example late_check :
  nextScheduledEvent (self (post (handle_scheduler demo) late)) = Some 601000000.
Proof. reflexivity. Qed.



(** ** A simulated worker in its loop (C1, C7, C8, C9) *)

(** A SIMULATION worker after set-up, telegram notifications off; the user
    has asked to stop, which the trader's next decision step will serve. *)
Definition stopping_world : World := mkWorld 0 (Decimal.mk 1234 3) (Some BEARISH) true.

Definition looping : DemoState :=
  Eval vm_compute in
  post (setup_bot demo SIMULATION) (fresh SIMULATION "s" false stopping_world).

Definition it1 : DemoState := Eval vm_compute in
  post (update_data demo SIMULATION) looping.
Definition it2 : DemoState := Eval vm_compute in
  post (handle_logging demo SIMULATION) it1.
Definition it3 : DemoState := Eval vm_compute in
  post (handle_trailing_prices demo SIMULATION) it2.
Definition it4 : DemoState := Eval vm_compute in
  post (handle_trading demo SIMULATION) it3.
Definition it5 : DemoState := Eval vm_compute in
  post (handle_scheduler demo) it4.
Definition it6 : DemoState := Eval vm_compute in
  post (handle_lower_interval_cross demo SIMULATION None) it5.
Definition it7 : DemoState := Eval vm_compute in
  post (get_statistics demo) it6.

(** What [get_statistics] returns there. *)
Definition demo_statistics : UpdateDict Decimal.t string :=
  mkUpdateDict (Decimal.mk 1000 0) "$1000.0" "$1000.0" "$1000.0" "Loss" "$12.35" "-1.23%"
    "0" "BTC Owned" "0.0" "BTC Owed" "0.0" "None" "None" "None" "None" "True"
    "BTCUSDT" "$1.234" [].

Example get_statistics_it6 : get_statistics demo it6 = (Ok demo_statistics, it7).
Proof. reflexivity. Qed.

Lemma iteration_completes_before_stop_witness :
  simulationRunningLive (gui it3) = true /\
  simulationRunningLive (gui it4) = false /\
  while_runningLoop demo 1 SIMULATION true None looping
    = (Ok tt, emitted (updated SIMULATION demo_statistics) it7).
Proof.
  split; [ reflexivity | split; [ reflexivity | ] ].
  refine (proj1 (iteration_completes_before_stop _ _ _ _ _ _ _ demo 0 SIMULATION None
                   looping it1 it2 it3 it4 it5 it6 it7 (Some BEARISH) demo_statistics
                   _ _ _ _ _ _ _) _);
    vm_compute; reflexivity.
Defined.

(** The trader of that worker, as the iteration left it. *)
Definition demo_trader_it6 : DemoTrader :=
  set_currentPrice (demo_trader (Decimal.mk 1000 0) "BTCUSDT" "4h") (Some (Decimal.mk 1234 3)).

Example trader_it6 : trader_at SimulatedTrader (gui it6) = Some demo_trader_it6.
Proof. reflexivity. Qed.



Lemma handle_lower_interval_cross_notifies_witness :
  get_trend demo SimulatedTrader (Some "12h") (gui it5) = (Return (Some BEARISH), gui it5) /\
  exists evs,
    trace it6 = (trace it5 ++ Invoke Get_trend :: evs)%list /\
    In (Emit (activity SIMULATION "Bearish trend detected on lower interval data.")) evs.
Proof.
  split; [ reflexivity | ].
  assert (Htrader : get_trader demo SIMULATION (gui it5) = Return (Some SimulatedTrader))
    by reflexivity.
  assert (Hdata : get_lower_interval_data demo SIMULATION (gui it5) = Return (Some "12h"))
    by reflexivity.
  assert (Htrend : get_trend demo SimulatedTrader (Some "12h") (gui it5)
                   = (Return (Some BEARISH), gui it5)) by reflexivity.
  assert (Hthere : trader_at SimulatedTrader (gui it5) = Some demo_trader_it6)
    by reflexivity.
  destruct (handle_lower_interval_cross_notifies _ _ _ _ _ _ _ demo SIMULATION None it5
              SimulatedTrader (Some "12h") (Some BEARISH) (gui it5) demo_trader_it6
              Htrader Hdata Htrend Hthere)
    as (evs & Htrace & Hnotice & _).
  exists evs. split; [ exact Htrace | ].
  apply Hnotice. simpl. split; discriminate.
Defined.

(** A trader holding a long trailing price of 1.0 and a short one of 2.0
    when the ticker reads 1.234. *)
Definition demo_trader_trailing : DemoTrader :=
  mkTrader "4h" None (Some (Decimal.mk 10 1)) (Some (Decimal.mk 20 1))
    (Some BULLISH) (Decimal.mk 1000 0) (Decimal.mk 1000 0) zero zero
    "BTC" "BTCUSDT" [] [] None false.

Definition trailing : DemoState :=
  Eval vm_compute in
  set_gui looping (set_simulationTrader (gui looping) (Some demo_trader_trailing)).

Lemma handle_trailing_prices_ratchet_witness :
  get_current_price demo "4h" (world (gui trailing)) = Return (Decimal.mk 1234 3) /\
  exists t',
    trader_at SimulatedTrader (gui (post (handle_trailing_prices demo SIMULATION) trailing))
      = Some t' /\
    longTrailingPrice t' = Some (Decimal.mk 1234 3) /\
    shortTrailingPrice t' = Some (Decimal.mk 1234 3).
Proof.
  split; [ reflexivity | ].
  assert (Htrader : get_trader demo SIMULATION (gui trailing) = Return (Some SimulatedTrader))
    by reflexivity.
  assert (Hthere : trader_at SimulatedTrader (gui trailing) = Some demo_trader_trailing)
    by reflexivity.
  assert (Hprice : get_current_price demo (dataView demo_trader_trailing)
                     (world (gui trailing)) = Return (Decimal.mk 1234 3)) by reflexivity.
  destruct (handle_trailing_prices_ratchet _ _ _ _ _ _ _ demo SIMULATION trailing
              SimulatedTrader demo_trader_trailing (Decimal.mk 1234 3)
              Htrader Hthere Hprice)
    as (t' & Hrun & _ & Hlong & Hshort & _).
  exists t'. unfold post. rewrite Hrun. split; [ apply trader_at_set | ].
  split; [ exact Hlong | exact Hshort ].
Defined.

(** * Further implicit arguments *)

Arguments Telegram_send_statistics {F}.
Arguments create_trader {F W Data TelegramBot Trade TradingOption OptionInfo}.
Arguments handle_telegram_bot {F W Data TelegramBot Trade TradingOption OptionInfo}.
Arguments initialize_scheduler {F W Data TelegramBot Trade TradingOption OptionInfo}.
Arguments interfaceDictionary {F}.
Arguments runningLive {F W Data TelegramBot Trade TradingOption}.
Arguments telegramBot {F W Data TelegramBot Trade TradingOption}.
Arguments never_reversed {F NumF Data Trade TradingOption}.
Arguments ratchet {F NumF Data Trade TradingOption}.

(** * Further runs against the scripted collaborators *)

(** ** LIVE with a secret and no key *)

Definition keyless_settings : Settings Decimal.t :=
  mkSettings
    (mkConfiguration "chat-1" "s" "" false false (Decimal.mk 1000 0)
       true true "token" true 5 "Minutes")
    (interfaceDictionary (demo_settings "s" true)).

Definition keyless : DemoState := initial_state LIVE keyless_settings (demo_gui demo_world).

Lemma run_live_without_key_witness :
  binanceApiSecret (configuration (settings keyless)) = "s" /\
  binanceApiKey (configuration (settings keyless)) = "" /\
  run demo 3 keyless = (Ok tt, emitted (error LIVE key_missing) keyless).
Proof.
  split; [ reflexivity | split; [ reflexivity | ] ].
  refine (proj2 (run_live_without_key _ _ _ _ _ _ _ demo 3 keyless
                   (mkConfigDict "BTCUSDT" "4 Hours" true) "4h" _ _ _ _ _));
    try reflexivity.
  discriminate.
Defined.

(** ** A simulation without credentials *)

Lemma create_trader_requests_witness :
  binanceApiSecret (configuration (settings (fresh SIMULATION "" false demo_world))) = "" /\
  exists rest,
    trace (post (create_trader demo SIMULATION) (fresh SIMULATION "" false demo_world))
      = (Emit (activity SIMULATION "Retrieving data for interval 4h...")
         :: Invoke (New_SimulationTrader (Decimal.mk 1000 0) "BTCUSDT" "4h") :: rest)%list.
Proof.
  split; [ reflexivity | ].
  refine (proj1 (create_trader_requests _ _ _ _ _ _ _ demo SIMULATION
                   (fresh SIMULATION "" false demo_world)
                   (mkConfigDict "BTCUSDT" "4 Hours" true) "4h" _ _) _);
    reflexivity.
Defined.

(** ** Arming, then a late check *)

(** A LIVE worker whose telegram bot is there, before the scheduler is
    armed. *)
Definition with_bot : DemoState :=
  Eval vm_compute in post (handle_telegram_bot demo) (fresh LIVE "s" true demo_world).

Definition armed_with_bot : DemoState :=
  Eval vm_compute in post (initialize_scheduler demo) with_bot.

Lemma armed_check_fires_when_interval_elapsed_witness :
  fst (datetime_now demo (world (gui with_bot))) = 0 /\
  fst (datetime_now demo (world (gui (at_time 301000000 armed_with_bot)))) = 301000000 /\
  trace (post (handle_scheduler demo) (at_time 301000000 armed_with_bot))
    = (trace armed_with_bot ++ [Invoke (Telegram_send_statistics "chat-1" (Some 300))])%list.
Proof.
  split; [ reflexivity | split; [ reflexivity | ] ].
  refine (proj1 (armed_check_fires_when_interval_elapsed _ _ _ _ _ _ _ demo with_bot
                   (at_time 301000000 armed_with_bot) 300 "token" _ _ _ _) _);
    try reflexivity.
  vm_compute. discriminate.
Defined.

(** ** An interval too long to arm *)

(** Periodic statistics every [magnitude] days. *)
Definition every_days (magnitude : Z) : DemoState :=
  initial_state LIVE
    (mkSettings
       (mkConfiguration "chat-1" "s" "abc" false false (Decimal.mk 1000 0)
          false false "token" true magnitude "Days")
       (interfaceDictionary (demo_settings "s" false)))
    (demo_gui demo_world).

Lemma initialize_scheduler_arms_witness :
  fst (initialize_scheduler demo (every_days 2147483647))
    = Raise (OverflowError "days=2147483647; must have magnitude <= 999999999") /\
  scheduleSeconds (self (post (initialize_scheduler demo) (every_days 2147483647)))
    = Some (2147483647 * 86400) /\
  nextScheduledEvent (self (post (initialize_scheduler demo) (every_days 2147483647)))
    = None /\
  fst (initialize_scheduler demo (every_days 30)) = Ok tt /\
  nextScheduledEvent (self (post (initialize_scheduler demo) (every_days 30)))
    = Some (0 + timedelta_seconds (30 * 86400)).
Proof.
  destruct (initialize_scheduler_arms _ _ _ _ _ _ _ demo (every_days 2147483647))
    as [Hfar _].
  destruct (Hfar 86400 eq_refl) as (Hsec & _ & _ & _ & Hover).
  destruct (Hover eq_refl) as (_ & Hnext).
  destruct (initialize_scheduler_arms _ _ _ _ _ _ _ demo (every_days 30)) as [Hmonth _].
  destruct (Hmonth 86400 eq_refl) as (_ & _ & _ & Hfits & _).
  destruct (Hfits eq_refl) as (Hok & Hdeadline).
  split; [ vm_compute; reflexivity | ].
  split; [ exact Hsec | ]. split; [ exact Hnext | ].
  split; [ exact Hok | exact Hdeadline ].
Defined.

(** An interval that a [timedelta] holds and that ends after the year
    9999. *)
Example initialize_scheduler_beyond_9999 :
  initialize_scheduler demo (every_days 4000000)
    = (Raise (OverflowError "date value out of range"),
       post (initialize_scheduler demo) (every_days 4000000)) /\
  scheduleSeconds (self (post (initialize_scheduler demo) (every_days 4000000)))
    = Some 345600000000 /\
  nextScheduledEvent (self (post (initialize_scheduler demo) (every_days 4000000))) = None.
Proof. split; [ | split ]; vm_compute; reflexivity. Qed.

(** ** Periodic statistics without telegram trading *)

Definition statistics_only_settings : Settings Decimal.t :=
  mkSettings
    (mkConfiguration "chat-1" "s" "abc" false false (Decimal.mk 1000 0)
       false false "token" true 5 "Minutes")
    (interfaceDictionary (demo_settings "s" false)).

Definition statistics_only : DemoState :=
  initial_state LIVE statistics_only_settings (demo_gui demo_world).

Definition statistics_only_set_up : DemoState :=
  Eval vm_compute in post (setup_bot demo LIVE) statistics_only.

Lemma run_armed_without_bot_witness :
  setup_bot demo LIVE statistics_only = (Ok tt, statistics_only_set_up) /\
  nextScheduledEvent (self statistics_only_set_up) = Some 300000000 /\
  telegramBot (gui statistics_only_set_up) = None /\
  run demo 3 statistics_only
    = (Ok tt, emitted (error LIVE no_send_message)
                (emitted (started LIVE) statistics_only_set_up)).
Proof.
  assert (Hsetup : setup_bot demo LIVE statistics_only = (Ok tt, statistics_only_set_up))
    by (vm_compute; reflexivity).
  split; [ exact Hsetup | split; [ reflexivity | split; [ reflexivity | ] ] ].
  exact (run_armed_without_bot _ _ _ _ _ _ _ demo 3 statistics_only statistics_only_set_up
           300000000 Hsetup eq_refl eq_refl).
Defined.

(** ** The trailing prices of the demo trader *)

Lemma trailing_prices_never_reverse_witness :
  trader_at SimulatedTrader (gui trailing) = Some demo_trader_trailing /\
  never_reversed demo_trader_trailing (ratchet (Decimal.mk 1234 3) demo_trader_trailing).
Proof.
  split; [ reflexivity | ].
  apply (trailing_prices_never_reverse _ _ _ _ _ _ _ demo SIMULATION trailing
           SimulatedTrader);
    vm_compute; reflexivity.
Defined.

(** ** The LIVE set-up of the demo *)

Lemma setup_bot_live_returns_witness :
  setup_bot demo LIVE (fresh LIVE "s" true demo_world) = (Ok tt, armed) /\
  runningLive (gui armed) = true /\
  scheduleSeconds (self armed) = Some 300 /\
  nextScheduledEvent (self armed) = Some (0 + timedelta_seconds 300) /\
  In (Invoke Telegram_start) (trace armed).
Proof.
  assert (Hsetup : setup_bot demo LIVE (fresh LIVE "s" true demo_world) = (Ok tt, armed))
    by (vm_compute; reflexivity).
  split; [ exact Hsetup | ].
  destruct (setup_bot_live_returns _ _ _ _ _ _ _ demo _ _ Hsetup) as (Hflag & _ & Hbot).
  split; [ exact Hflag | ]. split; [ reflexivity | ]. split; [ reflexivity | ].
  destruct (Hbot eq_refl) as (evs & Htr & Hin).
  rewrite Htr. apply in_or_app. now right.
Defined.
